(** * LitterBox: the LNK forensic parser (app/analyzers/static/lnk_parser.py)

    A shallow embedding of [LnkForensics] and of the Python primitives it
    relies on (slicing, [struct.unpack], [hex], [str.strip]), followed by the
    properties of the parser. *)

From Stdlib Require Import ZArith QArith Qround String Ascii List Lia.
From Stdlib.Strings Require Import Byte.
From Stdlib Require DecimalString HexadecimalString HexadecimalN HexadecimalPos.
From stdpp Require Import gmap strings list fin_maps.
From Equations Require Import Equations.

Set Warnings "-register-all".
#[local] Open Scope Z_scope.

(** ** Python values and exceptions *)

Module Py.

(** Exceptions the parser can meet.  [str_exn] is Python's [str(e)]. *)
Inductive exn :=
| struct_error (n : Z)
| IndexError
| KeyError (k : string)
| TypeError
| OSError (msg : string)
| LnkForensicsError (msg : string).

Definition quote_repr (k : string) : string := "'" +:+ k +:+ "'".

Definition str_exn (e : exn) : string :=
  match e with
  | struct_error n =>
      "unpack requires a buffer of " +:+ DecimalString.NilZero.string_of_int (Z.to_int n)
        +:+ " bytes"
  | IndexError => "index out of range"
  | KeyError k => quote_repr k
  | TypeError => "unsupported operand type"
  | OSError msg => msg
  | LnkForensicsError msg => msg
  end.

Inductive res (A : Type) :=
| Ok (a : A)
| Raise (e : exn).
Arguments Ok {A} a.
Arguments Raise {A} e.

(** Values stored in the parser's dictionaries and returned by its accessors. *)
Inductive pyval :=
| PNone
| PInt (z : Z)
| PStr (s : string)
| PList (l : list pyval)
| PDict (d : gmap string pyval).

(** Truthiness, as in [if v]. *)
Definition truthy (v : pyval) : bool :=
  match v with
  | PNone => false
  | PInt z => negb (z =? 0)
  | PStr s => negb (String.eqb s EmptyString)
  | PList l => match l with [] => false | _ => true end
  | PDict d => negb (bool_decide (d = ∅))
  end.

(** [d.get(k, default)] for a dictionary stored as a value. *)
Definition get_or (d : gmap string pyval) (k : string) (default : pyval) : pyval :=
  match d !! k with Some v => v | None => default end.

Definition as_dict (v : pyval) : gmap string pyval :=
  match v with PDict d => d | _ => ∅ end.

(** ** Bytes, slices and indexing *)

Definition bytes := list byte.

Definition byte_val (x : byte) : Z := Z.of_N (Byte.to_N x).

Definition len {A} (b : list A) : Z := Z.of_nat (length b).

(** Normalisation of one slice bound: a negative bound counts from the end,
    and both are clamped to the sequence. *)
Definition slice_bound (n i : Z) : Z :=
  if i <? 0 then Z.max (n + i) 0 else Z.min i n.

(** [b[i:j]] *)
Definition slice {A} (b : list A) (i j : Z) : list A :=
  let lo := slice_bound (len b) i in
  let hi := slice_bound (len b) j in
  take (Z.to_nat (hi - lo)) (drop (Z.to_nat lo) b).

(** [b[i]]: a negative index counts from the end; out of range raises. *)
Definition index_at (b : bytes) (i : Z) : res Z :=
  let k := if i <? 0 then len b + i else i in
  if (k <? 0) || (len b <=? k) then Raise IndexError
  else match b !! Z.to_nat k with
       | Some x => Ok (byte_val x)
       | None => Raise IndexError
       end.

(** ** struct.unpack, little-endian *)

Definition le_uint (bs : bytes) : Z :=
  fold_right (fun x acc => byte_val x + 256 * acc) 0 bs.

Definition to_signed (bits u : Z) : Z :=
  if u <? 2 ^ (bits - 1) then u else u - 2 ^ bits.

Definition unpack_unsigned (width : Z) (bs : bytes) : res Z :=
  if len bs =? width then Ok (le_uint bs) else Raise (struct_error width).

Definition unpack_signed (width : Z) (bs : bytes) : res Z :=
  if len bs =? width then Ok (to_signed (8 * width) (le_uint bs))
  else Raise (struct_error width).

(** ['<H'], ['<I'], ['<i'], ['<q'] *)
Definition unpack_H := unpack_unsigned 2.
Definition unpack_I := unpack_unsigned 4.
Definition unpack_i := unpack_signed 4.
Definition unpack_q := unpack_signed 8.

(** ** Text helpers *)

Definition chr (z : Z) : ascii := ascii_of_N (Z.to_N z).

Fixpoint string_of_chars (l : list ascii) : string :=
  match l with
  | [] => EmptyString
  | c :: l' => String c (string_of_chars l')
  end.

Fixpoint chars_of_string (s : string) : list ascii :=
  match s with
  | EmptyString => []
  | String c s' => c :: chars_of_string s'
  end.

Definition hex_digits (n : N) : string := HexadecimalString.NilZero.string_of_uint (N.to_hex_uint n).

(** [hex(z)] *)
Definition hex (z : Z) : string :=
  (if z <? 0 then "-0x" else "0x") +:+ hex_digits (Z.to_N (Z.abs z)).

(** [s[n:]] for a non-negative [n] *)
Fixpoint str_drop (n : nat) (s : string) : string :=
  match n, s with
  | O, _ => s
  | S n', String _ s' => str_drop n' s'
  | S _, EmptyString => EmptyString
  end.

Definition hex_digit_of (n : Z) : ascii :=
  if n <? 10 then chr (48 + n) else chr (87 + n).

(** [bytes.hex()]: two lowercase digits for each byte. *)
Definition bytes_hex (b : bytes) : string :=
  string_of_chars
    (flat_map (fun x => [hex_digit_of (byte_val x / 16); hex_digit_of (byte_val x mod 16)]) b).

Definition upper (c : ascii) : ascii :=
  let n := Z.of_N (N_of_ascii c) in
  if (97 <=? n) && (n <=? 122) then chr (n - 32) else c.

Definition str_upper (s : string) : string :=
  string_of_chars (map upper (chars_of_string s)).

Fixpoint zeros (n : nat) : string :=
  match n with O => EmptyString | S n' => String "0" (zeros n') end.

(** [f"{z:08X}"]: uppercase hexadecimal, zero-padded to eight characters, the
    sign counted in the width. *)
Definition format_08X (z : Z) : string :=
  let digits := str_upper (hex_digits (Z.to_N (Z.abs z))) in
  let sign := if z <? 0 then "-" else EmptyString in
  sign +:+ zeros (8 - String.length sign - String.length digits)%nat +:+ digits.

(** Characters [str.strip()] removes (code points below 256). *)
Definition is_space (c : ascii) : bool :=
  let n := Z.of_N (N_of_ascii c) in
  ((9 <=? n) && (n <=? 13)) || ((28 <=? n) && (n <=? 32)) || (n =? 133) || (n =? 160).

Fixpoint lstrip_chars (l : list ascii) : list ascii :=
  match l with
  | c :: l' => if is_space c then lstrip_chars l' else l
  | [] => []
  end.

(** [s.strip()] *)
Definition strip (s : string) : string :=
  string_of_chars (rev (lstrip_chars (rev (lstrip_chars (chars_of_string s))))).

(** [b.replace(b'\x00', b'')] *)
Definition replace_nul (b : bytes) : bytes :=
  filter (fun x => byte_val x ≠ 0) b.

End Py.
Import Py.

(** ** A state and exception monad

    A computation runs on a mutable state; when it raises, the mutations made
    before the exception stay, as they do in Python. *)

Definition M (S A : Type) : Type := S -> res A * S.

Definition ret {S A} (a : A) : M S A := fun s => (Ok a, s).

Definition bind {S A B} (m : M S A) (k : A -> M S B) : M S B :=
  fun s => match m s with
           | (Ok a, s') => k a s'
           | (Raise e, s') => (Raise e, s')
           end.

Definition raise {S A} (e : exn) : M S A := fun s => (Raise e, s).

Definition lift {S A} (r : res A) : M S A := fun s => (r, s).

Definition gets {S A} (f : S -> A) : M S A := fun s => (Ok (f s), s).

Definition modify {S} (f : S -> S) : M S unit := fun s => (Ok tt, f s).

(** [try: body except ... as e: handler] *)
Definition try_except {S A} (body : M S A) (handler : exn -> M S A) : M S A :=
  fun s => match body s with
           | (Ok a, s') => (Ok a, s')
           | (Raise e, s') => handler e s'
           end.

(** [try: body except: pass] *)
Definition try_pass {S} (body : M S unit) : M S unit :=
  try_except body (fun _ => ret tt).

Notation "'do' x <- m ; k" := (bind m (fun x => k))
  (at level 10, x name, m at level 100, k at level 200).
Notation "'run' m ; k" := (bind m (fun _ => k))
  (at level 10, m at level 100, k at level 200).

(** ** The parser object *)

(** A dictionary whose iteration order is observed (the two flag tables). *)
Definition odict (V : Type) := list (string * V).

Fixpoint od_get {V} (k : string) (d : odict V) : option V :=
  match d with
  | [] => None
  | (k', v) :: d' => if String.eqb k k' then Some v else od_get k d'
  end.

Record LnkForensics := mkLnkForensics {
  file_path : option string;
  indata : bytes;
  parsed : bool;
  parse_error : option string;
  linkFlag : odict bool;
  fileFlag : odict bool;
  data : gmap string string;
  extraBlocks : gmap string pyval;
  lnk_header : gmap string pyval;
  loc_information : gmap string pyval
}.

Definition set_parsed (v : bool) (s : LnkForensics) : LnkForensics :=
  mkLnkForensics (file_path s) (indata s) v (parse_error s) (linkFlag s) (fileFlag s)
    (data s) (extraBlocks s) (lnk_header s) (loc_information s).

Definition set_parse_error (v : option string) (s : LnkForensics) : LnkForensics :=
  mkLnkForensics (file_path s) (indata s) (parsed s) v (linkFlag s) (fileFlag s)
    (data s) (extraBlocks s) (lnk_header s) (loc_information s).

Definition set_linkFlag (v : odict bool) (s : LnkForensics) : LnkForensics :=
  mkLnkForensics (file_path s) (indata s) (parsed s) (parse_error s) v (fileFlag s)
    (data s) (extraBlocks s) (lnk_header s) (loc_information s).

Definition set_fileFlag (v : odict bool) (s : LnkForensics) : LnkForensics :=
  mkLnkForensics (file_path s) (indata s) (parsed s) (parse_error s) (linkFlag s) v
    (data s) (extraBlocks s) (lnk_header s) (loc_information s).

Definition set_data (v : gmap string string) (s : LnkForensics) : LnkForensics :=
  mkLnkForensics (file_path s) (indata s) (parsed s) (parse_error s) (linkFlag s) (fileFlag s)
    v (extraBlocks s) (lnk_header s) (loc_information s).

Definition set_extraBlocks (v : gmap string pyval) (s : LnkForensics) : LnkForensics :=
  mkLnkForensics (file_path s) (indata s) (parsed s) (parse_error s) (linkFlag s) (fileFlag s)
    (data s) v (lnk_header s) (loc_information s).

Definition set_lnk_header (v : gmap string pyval) (s : LnkForensics) : LnkForensics :=
  mkLnkForensics (file_path s) (indata s) (parsed s) (parse_error s) (linkFlag s) (fileFlag s)
    (data s) (extraBlocks s) v (loc_information s).

Definition set_loc_information (v : gmap string pyval) (s : LnkForensics) : LnkForensics :=
  mkLnkForensics (file_path s) (indata s) (parsed s) (parse_error s) (linkFlag s) (fileFlag s)
    (data s) (extraBlocks s) (lnk_header s) v.

(** The object as [__init__] leaves it once the bytes are loaded. *)
Definition new_object (path : option string) (b : bytes) : LnkForensics :=
  mkLnkForensics path b false None [] [] ∅ ∅ ∅ ∅.

(** [_init_constants] *)
Definition DRIVE_TYPES : list string :=
  ["DRIVE_UNKNOWN"; "DRIVE_NO_ROOT_DIR"; "DRIVE_REMOVABLE";
   "DRIVE_FIXED"; "DRIVE_REMOTE"; "DRIVE_CDROM"; "DRIVE_RAMDISK"].

Definition WINDOWSTYLES : list string :=
  ["SW_HIDE"; "SW_NORMAL"; "SW_SHOWMINIMIZED"; "SW_MAXIMIZE";
   "SW_SHOWNOACTIVATE"; "SW_SHOW"; "SW_MINIMIZE"; "SW_SHOWMINNOACTIVE";
   "SW_SHOWNA"; "SW_RESTORE"; "SW_SHOWDEFAULT"].

(** [_clean_line]: keeps the bytes [i] with [128 > i > 20]. *)
Definition _clean_line (rstring : bytes) : string :=
  string_of_chars
    (map (fun x => chr (byte_val x))
       (filter (fun x => byte_val x < 128 ∧ 20 < byte_val x) rstring)).

(** [_read_string]: the loop of the null-terminated read, from [index] with
    [result] accumulated so far. *)
Equations? _read_string_from (b : bytes) (index : Z) (result : string) : res string
  by wf (Z.to_nat (len b - index)) lt :=
  _read_string_from b index result with Z_lt_dec index (len b) => {
    | right _ => Ok result
    | left _ with index_at b index => {
      | Raise e => Raise e
      | Ok c with Z.eq_dec c 0 => {
        | left _ => Ok result
        | right _ =>
            _read_string_from b (index + 1) (result +:+ String (chr c) EmptyString) } } }.
Proof. lia. Qed.

Definition _read_string (b : bytes) (index : Z) : res string :=
  _read_string_from b index EmptyString.

(** [_read_string_data]: the new index and the text. *)
Definition _read_string_data (b : bytes) (index u_mult : Z) : Z * string :=
  if len b <? index + 2 then (index, EmptyString)
  else
    match unpack_H (slice b index (index + 2)) with
    | Raise _ => (index + 2, EmptyString)
    | Ok n =>
        let string_size := n * u_mult in
        if len b <? index + 2 + string_size then (index + 2, EmptyString)
        else
          let string := _clean_line (replace_nul (slice b (index + 2) (index + 2 + string_size))) in
          let new_index := index + string_size + 2 in
          (new_index, string)
    end.

(** ** Header and flags *)

(** [self.lnk_header[k] = v] and [self.lnk_header[k]] *)
Definition header_set (k : string) (v : pyval) : M LnkForensics unit :=
  modify (fun s => set_lnk_header (<[k := v]> (lnk_header s)) s).

Definition header_int (k : string) : M LnkForensics Z :=
  do h <- gets lnk_header;
  match h !! k with
  | Some (PInt z) => ret z
  | Some _ => raise TypeError
  | None => raise (KeyError k)
  end.

(** [_parse_lnk_header] *)
Definition _parse_lnk_header : M LnkForensics bool :=
  try_except
    (do b <- gets indata;
     if len b <? 76 then ret false
     else
       do v <- lift (unpack_I (slice b 0 4));
       run header_set "header_size" (PInt v);
       do header_size <- header_int "header_size";
       if negb (header_size =? 76) then ret false
       else
         let lnk_header := slice b 0 76 in
         run header_set "guid" (PStr (bytes_hex (slice lnk_header 4 20)));
         do v <- lift (unpack_i (slice lnk_header 20 24));
         run header_set "rlinkFlags" (PInt v);
         do v <- lift (unpack_i (slice lnk_header 24 28));
         run header_set "rfileFlags" (PInt v);
         do v <- lift (unpack_q (slice lnk_header 28 36));
         run header_set "creation_time" (PInt v);
         do v <- lift (unpack_q (slice lnk_header 36 44));
         run header_set "accessed_time" (PInt v);
         do v <- lift (unpack_q (slice lnk_header 44 52));
         run header_set "modified_time" (PInt v);
         do v <- lift (unpack_i (slice lnk_header 52 56));
         run header_set "file_size" (PInt v);
         do v <- lift (unpack_I (slice lnk_header 56 60));
         run header_set "icon_index" (PInt v);
         do windowstyle_val <- lift (unpack_i (slice lnk_header 60 64));
         run (if (0 <=? windowstyle_val) && (windowstyle_val <? len WINDOWSTYLES)
              then header_set "windowstyle"
                     (PStr (nth (Z.to_nat windowstyle_val) WINDOWSTYLES EmptyString))
              else header_set "windowstyle" (PInt windowstyle_val));
         do v <- lift (unpack_H (slice lnk_header 64 66));
         run header_set "hotkey" (PInt v);
         do v <- lift (unpack_H (slice lnk_header 66 68));
         run header_set "reserved0" (PInt v);
         do v <- lift (unpack_i (slice lnk_header 68 72));
         run header_set "reserved1" (PInt v);
         do v <- lift (unpack_i (slice lnk_header 72 76));
         run header_set "reserved2" (PInt v);
         ret true)
    (fun e =>
       run modify (set_parse_error (Some ("Header parsing failed: " +:+ str_exn e)));
       ret false).

Definition LINK_FLAG_BITS : list (string * Z) :=
  [("HasTargetIDList", 0x00000001); ("HasLinkInfo", 0x00000002);
   ("HasName", 0x00000004); ("HasRelativePath", 0x00000008);
   ("HasWorkingDir", 0x00000010); ("HasArguments", 0x00000020);
   ("HasIconLocation", 0x00000040); ("IsUnicode", 0x00000080);
   ("ForceNoLinkInfo", 0x00000100); ("HasExpString", 0x00000200);
   ("RunInSeparateProcess", 0x00000400); ("HasDarwinID", 0x00001000);
   ("RunAsUser", 0x00002000); ("HasExpIcon", 0x00004000);
   ("NoPidlAlias", 0x00008000); ("RunWithShimLayer", 0x00020000);
   ("ForceNoLinkTrack", 0x00040000); ("EnableTargetMetadata", 0x00080000);
   ("DisableLinkPathTracking", 0x00100000); ("DisableKnownFolderTracking", 0x00200000);
   ("DisableKnownFolderAlias", 0x00400000); ("AllowLinkToLink", 0x00800000);
   ("UnaliasOnSave", 0x01000000); ("PreferEnvironmentPath", 0x02000000);
   ("KeepLocalIDListForUNCTarget", 0x04000000)].

Definition FILE_FLAG_BITS : list (string * Z) :=
  [("FILE_ATTRIBUTE_READONLY", 0x00000001); ("FILE_ATTRIBUTE_HIDDEN", 0x00000002);
   ("FILE_ATTRIBUTE_SYSTEM", 0x00000004); ("FILE_ATTRIBUTE_DIRECTORY", 0x00000010);
   ("FILE_ATTRIBUTE_ARCHIVE", 0x00000020); ("FILE_ATTRIBUTE_DEVICE", 0x00000040);
   ("FILE_ATTRIBUTE_NORMAL", 0x00000080); ("FILE_ATTRIBUTE_TEMPORARY", 0x00000100);
   ("FILE_ATTRIBUTE_SPARSE_FILE", 0x00000200); ("FILE_ATTRIBUTE_REPARSE_POINT", 0x00000400);
   ("FILE_ATTRIBUTE_COMPRESSED", 0x00000800); ("FILE_ATTRIBUTE_OFFLINE", 0x00001000);
   ("FILE_ATTRIBUTE_NOT_CONTENT_INDEXED", 0x00002000);
   ("FILE_ATTRIBUTE_ENCRYPTED", 0x00004000); ("FILE_ATTRIBUTE_VIRTUAL", 0x00010000)].

(** [{name: bool(flags & mask), ...}] in the order of the table *)
Definition decode_flags (table : list (string * Z)) (flags : Z) : odict bool :=
  map (fun '(name, mask) => (name, negb (Z.land flags mask =? 0))) table.

(** [_parse_link_flags] and [_parse_file_flags] *)
Definition _parse_link_flags : M LnkForensics unit :=
  do flags <- header_int "rlinkFlags";
  modify (set_linkFlag (decode_flags LINK_FLAG_BITS flags)).

Definition _parse_file_flags : M LnkForensics unit :=
  do flags <- header_int "rfileFlags";
  modify (set_fileFlag (decode_flags FILE_FLAG_BITS flags)).

(** [_get_enabled_flags] *)
Definition _get_enabled_flags (flags_dict : odict bool) : list string :=
  map fst (filter (fun kv => snd kv = true) flags_dict).

(** ** Extra blocks *)

Definition extra_set (k : string) (v : pyval) : M LnkForensics unit :=
  modify (fun s => set_extraBlocks (<[k := v]> (extraBlocks s)) s).

(** [_parse_distributed_tracker_block] *)
Definition _parse_distributed_tracker_block (index size : Z) : M LnkForensics unit :=
  try_pass
    (do b <- gets indata;
     do sz <- lift (unpack_I (slice b (index + 8) (index + 12)));
     do version <- lift (unpack_I (slice b (index + 12) (index + 16)));
     extra_set "DISTRIBUTED_LINK_TRACKER_BLOCK"
       (PDict (<["size" := PInt sz]>
              (<["version" := PInt version]>
              (<["machine_identifier" := PStr (_clean_line (slice b (index + 16) (index + 32)))]>
              (<["droid_volume_identifier" := PStr (bytes_hex (slice b (index + 32) (index + 48)))]>
              (<["droid_file_identifier" := PStr (bytes_hex (slice b (index + 48) (index + 64)))]>
              (<["birth_droid_volume_identifier" :=
                   PStr (bytes_hex (slice b (index + 64) (index + 80)))]>
              (<["birth_droid_file_identifier" :=
                   PStr (bytes_hex (slice b (index + 80) (index + 96)))]> ∅))))))))).

(** [_parse_environment_block] *)
Definition _parse_environment_block (index size : Z) : M LnkForensics unit :=
  try_pass
    (do b <- gets indata;
     extra_set "ENVIRONMENTAL_VARIABLES_LOCATION_BLOCK"
       (PDict (<["size" := PInt size]>
              (<["variable_location" :=
                   PStr (_clean_line (slice b (index + 8) (index + 8 + size)))]> ∅)))).

(** The table [extra_sigs] of [_parse]. *)
Definition extra_sigs (sig : string) : option (Z -> Z -> M LnkForensics unit) :=
  if String.eqb sig "a0000001" then Some _parse_environment_block
  else if String.eqb sig "a0000003" then Some _parse_distributed_tracker_block
  else None.

(** The body of the [try] inside the [while] of the extra-block walk:
    [None] is [break], [Some index'] goes round the loop again. *)
Definition extra_block_at (index : Z) : M LnkForensics (option Z) :=
  do b <- gets indata;
  do size <- lift (unpack_I (slice b index (index + 4)));
  if size <? 4 then ret None
  else
    do v <- lift (unpack_I (slice b (index + 4) (index + 8)));
    let sig := str_drop 2 (hex v) in
    run (match extra_sigs sig with
         | Some handler => handler index size
         | None => ret tt
         end);
    ret (Some (index + size)).

Lemma handler_indata sig handler index size s :
  extra_sigs sig = Some handler -> indata (snd (handler index size s)) = indata s.
Proof.
  unfold extra_sigs.
  destruct (String.eqb sig "a0000001").
  - intros [= <-]. reflexivity.
  - destruct (String.eqb sig "a0000003"); [|discriminate].
    intros [= <-]. unfold _parse_distributed_tracker_block, try_pass, try_except, bind, lift, gets.
    simpl. repeat (destruct (unpack_I _); simpl; try reflexivity).
Qed.

Lemma extra_block_at_advances index s index' s' :
  extra_block_at index s = (Ok (Some index'), s') ->
  index + 4 <= index' /\ indata s' = indata s.
Proof.
  unfold extra_block_at, bind, gets, lift, ret.
  destruct (unpack_I (slice (indata s) index (index + 4))) as [size|]; [|discriminate].
  destruct (size <? 4) eqn:Hsz; [discriminate|].
  destruct (unpack_I (slice (indata s) (index + 4) (index + 8))) as [v|]; [|discriminate].
  destruct (extra_sigs (str_drop 2 (hex v))) as [handler|] eqn:Hsig.
  - pose proof (handler_indata _ _ index size s Hsig) as Hin.
    destruct (handler index size s) as [[[]|] s1]; [|discriminate].
    intros [= <- <-]. simpl in Hin. split; [lia|assumption].
  - intros [= <- <-]. split; [lia|reflexivity].
Qed.

Definition inspect {A} (a : A) : {x : A | a = x} := exist _ a eq_refl.

(** The [while index <= len(self.indata) - 10] loop: the object and the
    cursor when the loop is left. *)
Equations? extra_block_walk (s : LnkForensics) (index : Z) : LnkForensics * Z
  by wf (Z.to_nat (len (indata s) - 9 - index)) lt :=
  extra_block_walk s index with Z_le_dec index (len (indata s) - 10) => {
    | right _ => (s, index)
    | left _ with inspect (extra_block_at index s) => {
      | exist _ (Ok (Some index'), s') _ => extra_block_walk s' index'
      | exist _ (Ok None, s') _ => (s', index)
      | exist _ (Raise _, s') _ => (s', index) } }.
Proof.
  apply extra_block_at_advances in e as [Hadv Hin].
  rewrite Hin. lia.
Qed.

(** ** The main parse *)

(** The local variable [index] of [_parse] next to the object. *)
Record frame := mkFrame { fr_self : LnkForensics; fr_index : Z }.

Definition on_self {A} (m : M LnkForensics A) : M frame A :=
  fun f => let '(r, s) := m (fr_self f) in (r, mkFrame s (fr_index f)).

Definition get_index : M frame Z := gets fr_index.

Definition set_index (i : Z) : M frame unit :=
  modify (fun f => mkFrame (fr_self f) i).

Definition with_index {A} (index : Z) (m : M frame A) : M LnkForensics A :=
  fun s => let '(r, f) := m (mkFrame s index) in (r, fr_self f).

(** [self.linkFlag[k]] *)
Definition flag (k : string) : M LnkForensics bool :=
  do d <- gets linkFlag;
  match od_get k d with
  | Some v => ret v
  | None => raise (KeyError k)
  end.

(** [self.loc_information[k] = v] and [self.loc_information[k]] *)
Definition loc_set (k : string) (v : pyval) : M LnkForensics unit :=
  modify (fun s => set_loc_information (<[k := v]> (loc_information s)) s).

Definition loc_int (k : string) : M LnkForensics Z :=
  do d <- gets loc_information;
  match d !! k with
  | Some (PInt z) => ret z
  | Some _ => raise TypeError
  | None => raise (KeyError k)
  end.

(** [self.loc_information['VolumeIDAndLocalBasePath'][k]], read and written *)
Definition volume_dict : M LnkForensics (gmap string pyval) :=
  do d <- gets loc_information;
  match d !! "VolumeIDAndLocalBasePath" with
  | Some (PDict v) => ret v
  | Some _ => raise TypeError
  | None => raise (KeyError "VolumeIDAndLocalBasePath")
  end.

Definition volume_int (k : string) : M LnkForensics Z :=
  do v <- volume_dict;
  match v !! k with
  | Some (PInt z) => ret z
  | Some _ => raise TypeError
  | None => raise (KeyError k)
  end.

Definition volume_set (k : string) (x : pyval) : M LnkForensics unit :=
  do v <- volume_dict;
  loc_set "VolumeIDAndLocalBasePath" (PDict (<[k := x]> v)).

(** The seven fields read at the start of the LinkInfo region, assigned to
    [self.loc_information] in one statement. *)
Definition link_info_header (index : Z) : M LnkForensics unit :=
  do b <- gets indata;
  do v0 <- lift (unpack_i (slice b index (index + 4)));
  do v1 <- lift (unpack_i (slice b (index + 4) (index + 8)));
  do v2 <- lift (unpack_i (slice b (index + 8) (index + 12)));
  do v3 <- lift (unpack_i (slice b (index + 12) (index + 16)));
  do v4 <- lift (unpack_i (slice b (index + 16) (index + 20)));
  do v5 <- lift (unpack_i (slice b (index + 20) (index + 24)));
  do v6 <- lift (unpack_i (slice b (index + 24) (index + 28)));
  modify (set_loc_information
            (<["LinkInfoSize" := PInt v0]>
            (<["LinkInfoHeaderSize" := PInt v1]>
            (<["LinkInfoFlags" := PInt v2]>
            (<["VolumeIDOffset" := PInt v3]>
            (<["LocalBasePathOffset" := PInt v4]>
            (<["CommonNetworkRelativeLinkOffset" := PInt v5]>
            (<["CommonPathSuffixOffset" := PInt v6]> ∅)))))))).

(** The branch taken when bit 0 of [LinkInfoFlags] is set. *)
Definition volume_information (index : Z) : M LnkForensics unit :=
  do b <- gets indata;
  do lbp <- loc_int "LocalBasePathOffset";
  run (if negb (lbp =? 0) then
         do off <- loc_int "LocalBasePathOffset";
         let local_index := index + off in
         do text <- lift (_read_string b local_index);
         loc_set "LocalBasePath" (PStr text)
       else ret tt);
  do off <- loc_int "VolumeIDOffset";
  let local_index := index + off in
  do v0 <- lift (unpack_i (slice b (local_index + 0) (local_index + 4)));
  do v1 <- lift (unpack_i (slice b (local_index + 4) (local_index + 8)));
  do v2 <- lift (unpack_i (slice b (local_index + 8) (local_index + 12)));
  do v3 <- lift (unpack_i (slice b (local_index + 12) (local_index + 16)));
  run loc_set "VolumeIDAndLocalBasePath"
        (PDict (<["VolumeIDSize" := PInt v0]>
               (<["rDriveType" := PInt v1]>
               (<["DriveSerialNumber" := PStr (hex v2)]>
               (<["VolumeLabelOffset" := PInt v3]> ∅)))));
  do drive_type <- volume_int "rDriveType";
  run (if (0 <=? drive_type) && (drive_type <? len DRIVE_TYPES) then
         volume_set "DriveType" (PStr (nth (Z.to_nat drive_type) DRIVE_TYPES EmptyString))
       else ret tt);
  do vlo <- volume_int "VolumeLabelOffset";
  if negb (vlo =? 20) then
    do vol_offset <- volume_int "VolumeLabelOffset";
    do vol_size <- volume_int "VolumeIDSize";
    let length := vol_size - vol_offset in
    do off <- loc_int "VolumeIDOffset";
    let label_index := index + off + vol_offset in
    if label_index + length <=? len b then
      volume_set "VolumeLabel"
        (PStr (_clean_line (replace_nul (slice b label_index (label_index + length)))))
    else ret tt
  else ret tt.

(** The branch taken when bit 0 is clear and bit 1 is set. *)
Definition network_information (index : Z) : M LnkForensics unit :=
  do b <- gets indata;
  do off <- loc_int "CommonNetworkRelativeLinkOffset";
  let local_index := index + off in
  do v0 <- lift (unpack_i (slice b (local_index + 0) (local_index + 4)));
  do v1 <- lift (unpack_i (slice b (local_index + 4) (local_index + 8)));
  do v2 <- lift (unpack_i (slice b (local_index + 8) (local_index + 12)));
  do v3 <- lift (unpack_i (slice b (local_index + 12) (local_index + 16)));
  do v4 <- lift (unpack_i (slice b (local_index + 16) (local_index + 20)));
  loc_set "CommonNetworkRelativeLinkAndPathSuffix"
    (PDict (<["CommonNetworkRelativeLinkSize" := PInt v0]>
           (<["CommonNetworkRelativeLinkFlags" := PInt v1]>
           (<["NetNameOffset" := PInt v2]>
           (<["DeviceNameOffset" := PInt v3]>
           (<["NetworkProviderType" := PInt v4]> ∅)))))).

(** The body of the [try] that decodes LinkInfo. *)
Definition link_info_body : M frame unit :=
  do index <- get_index;
  run on_self (link_info_header index);
  do flags <- on_self (loc_int "LinkInfoFlags");
  run (if negb (Z.land flags 0x0001 =? 0) then on_self (volume_information index)
       else
         do flags <- on_self (loc_int "LinkInfoFlags");
         if negb (Z.land flags 0x0002 =? 0) then on_self (network_information index)
         else ret tt);
  do size <- on_self (loc_int "LinkInfoSize");
  set_index (index + size).

(** The body of the [try] that skips the LinkTargetIDList. *)
Definition target_id_list_body : M frame unit :=
  do index <- get_index;
  do b <- on_self (gets indata);
  do targets_size <- lift (unpack_H (slice b index (index + 2)));
  set_index (index + (2 + targets_size)).

(** One flag-gated field of the string section:
    [if self.linkFlag[flag_name]: index, self.data[key] = self._read_string_data(index, u_mult)] *)
Definition string_field (flag_name key : string) (u_mult : Z) : M frame unit :=
  do present <- on_self (flag flag_name);
  if present then
    do index <- get_index;
    do b <- on_self (gets indata);
    let '(index', text) := _read_string_data b index u_mult in
    run set_index index';
    on_self (modify (fun s => set_data (<[key := text]> (data s)) s))
  else ret tt.

(** The body of the [try] that decodes the string section. *)
Definition string_data_body : M frame unit :=
  do unicode <- on_self (flag "IsUnicode");
  let u_mult := if unicode then 2 else 1 in
  run string_field "HasName" "description" u_mult;
  run string_field "HasRelativePath" "relativePath" u_mult;
  run string_field "HasWorkingDir" "workingDirectory" u_mult;
  run string_field "HasArguments" "commandLineArguments" u_mult;
  string_field "HasIconLocation" "iconLocation" u_mult.

(** The body of the [try] around the extra-block loop. *)
Definition extra_blocks_body : M frame unit :=
  modify (fun f => let '(s, i) := extra_block_walk (fr_self f) (fr_index f) in mkFrame s i).

Definition str_option (o : option string) : string :=
  match o with Some s => s | None => "None" end.

(** What [_parse] does once the header is accepted, from [index] on. *)
Definition parse_regions : M frame unit :=
  do has_id_list <- on_self (flag "HasTargetIDList");
  run (if has_id_list then try_pass target_id_list_body else ret tt);
  do has_link_info <- on_self (flag "HasLinkInfo");
  do enter <- (if has_link_info then
                 do force_no <- on_self (flag "ForceNoLinkInfo"); ret (negb force_no)
               else ret false);
  run (if enter then try_pass link_info_body else ret tt);
  run try_pass string_data_body;
  run try_pass extra_blocks_body;
  on_self (modify (set_parsed true)).

(** [_parse] *)
Definition _parse : M LnkForensics unit :=
  try_except
    (do ok <- _parse_lnk_header;
     if negb ok then
       do err <- gets parse_error;
       raise (LnkForensicsError ("Invalid LNK header: " +:+ str_option err))
     else
       run _parse_link_flags;
       run _parse_file_flags;
       do index <- header_int "header_size";
       with_index index parse_regions)
    (fun e =>
       run modify (set_parse_error (Some (str_exn e)));
       raise (LnkForensicsError ("Parsing failed: " +:+ str_exn e))).

(** The file system as [__init__] sees it: [open(path, 'rb').read()] and
    [os.path.basename]. *)
Class OS := {
  open_read : string -> res bytes;
  basename : string -> string
}.

(** [__init__]: the constructed object, or the exception that leaves the
    constructor.  A file handle is given by what its [read()] returns; the
    type [bytes] of [raw_data] stands for the [isinstance] test of
    [_load_from_data]. *)
Definition __init__ `{OS} (path : option string) (file_handle : option (res bytes))
    (raw_data : option bytes) : res LnkForensics :=
  let loaded :=
    match path, file_handle, raw_data with
    | Some (String c p), _, _ =>
        match open_read (String c p) with
        | Ok b => Ok b
        | Raise e =>
            Raise (LnkForensicsError
                     ("Failed to read file " +:+ String c p +:+ ": " +:+ str_exn e))
        end
    | _, Some handle, _ =>
        match handle with
        | Ok b => Ok b
        | Raise e =>
            Raise (LnkForensicsError ("Failed to read from file handle: " +:+ str_exn e))
        end
    | _, _, Some (x :: b) => Ok (x :: b)
    | _, _, _ => Raise (LnkForensicsError "Must provide file_path, file_handle, or raw_data")
    end in
  match loaded with
  | Raise e => Raise e
  | Ok b =>
      match _parse (new_object path b) with
      | (Ok _, s) => Ok s
      | (Raise e, _) => Raise e
      end
  end.

(** ** The constructor and the type of [raw_data] *)

(** A value passed as [raw_data]: a [bytes] object, or a value of another
    type ([None], an [int], a [str], a [list] or a [dict]). *)
Inductive raw_argument :=
| RawBytes (b : bytes)
| RawValue (v : pyval).

(** [bool(raw_data)] *)
Definition raw_truthy (raw_data : raw_argument) : bool :=
  match raw_data with
  | RawBytes b => match b with [] => false | _ => true end
  | RawValue v => truthy v
  end.

(** [_load_from_path]: the bytes to store in [indata], or the exception. *)
Definition _load_from_path `{OS} (file_path : string) : res bytes :=
  match open_read file_path with
  | Ok b => Ok b
  | Raise e =>
      Raise (LnkForensicsError ("Failed to read file " +:+ file_path +:+ ": " +:+ str_exn e))
  end.

(** [_load_from_handle], for a handle given by what its [read()] returns. *)
Definition _load_from_handle (file_handle : res bytes) : res bytes :=
  match file_handle with
  | Ok b => Ok b
  | Raise e => Raise (LnkForensicsError ("Failed to read from file handle: " +:+ str_exn e))
  end.

(** [_load_from_data], with its [isinstance(raw_data, bytes)] test. *)
Definition _load_from_data (raw_data : raw_argument) : res bytes :=
  match raw_data with
  | RawBytes b => Ok b
  | RawValue _ => Raise (LnkForensicsError "raw_data must be bytes")
  end.

Module Dynamic.

(** [__init__] for a [raw_data] argument of any of the types of
    [raw_argument]. *)
Definition __init__ `{OS} (file_path : option string) (file_handle : option (res bytes))
    (raw_data : raw_argument) : res LnkForensics :=
  let loaded :=
    match file_path with
    | Some (String c p) => _load_from_path (String c p)
    | _ =>
        match file_handle with
        | Some handle => _load_from_handle handle
        | None =>
            if raw_truthy raw_data then _load_from_data raw_data
            else Raise (LnkForensicsError "Must provide file_path, file_handle, or raw_data")
        end
    end in
  match loaded with
  | Raise e => Raise e
  | Ok b =>
      match _parse (new_object file_path b) with
      | (Ok _, s) => Ok s
      | (Raise e, _) => Raise e
      end
  end.

End Dynamic.

(** The [raw_data] argument of the declared type: [None] or a [bytes]
    object. *)
Definition typed_raw_data (raw_data : option bytes) : raw_argument :=
  match raw_data with
  | Some b => RawBytes b
  | None => RawValue PNone
  end.

(** ** The accessors *)

(** A civil date and time, as [datetime.datetime] holds it. *)
Record datetime := mkDatetime {
  year : Z; month : Z; day : Z; hour : Z; minute : Z; second : Z
}.

(** [datetime.datetime.fromtimestamp]: the local civil time of a POSIX
    timestamp in the time zone of the process, [None] when the call raises
    (a year outside 1..9999, or a value the platform refuses).  The float
    argument is taken as the exact rational. *)
Class Clock := { fromtimestamp : Q -> option datetime }.

(** [hashlib]: the hexadecimal digests. *)
Class Hashlib := {
  md5_hexdigest : bytes -> string;
  sha1_hexdigest : bytes -> string;
  sha256_hexdigest : bytes -> string
}.

Definition decimal (z : Z) : string := DecimalString.NilZero.string_of_int (Z.to_int z).

Definition zero_pad (width : nat) (z : Z) : string :=
  let d := decimal z in zeros (width - String.length d) +:+ d.

(** [dt.strftime('%Y-%m-%d %H:%M:%S')], the year written with four digits *)
Definition strftime (dt : datetime) : string :=
  zero_pad 4 (year dt) +:+ "-" +:+ zero_pad 2 (month dt) +:+ "-" +:+ zero_pad 2 (day dt)
  +:+ " " +:+ zero_pad 2 (hour dt) +:+ ":" +:+ zero_pad 2 (minute dt)
  +:+ ":" +:+ zero_pad 2 (second dt).

(** [is_valid] and [get_error] *)
Definition is_valid (self : LnkForensics) : bool :=
  parsed self && bool_decide (parse_error self = None).

Definition get_error (self : LnkForensics) : option string := parse_error self.

(** [self.linkFlag.get(k)] used as a condition *)
Definition flag_enabled (self : LnkForensics) (k : string) : bool :=
  match od_get k (linkFlag self) with Some v => v | None => false end.

(** [get_target_command] *)
Definition get_target_command (self : LnkForensics) : string :=
  if negb (parsed self) then EmptyString
  else
    let out := EmptyString in
    let out :=
      match flag_enabled self "HasRelativePath", data self !! "relativePath" with
      | true, Some text => out +:+ text
      | _, _ => out
      end in
    let out :=
      match flag_enabled self "HasArguments", data self !! "commandLineArguments" with
      | true, Some text => out +:+ (" " +:+ text)
      | _, _ => out
      end in
    strip out.

(** [time / 10000000.0 - 11644473600], the argument of [fromtimestamp], as
    the exact rational: the rounding of the float operations is left out. *)
Definition posix_seconds (time : Z) : Q :=
  (inject_Z time / inject_Z 10000000 - inject_Z 11644473600)%Q.

Section Accessors.
Context `{Clock} `{Hashlib} `{OS}.

(** [_ms_time_to_unix_time] *)
Definition _ms_time_to_unix_time (time : Z) : string :=
  match fromtimestamp (posix_seconds time) with
  | Some dt => strftime dt
  | None => "Invalid timestamp"
  end.

(** [self._ms_time_to_unix_time(self.lnk_header.get(k, 0))] *)
Definition header_time (self : LnkForensics) (k : string) : pyval :=
  match get_or (lnk_header self) k (PInt 0) with
  | PInt time => PStr (_ms_time_to_unix_time time)
  | _ => PStr "Invalid timestamp"
  end.

(** [get_timestamps] *)
Definition get_timestamps (self : LnkForensics) : gmap string pyval :=
  if negb (parsed self) then ∅
  else
    <["creation_time" := header_time self "creation_time"]>
    (<["modified_time" := header_time self "modified_time"]>
    (<["accessed_time" := header_time self "accessed_time"]> ∅)).

(** [get_machine_tracking] *)
Definition get_machine_tracking (self : LnkForensics) : gmap string pyval :=
  if negb (parsed self) then ∅
  else
    let tracker := as_dict (get_or (extraBlocks self) "DISTRIBUTED_LINK_TRACKER_BLOCK" (PDict ∅)) in
    let field k := get_or tracker k (PStr EmptyString) in
    <["machine_identifier" := field "machine_identifier"]>
    (<["droid_volume_identifier" := field "droid_volume_identifier"]>
    (<["droid_file_identifier" := field "droid_file_identifier"]>
    (<["birth_droid_volume_identifier" := field "birth_droid_volume_identifier"]>
    (<["birth_droid_file_identifier" := field "birth_droid_file_identifier"]> ∅)))).

(** [get_network_info] *)
Definition get_network_info (self : LnkForensics) : gmap string pyval :=
  if negb (parsed self) then ∅
  else as_dict (get_or (loc_information self) "CommonNetworkRelativeLinkAndPathSuffix" (PDict ∅)).

(** [get_volume_info] *)
Definition get_volume_info (self : LnkForensics) : gmap string pyval :=
  if negb (parsed self) then ∅
  else
    let vol_info := as_dict (get_or (loc_information self) "VolumeIDAndLocalBasePath" (PDict ∅)) in
    let result : gmap string pyval :=
      <["drive_type" := get_or vol_info "DriveType" (PStr EmptyString)]>
      (<["drive_serial" := get_or vol_info "DriveSerialNumber" (PStr EmptyString)]>
      (<["volume_label" := get_or vol_info "VolumeLabel" (PStr EmptyString)]>
      (<["local_base_path" := get_or (loc_information self) "LocalBasePath" (PStr EmptyString)]>
         ∅))) in
    filter (fun kv => truthy (snd kv) = true) result.

(** [get_file_hashes] *)
Definition get_file_hashes (self : LnkForensics) : gmap string pyval :=
  match indata self with
  | [] => ∅
  | _ =>
      <["md5" := PStr (md5_hexdigest (indata self))]>
      (<["sha1" := PStr (sha1_hexdigest (indata self))]>
      (<["sha256" := PStr (sha256_hexdigest (indata self))]> ∅))
  end.

Definition header_word (self : LnkForensics) (k : string) : Z :=
  match get_or (lnk_header self) k (PInt 0) with PInt z => z | _ => 0 end.

(** [get_link_flags] *)
Definition get_link_flags (self : LnkForensics) : gmap string pyval :=
  if negb (parsed self) then ∅
  else
    <["raw_value" := PStr ("0x" +:+ format_08X (header_word self "rlinkFlags"))]>
    (<["enabled_flags" := PList (map PStr (_get_enabled_flags (linkFlag self)))]> ∅).

(** [get_file_attributes] *)
Definition get_file_attributes (self : LnkForensics) : gmap string pyval :=
  if negb (parsed self) then ∅
  else
    <["raw_value" := PStr ("0x" +:+ format_08X (header_word self "rfileFlags"))]>
    (<["enabled_attributes" := PList (map PStr (_get_enabled_flags (fileFlag self)))]> ∅).

(** [get_target_info] *)
Definition get_target_info (self : LnkForensics) : gmap string pyval :=
  if negb (parsed self) then ∅
  else
    let field k := PStr (default EmptyString (data self !! k)) in
    <["target_command" := PStr (get_target_command self)]>
    (<["description" := field "description"]>
    (<["relative_path" := field "relativePath"]>
    (<["working_directory" := field "workingDirectory"]>
    (<["command_line_arguments" := field "commandLineArguments"]>
    (<["icon_location" := field "iconLocation"]> ∅))))).

(** [get_forensic_data]; the blocks left in ['extra_blocks'] are listed in
    key order. *)
Definition get_forensic_data (self : LnkForensics) : gmap string pyval :=
  if negb (parsed self) then
    {[ "error" := PStr (match parse_error self with
                        | Some (String c e) => String c e
                        | _ => "File not parsed"
                        end) ]}
  else
    let header k := get_or (lnk_header self) k PNone in
    <["file_info" :=
        PDict (get_file_hashes self ∪
               (<["filename" := PStr (match file_path self with
                                      | Some (String c p) => basename (String c p)
                                      | _ => "unknown"
                                      end)]>
               (<["file_size_bytes" := PInt (len (indata self))]> ∅)))]>
    (<["lnk_header" :=
        PDict (get_timestamps self ∪
               (<["header_size" := header "header_size"]>
               (<["guid" := header "guid"]>
               (<["target_file_size" := header "file_size"]>
               (<["icon_index" := header "icon_index"]>
               (<["window_style" := header "windowstyle"]>
               (<["hotkey" := header "hotkey"]> ∅)))))))]>
    (<["link_flags" := PDict (get_link_flags self)]>
    (<["file_attributes" := PDict (get_file_attributes self)]>
    (<["target_info" := PDict (get_target_info self)]>
    (<["volume_info" := PDict (get_volume_info self)]>
    (<["network_info" := PDict (get_network_info self)]>
    (<["machine_tracking" := PDict (get_machine_tracking self)]>
    (<["environment_info" :=
         get_or (extraBlocks self) "ENVIRONMENTAL_VARIABLES_LOCATION_BLOCK" (PDict ∅)]>
    (<["extra_blocks" :=
         PList (map PStr
                  (filter (fun k => k ≠ "DISTRIBUTED_LINK_TRACKER_BLOCK"
                                    ∧ k ≠ "ENVIRONMENTAL_VARIABLES_LOCATION_BLOCK")
                     (map fst (map_to_list (extraBlocks self)))))]> ∅))))))))).

(** [to_dict] *)
Definition to_dict (self : LnkForensics) : gmap string pyval := get_forensic_data self.

End Accessors.

(** ** The convenience functions *)

Section Convenience.
Context `{Clock} `{Hashlib} `{OS}.

(** [analyze_lnk_file] *)
Definition analyze_lnk_file (path : string) : gmap string pyval :=
  match __init__ (Some path) None None with
  | Ok lnk => get_forensic_data lnk
  | Raise e => {[ "error" := PStr (str_exn e) ]}
  end.

(** [get_lnk_command] *)
Definition get_lnk_command (path : string) : string :=
  match __init__ (Some path) None None with
  | Ok lnk => get_target_command lnk
  | Raise _ => EmptyString
  end.

(** [get_lnk_machine_id] *)
Definition get_lnk_machine_id (path : string) : pyval :=
  match __init__ (Some path) None None with
  | Ok lnk =>
      let tracking := get_machine_tracking lnk in
      get_or tracking "machine_identifier" (PStr EmptyString)
  | Raise _ => PStr EmptyString
  end.

End Convenience.

(** ** Byte buffers used below *)

(** A buffer written as a list of numbers. *)
Definition B (l : list Z) : bytes :=
  map (fun z => match Byte.of_N (Z.to_N z) with Some x => x | None => x00 end) l.

(** The sixteen bits, then the thirty-two bits, of a number, little-endian. *)
Definition le16 (z : Z) : bytes := B [z mod 256; z / 256 mod 256].
Definition le32 (z : Z) : bytes :=
  B [z mod 256; z / 256 mod 256; z / 65536 mod 256; z / 16777216 mod 256].

(** A header of 76 bytes with the given link flags, all else zero. *)
Definition header_with_flags (flags : Z) : bytes :=
  le32 76 ++ repeat x00 16 ++ le32 flags ++ repeat x00 52.

(** The civil time of a POSIX timestamp at a fixed offset from UTC, by the
    days-to-civil computation of the proleptic Gregorian calendar; years
    outside 1..9999 are refused. *)
Definition civil_at_offset (offset : Z) (ts : Q) : option datetime :=
  let secs := Qfloor ts + offset in
  let days := secs / 86400 in
  let rem := secs mod 86400 in
  let z := days + 719468 in
  let era := z / 146097 in
  let doe := z - era * 146097 in
  let yoe := (doe - doe / 1460 + doe / 36524 - doe / 146096) / 365 in
  let doy := doe - (365 * yoe + yoe / 4 - yoe / 100) in
  let mp := (5 * doy + 2) / 153 in
  let d := doy - (153 * mp + 2) / 5 + 1 in
  let m := if mp <? 10 then mp + 3 else mp - 9 in
  let y := yoe + era * 400 + (if m <=? 2 then 1 else 0) in
  if (1 <=? y) && (y <=? 9999) then
    Some (mkDatetime y m d (rem / 3600) (rem mod 3600 / 60) (rem mod 60))
  else None.

(** The last component of a path written with forward slashes. *)
Fixpoint basename_from (s acc : string) : string :=
  match s with
  | EmptyString => acc
  | String c s' =>
      if Ascii.eqb c "/" then basename_from s' EmptyString
      else basename_from s' (acc +:+ String c EmptyString)
  end.

(** A file system in which no file can be opened. *)
Definition no_files : OS :=
  {| open_read := fun _ => Raise (OSError "No such file or directory");
     basename := fun s => basename_from s EmptyString |}.

Definition utc_clock : Clock := {| fromtimestamp := civil_at_offset 0 |}.
Definition cet_clock : Clock := {| fromtimestamp := civil_at_offset 3600 |}.

(** A file system with one readable file. *)
Definition one_file (name : string) (content : bytes) : OS :=
  {| open_read := fun p => if String.eqb p name then Ok content
                           else Raise (OSError "No such file or directory");
     basename := fun s => basename_from s EmptyString |}.

(** A hash library whose digests are all empty, for statements that do not
    depend on the digests. *)
Definition no_digests : Hashlib :=
  {| md5_hexdigest := fun _ => EmptyString;
     sha1_hexdigest := fun _ => EmptyString;
     sha256_hexdigest := fun _ => EmptyString |}.

(** A text of one-byte characters written two bytes a character, the high
    byte zero. *)
Definition utf16le (s : string) : bytes :=
  flat_map (fun x => [x; x00]) (list_byte_of_string s).

(** A text as the string section holds it: the count of its characters on
    two bytes, then the characters, one or two bytes each. *)
Definition encode_text (unicode : bool) (s : string) : bytes :=
  if unicode then utf16le s else list_byte_of_string s.
Definition length_prefixed (unicode : bool) (s : string) : bytes :=
  le16 (Z.of_nat (String.length s)) ++ encode_text unicode s.

(** The link-flags word with HasRelativePath and HasArguments, and IsUnicode
    or not. *)
Definition path_and_arguments_flags (unicode : bool) : Z := if unicode then 0xA8 else 0x28.

(** A header with no flag set, a tracker block of declared size 96 whose
    machine identifier is desktop-01, and four zero bytes. *)
Definition tracker_file : bytes :=
  header_with_flags 0
  ++ le32 96 ++ le32 0xA0000003 ++ le32 88 ++ le32 0
  ++ list_byte_of_string "desktop-01" ++ repeat x00 6
  ++ repeat x00 64 ++ le32 0.

(** A header with HasLinkInfo, a LinkInfo region of 53 bytes with bit 0 of its
    flags set, a VolumeID of 16 bytes (drive type 3, serial number
    0xDEADBEEF) at offset 28 and the local base path at offset 44. *)
Definition link_info_volume : bytes :=
  header_with_flags 0x02
  ++ le32 53 ++ le32 28 ++ le32 1 ++ le32 28 ++ le32 44 ++ le32 0 ++ le32 0
  ++ le32 16 ++ le32 3 ++ le32 0xDEADBEEF ++ le32 16
  ++ list_byte_of_string "C:\x.exe" ++ B [0].

(** A header with HasLinkInfo, a LinkInfo region of 48 bytes with bit 1 of its
    flags set and bit 0 clear, and the five network fields at offset 28. *)
Definition link_info_network : bytes :=
  header_with_flags 0x02
  ++ le32 48 ++ le32 28 ++ le32 2 ++ le32 0 ++ le32 0 ++ le32 28 ++ le32 0
  ++ le32 20 ++ le32 2 ++ le32 20 ++ le32 0 ++ le32 0x00020000.

(** ** Definitions used in the statements *)

(** [unchanged proj m]: running [m] never changes the part [proj] of the state,
    whether [m] returns or raises. *)
Definition unchanged {S A B} (proj : S -> B) (m : M S A) : Prop :=
  forall s, proj (snd (m s)) = proj s.

(** The two flag words of the header, as [_parse_lnk_header] decodes them. *)
Definition rlinkFlags_of (b : bytes) : Z :=
  to_signed 32 (le_uint (slice (slice b 0 76) 20 24)).
Definition rfileFlags_of (b : bytes) : Z :=
  to_signed 32 (le_uint (slice (slice b 0 76) 24 28)).

(** The object once the header and the two flag words are decoded. *)
Definition header_state (path : option string) (b : bytes) : LnkForensics :=
  snd ((run _parse_lnk_header; run _parse_link_flags; _parse_file_flags) (new_object path b)).

(** The four regions of [parse_regions], each as the frame it leaves: the
    exception of a region, if any, is dropped by its [try: ... except: pass]. *)
Definition region_id_list (f : frame) : frame :=
  if flag_enabled (fr_self f) "HasTargetIDList" then snd (target_id_list_body f) else f.

Definition region_link_info (f : frame) : frame :=
  if flag_enabled (fr_self f) "HasLinkInfo" && negb (flag_enabled (fr_self f) "ForceNoLinkInfo")
  then snd (link_info_body f) else f.

Definition region_strings (f : frame) : frame := snd (string_data_body f).

Definition region_extra (f : frame) : frame := snd (extra_blocks_body f).

(** The object [_parse] leaves when the header is valid. *)
Definition parsed_object (path : option string) (b : bytes) : LnkForensics :=
  set_parsed true
    (fr_self (region_extra (region_strings (region_link_info (region_id_list
       (mkFrame (header_state path b) 76)))))).

(** The buffer is shorter than 76 bytes, or its first four bytes do not decode
    to 76. *)
Definition invalid_header (b : bytes) : Prop :=
  len b < 76 \/ unpack_I (slice b 0 4) <> Ok 76.

(** The message of the error raised inside [_parse] for an invalid header:
    [parse_error] is still [None] when it is formatted. *)
Definition invalid_header_message : string := "Invalid LNK header: None".

(** The FILETIME value of 2021-06-01 00:00:00 UTC.  It is 2^14 * 8097521484375,
    so it is a double exactly, as are its quotient by 10^7 and the POSIX
    second 1622505600: on it the float computation and [posix_seconds] agree. *)
Definition filetime_2021_06_01 : Z := 132669792000000000.

(** [kept_on_raise proj m]: when [m] raises, the part [proj] of the state is
    what it was. *)
Definition kept_on_raise {S A B} (proj : S -> B) (m : M S A) : Prop :=
  forall s e, fst (m s) = Raise e -> proj (snd (m s)) = proj s.

(** The dictionary assigned by [link_info_header]. *)
Definition link_info_fields (v0 v1 v2 v3 v4 v5 v6 : Z) : gmap string pyval :=
  <["LinkInfoSize" := PInt v0]>
  (<["LinkInfoHeaderSize" := PInt v1]>
  (<["LinkInfoFlags" := PInt v2]>
  (<["VolumeIDOffset" := PInt v3]>
  (<["LocalBasePathOffset" := PInt v4]>
  (<["CommonNetworkRelativeLinkOffset" := PInt v5]>
  (<["CommonPathSuffixOffset" := PInt v6]> ∅)))))).

(** What [link_info_body] does after [link_info_header]. *)
Definition link_info_rest (index : Z) : M frame unit :=
  do flags <- on_self (loc_int "LinkInfoFlags");
  run (if negb (Z.land flags 0x0001 =? 0) then on_self (volume_information index)
       else
         do flags <- on_self (loc_int "LinkInfoFlags");
         if negb (Z.land flags 0x0002 =? 0) then on_self (network_information index)
         else ret tt);
  do size <- on_self (loc_int "LinkInfoSize");
  set_index (index + size).

(** The keys of the two sub-shapes in [loc_information]. *)
Definition volume_key : string := "VolumeIDAndLocalBasePath".
Definition network_key : string := "CommonNetworkRelativeLinkAndPathSuffix".

(** The frame with which [_parse] reaches the LinkInfo region. *)
Definition link_info_entry (path : option string) (b : bytes) : frame :=
  region_id_list (mkFrame (header_state path b) 76).

(** A header with HasLinkInfo, a LinkInfo header with bit 0 set, a local base
    path at offset 28, and a VolumeID offset beyond the end of the buffer. *)
Definition link_info_truncated : bytes :=
  header_with_flags 0x02
  ++ le32 40 ++ le32 28 ++ le32 1 ++ le32 0x1000 ++ le32 28 ++ le32 0 ++ le32 0
  ++ list_byte_of_string "C:\x.exe" ++ B [0].

(** A header with HasLinkInfo and a LinkInfo header of 28 bytes whose flags
    word is zero. *)
Definition link_info_no_shape : bytes :=
  header_with_flags 0x02
  ++ le32 28 ++ le32 28 ++ le32 0 ++ le32 0 ++ le32 0 ++ le32 0 ++ le32 0.

(** One field as the specification words it: when its flag is set, the field
    is read at the cursor, stored under its key, and the cursor moves to where
    the read ended; otherwise nothing changes. *)
Definition field_step (present : bool) (key : string) (u_mult : Z) (f : frame) : frame :=
  if present then
    let '(index', text) := _read_string_data (indata (fr_self f)) (fr_index f) u_mult in
    mkFrame (set_data (<[key := text]> (data (fr_self f))) (fr_self f)) index'
  else f.

(** The five fields, in the order of the string section. *)
Definition STRING_FIELDS : list (string * string) :=
  [("HasName", "description"); ("HasRelativePath", "relativePath");
   ("HasWorkingDir", "workingDirectory"); ("HasArguments", "commandLineArguments");
   ("HasIconLocation", "iconLocation")].

(** A header with HasName and HasRelativePath; a description whose length
    prefix (65535) runs past the end of the buffer; then the two bytes of a
    length prefix 1 and the letter A. *)
Definition overlong_description : bytes :=
  header_with_flags 0x0C ++ B [0xFF; 0xFF] ++ le16 1 ++ list_byte_of_string "A".

(** The frame with which the string section of [overlong_description] starts. *)
Definition overlong_description_frame : frame :=
  mkFrame (header_state None overlong_description) 76.


(** Two extra blocks: one of declared size 16 with an unknown signature, then
    one of declared size 0. *)
Definition two_blocks : bytes :=
  le32 16 ++ le32 0xDEADBEEF ++ repeat x00 8 ++ le32 0 ++ repeat x00 8.


(** The frame with which [_parse] reaches the extra-block walk. *)
Definition walk_entry (path : option string) (b : bytes) : frame :=
  region_strings (region_link_info (link_info_entry path b)).

(** The string section that encodes the relative path notepad.exe and the
    arguments /A test.txt, one byte a character. *)
Definition notepad_strings : bytes :=
  le16 11 ++ list_byte_of_string "notepad.exe"
  ++ le16 11 ++ list_byte_of_string "/A test.txt".

(** The text of a run of bytes, one character a byte. *)
Definition text_of (body : bytes) : string :=
  string_of_chars (map (fun x => chr (byte_val x)) body).

(** Every character of the text has a code above 20 and below 128: the
    characters [_clean_line] keeps. *)
Definition printable (s : string) : Prop :=
  Forall (fun c => 20 < Z.of_N (N_of_ascii c) < 128) (chars_of_string s).

(** [t] is [s] without its surrounding whitespace: [s] is [t] between a run of
    whitespace characters on each side, and [t] neither starts nor ends with
    one. *)
Definition trimmed (s t : string) : Prop :=
  exists l r : list ascii,
    chars_of_string s = l ++ chars_of_string t ++ r /\
    Forall (fun c => is_space c = true) l /\
    Forall (fun c => is_space c = true) r /\
    (forall c t', chars_of_string t = c :: t' -> is_space c = false) /\
    (forall c t', chars_of_string t = t' ++ [c] -> is_space c = false).

(** The names of a flag table whose mask meets the word, in the order of the
    table. *)
Definition enabled_names (table : list (string * Z)) (flags : Z) : list string :=
  map fst (filter (fun nm => Z.land flags (snd nm) ≠ 0) table).

(** The bits of a word that have a name in a flag table. *)
Definition named_bits (table : list (string * Z)) : Z :=
  fold_right Z.lor 0 (map snd table).

(** The value stored under 'windowstyle': the name of the style when the
    number is an index of [WINDOWSTYLES], the number itself otherwise. *)
Definition window_style_value (windowstyle_val : Z) : pyval :=
  if (0 <=? windowstyle_val) && (windowstyle_val <? len WINDOWSTYLES)
  then PStr (nth (Z.to_nat windowstyle_val) WINDOWSTYLES EmptyString)
  else PInt windowstyle_val.

(** What ['<i'] and ['<q'] decode from four and from eight bytes. *)
Definition signed32 (bs : bytes) : Z := to_signed 32 (le_uint bs).
Definition signed64 (bs : bytes) : Z := to_signed 64 (le_uint bs).

(** The dictionary [_parse_lnk_header] builds from a buffer of at least 76
    bytes, written with the offsets of the buffer. *)
Definition header_fields (b : bytes) : gmap string pyval :=
  <["reserved2" := PInt (signed32 (slice b 72 76))]>
  (<["reserved1" := PInt (signed32 (slice b 68 72))]>
  (<["reserved0" := PInt (le_uint (slice b 66 68))]>
  (<["hotkey" := PInt (le_uint (slice b 64 66))]>
  (<["windowstyle" := window_style_value (signed32 (slice b 60 64))]>
  (<["icon_index" := PInt (le_uint (slice b 56 60))]>
  (<["file_size" := PInt (signed32 (slice b 52 56))]>
  (<["modified_time" := PInt (signed64 (slice b 44 52))]>
  (<["accessed_time" := PInt (signed64 (slice b 36 44))]>
  (<["creation_time" := PInt (signed64 (slice b 28 36))]>
  (<["rfileFlags" := PInt (signed32 (slice b 24 28))]>
  (<["rlinkFlags" := PInt (signed32 (slice b 20 24))]>
  (<["guid" := PStr (bytes_hex (slice b 4 20))]>
  (<["header_size" := PInt 76]> ∅))))))))))))).

(** The 'lnk_header' section of the report, from the bytes of the header. *)
Definition header_report (clock : Clock) (b : bytes) : gmap string pyval :=
  <["creation_time" := PStr (_ms_time_to_unix_time (signed64 (slice b 28 36)))]>
  (<["modified_time" := PStr (_ms_time_to_unix_time (signed64 (slice b 44 52)))]>
  (<["accessed_time" := PStr (_ms_time_to_unix_time (signed64 (slice b 36 44)))]>
  (<["header_size" := PInt 76]>
  (<["guid" := PStr (bytes_hex (slice b 4 20))]>
  (<["target_file_size" := PInt (signed32 (slice b 52 56))]>
  (<["icon_index" := PInt (le_uint (slice b 56 60))]>
  (<["window_style" := window_style_value (signed32 (slice b 60 64))]>
  (<["hotkey" := PInt (le_uint (slice b 64 66))]> ∅)))))))).

(** The two keys of [extraBlocks] the block handlers write. *)
Definition TRACKER_BLOCK : string := "DISTRIBUTED_LINK_TRACKER_BLOCK".
Definition ENVIRONMENT_BLOCK : string := "ENVIRONMENTAL_VARIABLES_LOCATION_BLOCK".

(** The dictionary [_parse_distributed_tracker_block] stores for a block at
    [index]. *)
Definition tracker_fields (b : bytes) (index : Z) : gmap string pyval :=
  <["size" := PInt (le_uint (slice b (index + 8) (index + 12)))]>
  (<["version" := PInt (le_uint (slice b (index + 12) (index + 16)))]>
  (<["machine_identifier" := PStr (_clean_line (slice b (index + 16) (index + 32)))]>
  (<["droid_volume_identifier" := PStr (bytes_hex (slice b (index + 32) (index + 48)))]>
  (<["droid_file_identifier" := PStr (bytes_hex (slice b (index + 48) (index + 64)))]>
  (<["birth_droid_volume_identifier" := PStr (bytes_hex (slice b (index + 64) (index + 80)))]>
  (<["birth_droid_file_identifier" := PStr (bytes_hex (slice b (index + 80) (index + 96)))]>
     ∅)))))).

(** The dictionary [_parse_environment_block] stores for a block at [index]
    of declared size [size]. *)
Definition environment_fields (b : bytes) (index size : Z) : gmap string pyval :=
  <["size" := PInt size]>
  (<["variable_location" := PStr (_clean_line (slice b (index + 8) (index + 8 + size)))]> ∅).

(** What one pass of the extra-block loop does to the object at a
    non-negative cursor, for a block of declared size [size] and signature
    word [sigv]. *)
Definition block_effect (index size sigv : Z) (s : LnkForensics) : LnkForensics :=
  if sigv =? 0xA0000001 then
    set_extraBlocks (<[ENVIRONMENT_BLOCK := PDict (environment_fields (indata s) index size)]>
                       (extraBlocks s)) s
  else if (sigv =? 0xA0000003) && (index + 16 <=? len (indata s)) then
    set_extraBlocks (<[TRACKER_BLOCK := PDict (tracker_fields (indata s) index)]>
                       (extraBlocks s)) s
  else s.

(** What holds of [extraBlocks] all along the extra-block walk over the
    buffer [b]. *)
Definition blocks_invariant (b : bytes) (s : LnkForensics) : Prop :=
  indata s = b /\
  (forall k, k <> TRACKER_BLOCK -> k <> ENVIRONMENT_BLOCK -> extraBlocks s !! k = None) /\
  (extraBlocks s !! TRACKER_BLOCK = None \/
   exists i, extraBlocks s !! TRACKER_BLOCK = Some (PDict (tracker_fields b i))) /\
  (extraBlocks s !! ENVIRONMENT_BLOCK = None \/
   exists i size,
     extraBlocks s !! ENVIRONMENT_BLOCK = Some (PDict (environment_fields b i size))).

(** The last step of [__init__]: the parse of the loaded bytes. *)
Definition construct (path : option string) (b : bytes) : res LnkForensics :=
  match _parse (new_object path b) with
  | (Ok _, s) => Ok s
  | (Raise e, _) => Raise e
  end.

(** The messages of the errors [__init__] raises. *)
Definition constructor_messages (path : option string) (msg : string) : Prop :=
  msg = "Must provide file_path, file_handle, or raw_data" \/
  msg = "Parsing failed: Invalid LNK header: None" \/
  (exists p e, path = Some p /\ msg = "Failed to read file " +:+ p +:+ ": " +:+ str_exn e) \/
  (exists e, msg = "Failed to read from file handle: " +:+ str_exn e) \/
  msg = "raw_data must be bytes".

(** What [__init__] returns or raises, for the [file_path] argument [path]. *)
Definition constructed (path : option string) (r : res LnkForensics) : Prop :=
  match r with
  | Ok s =>
      is_valid s = true /\ get_error s = None /\ file_path s = path /\
      76 <= len (indata s) /\ unpack_I (slice (indata s) 0 4) = Ok 76
  | Raise e => exists msg, e = LnkForensicsError msg /\ constructor_messages path msg
  end.

(** The keys of [data] the string section writes. *)
Definition string_keys : list string := map snd STRING_FIELDS.

(** [self.data.get(key, '')] *)
Definition stored_text (s : LnkForensics) (key : string) : string :=
  default EmptyString (data s !! key).

(** The 'file_info' section of the report for the file at [path] holding [b]. *)
Definition file_info_report (hashlib : Hashlib) (os : OS) (path : string) (b : bytes)
    : gmap string pyval :=
  <["md5" := PStr (md5_hexdigest b)]>
  (<["sha1" := PStr (sha1_hexdigest b)]>
  (<["sha256" := PStr (sha256_hexdigest b)]>
  (<["filename" := PStr (basename path)]>
  (<["file_size_bytes" := PInt (len b)]> ∅)))).

(** The ten sections of the report of [get_forensic_data]. *)
Definition REPORT_SECTIONS : list string :=
  ["file_info"; "lnk_header"; "link_flags"; "file_attributes"; "target_info";
   "volume_info"; "network_info"; "machine_tracking"; "environment_info"; "extra_blocks"].

(** What [get_machine_tracking] returns for a tracker block at cursor [c]. *)
Definition machine_tracking_report (b : bytes) (c : Z) : gmap string pyval :=
  <["machine_identifier" := PStr (_clean_line (slice b (c + 16) (c + 32)))]>
  (<["droid_volume_identifier" := PStr (bytes_hex (slice b (c + 32) (c + 48)))]>
  (<["droid_file_identifier" := PStr (bytes_hex (slice b (c + 48) (c + 64)))]>
  (<["birth_droid_volume_identifier" := PStr (bytes_hex (slice b (c + 64) (c + 80)))]>
  (<["birth_droid_file_identifier" := PStr (bytes_hex (slice b (c + 80) (c + 96)))]> ∅)))).

(** The seven fields of the LinkInfo header at cursor [i]. *)
Definition link_info_fields_at (b : bytes) (i : Z) : gmap string pyval :=
  link_info_fields
    (signed32 (slice b i (i + 4))) (signed32 (slice b (i + 4) (i + 8)))
    (signed32 (slice b (i + 8) (i + 12))) (signed32 (slice b (i + 12) (i + 16)))
    (signed32 (slice b (i + 16) (i + 20))) (signed32 (slice b (i + 20) (i + 24)))
    (signed32 (slice b (i + 24) (i + 28))).

(** The dictionary [network_information] stores, read at [j]. *)
Definition network_fields (b : bytes) (j : Z) : gmap string pyval :=
  <["CommonNetworkRelativeLinkSize" := PInt (signed32 (slice b (j + 0) (j + 4)))]>
  (<["CommonNetworkRelativeLinkFlags" := PInt (signed32 (slice b (j + 4) (j + 8)))]>
  (<["NetNameOffset" := PInt (signed32 (slice b (j + 8) (j + 12)))]>
  (<["DeviceNameOffset" := PInt (signed32 (slice b (j + 12) (j + 16)))]>
  (<["NetworkProviderType" := PInt (signed32 (slice b (j + 16) (j + 20)))]> ∅)))).

(** The dictionary of the VolumeID at [j] once [volume_information] is done:
    the four fields read, the name of the drive type when the number is an
    index of [DRIVE_TYPES], and the label when its offset is not 20 and it
    ends inside the buffer. *)
Definition volume_fields (b : bytes) (j : Z) : gmap string pyval :=
  let size := signed32 (slice b (j + 0) (j + 4)) in
  let drive_type := signed32 (slice b (j + 4) (j + 8)) in
  let serial := signed32 (slice b (j + 8) (j + 12)) in
  let label_offset := signed32 (slice b (j + 12) (j + 16)) in
  let d0 : gmap string pyval :=
    <["VolumeIDSize" := PInt size]>
    (<["rDriveType" := PInt drive_type]>
    (<["DriveSerialNumber" := PStr (hex serial)]>
    (<["VolumeLabelOffset" := PInt label_offset]> ∅))) in
  let d1 :=
    if (0 <=? drive_type) && (drive_type <? len DRIVE_TYPES)
    then <["DriveType" := PStr (nth (Z.to_nat drive_type) DRIVE_TYPES EmptyString)]> d0
    else d0 in
  if negb (label_offset =? 20) && (j + label_offset + (size - label_offset) <=? len b)
  then <["VolumeLabel" :=
           PStr (_clean_line (replace_nul
                   (slice b (j + label_offset) (j + label_offset + (size - label_offset)))))]> d1
  else d1.

(** [loc_information] after the first step of [volume_information]: the
    local base path is read when its offset is not zero. *)
Definition with_local_base_path (b : bytes) (index lbp : Z) (l : gmap string pyval)
    : gmap string pyval :=
  if lbp =? 0 then l
  else match _read_string b (index + lbp) with
       | Ok text => <["LocalBasePath" := PStr text]> l
       | Raise _ => l
       end.

(** [loc_information] after a LinkInfo region read at cursor [i] without an
    exception. *)
Definition link_info_decoded (b : bytes) (i : Z) : gmap string pyval :=
  let fields := link_info_fields_at b i in
  let flags := signed32 (slice b (i + 8) (i + 12)) in
  if negb (Z.land flags 0x0001 =? 0) then
    <[volume_key := PDict (volume_fields b (i + signed32 (slice b (i + 12) (i + 16))))]>
      (with_local_base_path b i (signed32 (slice b (i + 16) (i + 20))) fields)
  else if negb (Z.land flags 0x0002 =? 0) then
    <[network_key := PDict (network_fields b (i + signed32 (slice b (i + 20) (i + 24))))]> fields
  else fields.

(** * Properties *)

(** ** Slices and unpacking *)

Lemma len_nonneg {A} (b : list A) : 0 <= len b.
Proof. unfold len. lia. Qed.

Lemma len_slice_gen {A} (b : list A) i j :
  len (slice b i j) = Z.max 0 (slice_bound (len b) j - slice_bound (len b) i).
Proof.
  pose proof (len_nonneg b) as Hn.
  unfold slice.
  assert (Hlo : 0 <= slice_bound (len b) i <= len b)
    by (unfold slice_bound; destruct (i <? 0) eqn:Ei; lia).
  assert (Hhi : 0 <= slice_bound (len b) j <= len b)
    by (unfold slice_bound; destruct (j <? 0) eqn:Ej; lia).
  unfold len at 1. rewrite length_take, length_drop. unfold len in *. lia.
Qed.

Lemma len_slice {A} (b : list A) i j :
  0 <= i -> i <= j -> j <= len b -> len (slice b i j) = j - i.
Proof.
  intros Hi Hij Hj. rewrite len_slice_gen. unfold slice_bound.
  destruct (i <? 0) eqn:Ei; [lia|]. destruct (j <? 0) eqn:Ej; lia.
Qed.

Lemma unpack_unsigned_ok width bs :
  len bs = width -> unpack_unsigned width bs = Ok (le_uint bs).
Proof. intros <-. unfold unpack_unsigned. by rewrite Z.eqb_refl. Qed.

Lemma unpack_signed_ok width bs :
  len bs = width -> unpack_signed width bs = Ok (to_signed (8 * width) (le_uint bs)).
Proof. intros <-. unfold unpack_signed. by rewrite Z.eqb_refl. Qed.

Lemma unpack_unsigned_inv width bs v :
  unpack_unsigned width bs = Ok v -> len bs = width /\ v = le_uint bs.
Proof. unfold unpack_unsigned. destruct (len bs =? width) eqn:E; [|discriminate]. intros [= <-]. lia. Qed.

(** A slice of a prefix is the same slice of the whole buffer. *)
Lemma slice_app_l {A} (p t : list A) i j :
  0 <= i -> i <= j -> j <= len p -> slice (p ++ t) i j = slice p i j.
Proof.
  intros Hi Hij Hj. unfold slice, slice_bound, len in *. rewrite length_app.
  destruct (i <? 0) eqn:Ei; [lia|]. destruct (j <? 0) eqn:Ej; [lia|].
  replace (Z.min i (Z.of_nat (length p + length t))) with i by lia.
  replace (Z.min j (Z.of_nat (length p + length t))) with j by lia.
  replace (Z.min i (Z.of_nat (length p))) with i by lia.
  replace (Z.min j (Z.of_nat (length p))) with j by lia.
  rewrite drop_app_le by lia. rewrite take_app_le; [done|]. rewrite length_drop. lia.
Qed.

(** ** What a computation leaves alone *)

Lemma unchanged_ret {S A B} (proj : S -> B) (a : A) : unchanged proj (ret a).
Proof. intros s. reflexivity. Qed.

Lemma unchanged_raise {S A B} (proj : S -> B) e : unchanged proj (@raise S A e).
Proof. intros s. reflexivity. Qed.

Lemma unchanged_lift {S A B} (proj : S -> B) (r : res A) : unchanged proj (lift r).
Proof. intros s. reflexivity. Qed.

Lemma unchanged_gets {S A B} (proj : S -> B) (f : S -> A) : unchanged proj (gets f).
Proof. intros s. reflexivity. Qed.

Lemma unchanged_modify {S B} (proj : S -> B) (f : S -> S) :
  (forall s, proj (f s) = proj s) -> unchanged proj (modify f).
Proof. intros Hf s. apply Hf. Qed.

Lemma unchanged_bind {S A A' B} (proj : S -> B) (m : M S A) (k : A -> M S A') :
  unchanged proj m -> (forall a, unchanged proj (k a)) -> unchanged proj (bind m k).
Proof.
  intros Hm Hk s. unfold bind. specialize (Hm s).
  destruct (m s) as [[a|e] s1]; simpl in *; [|assumption].
  rewrite Hk. assumption.
Qed.

Lemma unchanged_try_except {S A B} (proj : S -> B) (body : M S A) handler :
  unchanged proj body -> (forall e, unchanged proj (handler e)) ->
  unchanged proj (try_except body handler).
Proof.
  intros Hm Hh s. unfold try_except. specialize (Hm s).
  destruct (body s) as [[a|e] s1]; simpl in *; [assumption|].
  rewrite Hh. assumption.
Qed.

Lemma unchanged_try_pass {S B} (proj : S -> B) (body : M S unit) :
  unchanged proj body -> unchanged proj (try_pass body).
Proof. intros Hm. apply unchanged_try_except; [assumption|]. intros e. apply unchanged_ret. Qed.

Lemma unchanged_on_self {A B} (proj : LnkForensics -> B) (m : M LnkForensics A) :
  unchanged proj m -> unchanged (fun f => proj (fr_self f)) (on_self m).
Proof.
  intros Hm f. unfold on_self. specialize (Hm (fr_self f)).
  destruct (m (fr_self f)) as [r s]. assumption.
Qed.

Lemma unchanged_on_self_index {A} (m : M LnkForensics A) : unchanged fr_index (on_self m).
Proof. intros f. unfold on_self. destruct (m (fr_self f)) as [r s]. reflexivity. Qed.


Lemma try_pass_eq {S} (body : M S unit) s : try_pass body s = (Ok tt, snd (body s)).
Proof.
  unfold try_pass, try_except, ret. destruct (body s) as [[[]|e] s1]; reflexivity.
Qed.

Create HintDb lnk_unfold.
#[local] Hint Unfold flag loc_set loc_int volume_dict volume_int volume_set extra_set
  get_index set_index header_set header_int : lnk_unfold.

(** One step of a proof that a computation leaves a part of the state alone. *)
Ltac unchanged_step :=
  lazymatch goal with
  | |- unchanged _ (ret _) => apply unchanged_ret
  | |- unchanged _ (raise _) => apply unchanged_raise
  | |- unchanged _ (lift _) => apply unchanged_lift
  | |- unchanged _ (gets _) => apply unchanged_gets
  | |- unchanged _ (bind _ _) => apply unchanged_bind; [|intros ?]
  | |- unchanged _ (try_pass _) => apply unchanged_try_pass
  | |- unchanged _ (try_except _ _) => apply unchanged_try_except; [|intros ?]
  | |- unchanged fr_index (on_self _) => apply unchanged_on_self_index
  | |- unchanged (fun f => _ (fr_self f)) (on_self _) => apply unchanged_on_self
  | |- unchanged _ (modify _) =>
      apply unchanged_modify; intros ?; simpl;
      first [ reflexivity | rewrite lookup_insert_ne by discriminate; reflexivity
            | solve [eauto] ]
  | |- unchanged _ (if ?c then _ else _) => destruct c
  | |- unchanged _ (match ?x with _ => _ end) => destruct x eqn:?
  | |- unchanged _ (let '(_, _) := ?x in _) => destruct x
  end.

Ltac unchanged_solve := autounfold with lnk_unfold; repeat unchanged_step.

(** ** The parse of a buffer with a valid header *)

Lemma _parse_lnk_header_ok path b :
  76 <= len b -> unpack_I (slice b 0 4) = Ok 76 ->
  exists h,
    _parse_lnk_header (new_object path b) = (Ok true, set_lnk_header h (new_object path b)) /\
    h !! "header_size" = Some (PInt 76) /\
    h !! "rlinkFlags" = Some (PInt (rlinkFlags_of b)) /\
    h !! "rfileFlags" = Some (PInt (rfileFlags_of b)).
Proof.
  intros Hlen H76.
  assert (Hs : len (slice b 0 76) = 76) by (apply len_slice; lia).
  cbv [_parse_lnk_header try_except bind gets lift ret modify header_set header_int
       indata new_object set_lnk_header lnk_header file_path parsed parse_error linkFlag
       fileFlag data extraBlocks loc_information].
  replace (len b <? 76) with false by lia.
  rewrite H76. rewrite lookup_insert_eq. cbv [negb Z.eqb Pos.eqb].
  unfold unpack_i, unpack_q, unpack_I, unpack_H.
  rewrite !unpack_signed_ok, !unpack_unsigned_ok by (rewrite len_slice; lia).
  destruct (_ && _);
    cbv [try_except bind gets lift ret modify header_set header_int
         indata new_object set_lnk_header lnk_header file_path parsed parse_error linkFlag
         fileFlag data extraBlocks loc_information];
    (eexists; split; [reflexivity|]);
    unfold rlinkFlags_of, rfileFlags_of;
    repeat split;
    repeat (rewrite lookup_insert_ne by discriminate); apply lookup_insert_eq.
Qed.

Lemma bind_ok {S A A'} (m : M S A) (k : A -> M S A') s a s' :
  m s = (Ok a, s') -> bind m k s = k a s'.
Proof. intros Hm. unfold bind. by rewrite Hm. Qed.

Lemma header_steps path b :
  76 <= len b -> unpack_I (slice b 0 4) = Ok 76 ->
  exists h,
    let s1 := set_lnk_header h (new_object path b) in
    let s2 := set_linkFlag (decode_flags LINK_FLAG_BITS (rlinkFlags_of b)) s1 in
    let s3 := set_fileFlag (decode_flags FILE_FLAG_BITS (rfileFlags_of b)) s2 in
    _parse_lnk_header (new_object path b) = (Ok true, s1) /\
    _parse_link_flags s1 = (Ok tt, s2) /\
    _parse_file_flags s2 = (Ok tt, s3) /\
    header_int "header_size" s3 = (Ok 76, s3) /\
    header_state path b = s3.
Proof.
  intros Hlen H76.
  destruct (_parse_lnk_header_ok path b Hlen H76) as (h & Hh & Hsz & Hlf & Hff).
  exists h. intros s1 s2 s3.
  assert (H1 : _parse_link_flags s1 = (Ok tt, s2)).
  { unfold _parse_link_flags, header_int, bind, gets. simpl. by rewrite Hlf. }
  assert (H2 : _parse_file_flags s2 = (Ok tt, s3)).
  { unfold _parse_file_flags, header_int, bind, gets. simpl. by rewrite Hff. }
  assert (H3 : header_int "header_size" s3 = (Ok 76, s3)).
  { unfold header_int, bind, gets. simpl. by rewrite Hsz. }
  repeat split; try assumption.
  unfold header_state. rewrite (bind_ok _ _ _ _ _ Hh), (bind_ok _ _ _ _ _ H1). by rewrite H2.
Qed.

Lemma target_id_list_unchanged {B} (proj : LnkForensics -> B) :
  unchanged (fun f => proj (fr_self f)) target_id_list_body.
Proof. unfold target_id_list_body. unchanged_solve. Qed.

Lemma flag_decoded (s : LnkForensics) fl k :
  linkFlag s = decode_flags LINK_FLAG_BITS fl ->
  In k (map fst LINK_FLAG_BITS) ->
  flag k s = (Ok (flag_enabled s k), s).
Proof.
  intros Hs Hin. unfold flag, flag_enabled, bind, gets. rewrite Hs.
  simpl in Hin.
  repeat (destruct Hin as [<-|Hin]; [reflexivity|]). destruct Hin.
Qed.

Lemma on_self_flag (f : frame) fl k :
  linkFlag (fr_self f) = decode_flags LINK_FLAG_BITS fl ->
  In k (map fst LINK_FLAG_BITS) ->
  on_self (flag k) f = (Ok (flag_enabled (fr_self f) k), f).
Proof.
  intros Hs Hin. unfold on_self. rewrite (flag_decoded _ fl k Hs Hin). by destruct f.
Qed.

Lemma region_id_list_linkFlag f : linkFlag (fr_self (region_id_list f)) = linkFlag (fr_self f).
Proof.
  unfold region_id_list. destruct (flag_enabled _ _); [|reflexivity].
  apply (target_id_list_unchanged linkFlag).
Qed.

Lemma parse_regions_eq f fl :
  linkFlag (fr_self f) = decode_flags LINK_FLAG_BITS fl ->
  parse_regions f =
    (Ok tt,
     let f4 := region_extra (region_strings (region_link_info (region_id_list f))) in
     mkFrame (set_parsed true (fr_self f4)) (fr_index f4)).
Proof.
  intros Hfl. unfold parse_regions.
  unfold bind at 1. rewrite (on_self_flag f fl) by (assumption || (simpl; tauto)).
  unfold bind at 1.
  assert (H1 : (if flag_enabled (fr_self f) "HasTargetIDList"
                then try_pass target_id_list_body else ret tt) f = (Ok tt, region_id_list f)).
  { unfold region_id_list. destruct (flag_enabled _ _); [apply try_pass_eq|reflexivity]. }
  rewrite H1. clear H1.
  assert (Hfl1 := region_id_list_linkFlag f). rewrite Hfl in Hfl1.
  set (f1 := region_id_list f) in *.
  unfold bind at 1. rewrite (on_self_flag f1 fl) by (assumption || (simpl; tauto)).
  unfold bind at 1.
  assert (H2 : (if flag_enabled (fr_self f1) "HasLinkInfo"
                then do force_no <- on_self (flag "ForceNoLinkInfo"); ret (negb force_no)
                else ret false) f1 =
               (Ok (flag_enabled (fr_self f1) "HasLinkInfo"
                    && negb (flag_enabled (fr_self f1) "ForceNoLinkInfo")), f1)).
  { destruct (flag_enabled (fr_self f1) "HasLinkInfo"); [|reflexivity].
    unfold bind. rewrite (on_self_flag f1 fl) by (assumption || (simpl; tauto)). reflexivity. }
  rewrite H2. clear H2.
  unfold bind at 1.
  assert (H3 : (if flag_enabled (fr_self f1) "HasLinkInfo"
                   && negb (flag_enabled (fr_self f1) "ForceNoLinkInfo")
                then try_pass link_info_body else ret tt) f1 = (Ok tt, region_link_info f1)).
  { unfold region_link_info. destruct (_ && _); [apply try_pass_eq|reflexivity]. }
  rewrite H3. clear H3.
  unfold bind. rewrite !try_pass_eq. fold (region_strings (region_link_info f1)).
  fold (region_extra (region_strings (region_link_info f1))).
  unfold on_self, modify. reflexivity.
Qed.

(** With a valid header [_parse] returns, and leaves [parsed_object]. *)
Theorem _parse_valid path b :
  76 <= len b -> unpack_I (slice b 0 4) = Ok 76 ->
  _parse (new_object path b) = (Ok tt, parsed_object path b).
Proof.
  intros Hlen H76.
  destruct (header_steps path b Hlen H76) as (h & Hh & H1 & H2 & H3 & Hst).
  unfold parsed_object, _parse, try_except.
  rewrite (bind_ok _ _ _ _ _ Hh). cbv beta iota delta [negb].
  rewrite (bind_ok _ _ _ _ _ H1), (bind_ok _ _ _ _ _ H2), (bind_ok _ _ _ _ _ H3).
  unfold with_index. rewrite <- Hst.
  rewrite (parse_regions_eq _ (rlinkFlags_of b)) by (rewrite Hst; reflexivity).
  reflexivity.
Qed.

(** ** What each region leaves alone *)

Lemma extra_block_at_unchanged {B} (proj : LnkForensics -> B) index :
  (forall v s, proj (set_extraBlocks v s) = proj s) ->
  unchanged proj (extra_block_at index).
Proof.
  intros Hproj.
  assert (Henv : forall i sz, unchanged proj (_parse_environment_block i sz))
    by (intros; unfold _parse_environment_block; unchanged_solve).
  assert (Hdist : forall i sz, unchanged proj (_parse_distributed_tracker_block i sz))
    by (intros; unfold _parse_distributed_tracker_block; unchanged_solve).
  unfold extra_block_at. unchanged_solve.
  match goal with Hsig : extra_sigs _ = Some _ |- _ => unfold extra_sigs in Hsig;
    repeat match type of Hsig with
           | (if ?c then _ else _) = _ => destruct c
           end; inversion Hsig; auto
  end.
Qed.

Lemma extra_block_walk_unchanged {B} (proj : LnkForensics -> B) s index :
  (forall v s, proj (set_extraBlocks v s) = proj s) ->
  proj (fst (extra_block_walk s index)) = proj s.
Proof.
  intros Hproj. funelim (extra_block_walk s index); simpl; [reflexivity| | |].
  all: pose proof (extra_block_at_unchanged proj index Hproj s) as Hstep.
  all: match goal with E : extra_block_at _ _ = _ |- _ => rewrite E in Hstep end.
  all: simpl in Hstep; try assumption.
  match goal with IH : forall B proj, _ -> _ = _ |- _ => rewrite IH by assumption end.
  assumption.
Qed.

Lemma region_extra_unchanged {B} (proj : LnkForensics -> B) f :
  (forall v s, proj (set_extraBlocks v s) = proj s) ->
  proj (fr_self (region_extra f)) = proj (fr_self f).
Proof.
  intros Hproj. unfold region_extra, extra_blocks_body, modify. simpl.
  pose proof (extra_block_walk_unchanged proj (fr_self f) (fr_index f) Hproj) as Hw.
  destruct (extra_block_walk _ _) as [s i]. assumption.
Qed.

Lemma region_strings_unchanged {B} (proj : LnkForensics -> B) f :
  (forall v s, proj (set_data v s) = proj s) ->
  proj (fr_self (region_strings f)) = proj (fr_self f).
Proof.
  intros Hproj. unfold region_strings.
  assert (Hfield : forall fl k u, unchanged (fun f => proj (fr_self f)) (string_field fl k u))
    by (intros; unfold string_field; unchanged_solve).
  assert (H : unchanged (fun f => proj (fr_self f)) string_data_body)
    by (unfold string_data_body; unchanged_solve; apply Hfield).
  apply H.
Qed.

Lemma link_info_body_unchanged {B} (proj : LnkForensics -> B) :
  (forall v s, proj (set_loc_information v s) = proj s) ->
  unchanged (fun f => proj (fr_self f)) link_info_body.
Proof.
  intros Hproj.
  unfold link_info_body, link_info_header, volume_information, network_information.
  unchanged_solve.
Qed.

Lemma region_link_info_unchanged {B} (proj : LnkForensics -> B) f :
  (forall v s, proj (set_loc_information v s) = proj s) ->
  proj (fr_self (region_link_info f)) = proj (fr_self f).
Proof.
  intros Hproj. unfold region_link_info. destruct (_ && _); [|reflexivity].
  by apply (link_info_body_unchanged proj).
Qed.

Lemma region_id_list_unchanged {B} (proj : LnkForensics -> B) f :
  proj (fr_self (region_id_list f)) = proj (fr_self f).
Proof.
  unfold region_id_list. destruct (flag_enabled _ _); [|reflexivity].
  apply (target_id_list_unchanged proj).
Qed.

(** ** The parsed object, field by field *)

Lemma parsed_object_core {B} (proj : LnkForensics -> B) path b :
  (forall v s, proj (set_extraBlocks v s) = proj s) ->
  (forall v s, proj (set_data v s) = proj s) ->
  (forall v s, proj (set_loc_information v s) = proj s) ->
  (forall v s, proj (set_parsed v s) = proj s) ->
  proj (parsed_object path b) = proj (header_state path b).
Proof.
  intros He Hd Hl Hp. unfold parsed_object.
  rewrite Hp, region_extra_unchanged, region_strings_unchanged,
    region_link_info_unchanged, region_id_list_unchanged by assumption.
  reflexivity.
Qed.

Lemma parsed_object_linkFlag path b :
  76 <= len b -> unpack_I (slice b 0 4) = Ok 76 ->
  linkFlag (parsed_object path b) = decode_flags LINK_FLAG_BITS (rlinkFlags_of b).
Proof.
  intros Hlen H76. rewrite (parsed_object_core linkFlag) by reflexivity.
  destruct (header_steps path b Hlen H76) as (h & _ & _ & _ & _ & ->). reflexivity.
Qed.

Lemma parsed_object_indata path b :
  76 <= len b -> unpack_I (slice b 0 4) = Ok 76 -> indata (parsed_object path b) = b.
Proof.
  intros Hlen H76. rewrite (parsed_object_core indata) by reflexivity.
  destruct (header_steps path b Hlen H76) as (h & _ & _ & _ & _ & ->). reflexivity.
Qed.

Lemma parsed_object_parse_error path b :
  76 <= len b -> unpack_I (slice b 0 4) = Ok 76 -> parse_error (parsed_object path b) = None.
Proof.
  intros Hlen H76. rewrite (parsed_object_core parse_error) by reflexivity.
  destruct (header_steps path b Hlen H76) as (h & _ & _ & _ & _ & ->). reflexivity.
Qed.

Lemma parsed_object_parsed path b : parsed (parsed_object path b) = true.
Proof. reflexivity. Qed.

(** ** Invalid headers *)

Lemma _parse_lnk_header_short path b :
  len b < 76 -> _parse_lnk_header (new_object path b) = (Ok false, new_object path b).
Proof.
  intros Hlen. unfold _parse_lnk_header, try_except.
  rewrite (bind_ok (gets indata) _ (new_object path b) b (new_object path b) eq_refl).
  replace (len b <? 76) with true by lia. reflexivity.
Qed.

Lemma _parse_lnk_header_bad_size path b :
  76 <= len b -> unpack_I (slice b 0 4) <> Ok 76 ->
  _parse_lnk_header (new_object path b) =
    (Ok false,
     set_lnk_header (<["header_size" := PInt (le_uint (slice b 0 4))]> ∅) (new_object path b)).
Proof.
  intros Hlen Hbad.
  assert (Hfour : len (slice b 0 4) = 4) by (apply len_slice; lia).
  unfold unpack_I in Hbad. rewrite (unpack_unsigned_ok 4) in Hbad by assumption.
  unfold _parse_lnk_header, try_except.
  rewrite (bind_ok (gets indata) _ (new_object path b) b (new_object path b) eq_refl).
  replace (len b <? 76) with false by lia.
  assert (Hread : @lift LnkForensics _ (unpack_I (slice b 0 4)) (new_object path b)
                  = (Ok (le_uint (slice b 0 4)), new_object path b))
    by (unfold lift, unpack_I; by rewrite (unpack_unsigned_ok 4)).
  rewrite (bind_ok _ _ _ _ _ Hread).
  set (s1 := set_lnk_header (<["header_size" := PInt (le_uint (slice b 0 4))]> ∅)
               (new_object path b)).
  assert (Hset : header_set "header_size" (PInt (le_uint (slice b 0 4))) (new_object path b)
                 = (Ok tt, s1)) by reflexivity.
  rewrite (bind_ok _ _ _ _ _ Hset).
  assert (Hget : header_int "header_size" s1 = (Ok (le_uint (slice b 0 4)), s1)).
  { unfold header_int. rewrite (bind_ok (gets lnk_header) _ s1 (lnk_header s1) s1 eq_refl).
    change (lnk_header s1) with
      (<["header_size" := PInt (le_uint (slice b 0 4))]> (∅ : gmap string pyval)).
    by rewrite lookup_insert_eq. }
  rewrite (bind_ok _ _ _ _ _ Hget).
  destruct (le_uint (slice b 0 4) =? 76) eqn:E; [apply Z.eqb_eq in E; congruence|].
  reflexivity.
Qed.

Lemma _parse_invalid path b :
  invalid_header b ->
  exists h,
    _parse (new_object path b) =
      (Raise (LnkForensicsError ("Parsing failed: " +:+ invalid_header_message)),
       set_parse_error (Some invalid_header_message) (set_lnk_header h (new_object path b))).
Proof.
  intros Hinv.
  assert (Hhdr : exists h, _parse_lnk_header (new_object path b)
                           = (Ok false, set_lnk_header h (new_object path b))).
  { destruct (Z_lt_dec (len b) 76) as [Hlen|Hlen].
    - exists ∅. by apply _parse_lnk_header_short.
    - destruct Hinv as [Hshort|Hbad]; [lia|].
      eexists. apply _parse_lnk_header_bad_size; [lia|assumption]. }
  destruct Hhdr as [h Hhdr]. exists h.
  unfold _parse, try_except. rewrite (bind_ok _ _ _ _ _ Hhdr). reflexivity.
Qed.

(** C1 (as amended).  For every buffer shorter than 76 bytes, and for every
    buffer whose first four bytes do not decode to 76, [_parse] raises the
    invalid-header error (and so does the constructor on such non-empty raw
    data), the object stays unparsed, and every accessor gated on [parsed]
    returns its empty value, [get_forensic_data] only the error entry.
    [get_file_hashes] is gated on the buffer instead: it is empty only for
    the empty buffer. *)
Theorem invalid_header_rejected (path : option string) (b : bytes) :
  invalid_header b ->
  let r := _parse (new_object path b) in
  fst r = Raise (LnkForensicsError "Parsing failed: Invalid LNK header: None") /\
  (forall (os : OS), b <> [] ->
     __init__ None None (Some b) =
       Raise (LnkForensicsError "Parsing failed: Invalid LNK header: None")) /\
  parsed (snd r) = false /\
  is_valid (snd r) = false /\
  get_error (snd r) = Some "Invalid LNK header: None" /\
  get_target_command (snd r) = EmptyString /\
  (forall (clock : Clock), get_timestamps (snd r) = ∅) /\
  get_machine_tracking (snd r) = ∅ /\
  get_network_info (snd r) = ∅ /\
  get_volume_info (snd r) = ∅ /\
  get_link_flags (snd r) = ∅ /\
  get_file_attributes (snd r) = ∅ /\
  get_target_info (snd r) = ∅ /\
  (forall (clock : Clock) (hashlib : Hashlib) (os : OS),
     get_forensic_data (snd r) = {[ "error" := PStr "Invalid LNK header: None" ]}) /\
  (forall (hashlib : Hashlib), get_file_hashes (snd r) = ∅ <-> b = []) /\
  (forall (hashlib : Hashlib),
     b <> [] ->
     get_file_hashes (snd r) =
       <["md5" := PStr (md5_hexdigest b)]>
       (<["sha1" := PStr (sha1_hexdigest b)]>
       (<["sha256" := PStr (sha256_hexdigest b)]> ∅))).
Proof.
  intros Hinv r. subst r.
  pose proof (_parse_invalid None b Hinv) as [h0 Hraw].
  destruct (_parse_invalid path b Hinv) as [h Hr]. rewrite Hr. simpl.
  repeat split; try reflexivity.
  - intros os Hne. unfold __init__. destruct b as [|x b']; [congruence|].
    rewrite Hraw. reflexivity.
  - unfold get_file_hashes. simpl. destruct b; [reflexivity|].
    intros Hempty. exfalso. revert Hempty. apply insert_non_empty.
  - intros ->. reflexivity.
  - intros Hne. unfold get_file_hashes. simpl. destruct b; [congruence|reflexivity].
Qed.

(** The claim at a one-byte buffer. *)
Lemma invalid_header_rejected_witness :
  invalid_header (B [0]) /\
  fst (_parse (new_object None (B [0]))) =
    Raise (LnkForensicsError "Parsing failed: Invalid LNK header: None") /\
  get_target_command (snd (_parse (new_object None (B [0])))) = EmptyString.
Proof.
  assert (Hinv : invalid_header (B [0])) by (left; vm_compute; reflexivity).
  split; [exact Hinv|].
  pose proof (invalid_header_rejected None (B [0]) Hinv) as Hthm.
  split; [exact (proj1 Hthm)|].
  exact (proj1 (proj2 (proj2 (proj2 (proj2 (proj2 Hthm)))))).
Defined.

(** C1 as stated fails: after a failed parse of a non-empty buffer
    [get_file_hashes] still returns the three digests. *)
Lemma file_hashes_survive_invalid_header :
  ~ (forall (hashlib : Hashlib) (b : bytes),
       invalid_header b -> get_file_hashes (snd (_parse (new_object None b))) = ∅).
Proof.
  intros Hall.
  specialize (Hall (Build_Hashlib (fun _ => "d") (fun _ => "d") (fun _ => "d")) (B [0])).
  assert (Hinv : invalid_header (B [0])) by (left; vm_compute; reflexivity).
  specialize (Hall Hinv). vm_compute in Hall. discriminate Hall.
Qed.

(** C2.  Given as raw data, the empty buffer never reaches the parser: the
    constructor raises its missing-input error.  Read from a file handle, the
    same empty content is parsed and rejected for its header. *)
Theorem empty_raw_data_is_a_construction_error (os : OS) :
  __init__ None None (Some []) =
    Raise (LnkForensicsError "Must provide file_path, file_handle, or raw_data") /\
  __init__ None (Some (Ok [])) None =
    Raise (LnkForensicsError "Parsing failed: Invalid LNK header: None").
Proof. split; reflexivity. Qed.

(** C3 (as amended).  For a buffer with a valid 76-byte header whose
    link-flags word is 0x0000002C, the enabled link flags are exactly HasName,
    HasRelativePath and HasArguments; HasRelativePath, HasWorkingDir and
    HasArguments are the enabled flags of the word 0x00000038. *)
Theorem link_flags_0x2C (path : option string) (b : bytes) :
  76 <= len b -> unpack_I (slice b 0 4) = Ok 76 ->
  exists s,
    _parse (new_object path b) = (Ok tt, s) /\
    (rlinkFlags_of b = 0x2C ->
       _get_enabled_flags (linkFlag s) = ["HasName"; "HasRelativePath"; "HasArguments"] /\
       get_link_flags s !! "enabled_flags" =
         Some (PList [PStr "HasName"; PStr "HasRelativePath"; PStr "HasArguments"])) /\
    (rlinkFlags_of b = 0x38 ->
       _get_enabled_flags (linkFlag s) = ["HasRelativePath"; "HasWorkingDir"; "HasArguments"]).
Proof.
  intros Hlen H76. exists (parsed_object path b).
  split; [by apply _parse_valid|].
  pose proof (parsed_object_linkFlag path b Hlen H76) as Hfl.
  split; intros Hword; rewrite Hword in Hfl.
  - assert (He : _get_enabled_flags (linkFlag (parsed_object path b)) =
                 ["HasName"; "HasRelativePath"; "HasArguments"])
      by (rewrite Hfl; reflexivity).
    split; [exact He|].
    unfold get_link_flags. rewrite parsed_object_parsed. simpl negb. cbv iota.
    rewrite lookup_insert_ne by discriminate. rewrite lookup_insert_eq. by rewrite He.
  - rewrite Hfl. reflexivity.
Qed.

(** The claim at the header alone, all other fields zero. *)
Lemma link_flags_0x2C_witness :
  exists s,
    _parse (new_object None (header_with_flags 0x2C)) = (Ok tt, s) /\
    _get_enabled_flags (linkFlag s) = ["HasName"; "HasRelativePath"; "HasArguments"].
Proof.
  assert (Hlen : 76 <= len (header_with_flags 0x2C)) by (vm_compute; discriminate).
  assert (H76 : unpack_I (slice (header_with_flags 0x2C) 0 4) = Ok 76) by reflexivity.
  destruct (link_flags_0x2C None (header_with_flags 0x2C) Hlen H76) as (s & Hs & H2C & _).
  exists s. split; [exact Hs|]. apply H2C. reflexivity.
Defined.

(** C3 as stated fails: with the word 0x0000002C, HasWorkingDir is not among
    the enabled flags and HasName is. *)
Lemma link_flags_0x2C_has_no_working_dir :
  let s := snd (_parse (new_object None (header_with_flags 0x2C))) in
  parsed s = true /\
  ~ In "HasWorkingDir" (_get_enabled_flags (linkFlag s)) /\
  In "HasName" (_get_enabled_flags (linkFlag s)).
Proof.
  vm_compute. split; [reflexivity|]. split; [|tauto].
  intros H. repeat (destruct H as [H|H]; [discriminate H|]). exact H.
Qed.

(** ** Timestamps *)

(** C4 (as amended).  The FILETIME value of 2021-06-01 00:00:00 UTC is POSIX
    second 1622505600; the conversion formats the local civil time that
    [fromtimestamp] gives for it, which is "2021-06-01 00:00:00" when the
    local zone is UTC; and for every value on which [fromtimestamp] raises,
    the conversion returns the sentinel "Invalid timestamp" instead of
    raising.  [get_timestamps] converts the header's creation time so. *)
Theorem timestamp_conversion (clock : Clock) :
  (posix_seconds filetime_2021_06_01 == 1622505600)%Q /\
  (fromtimestamp (posix_seconds filetime_2021_06_01) = Some (mkDatetime 2021 6 1 0 0 0) ->
   _ms_time_to_unix_time filetime_2021_06_01 = "2021-06-01 00:00:00") /\
  @_ms_time_to_unix_time utc_clock filetime_2021_06_01 = "2021-06-01 00:00:00" /\
  (forall time dt,
     fromtimestamp (posix_seconds time) = Some dt ->
     _ms_time_to_unix_time time = strftime dt) /\
  (forall time,
     fromtimestamp (posix_seconds time) = None ->
     _ms_time_to_unix_time time = "Invalid timestamp") /\
  (forall s time,
     parsed s = true -> lnk_header s !! "creation_time" = Some (PInt time) ->
     get_timestamps s !! "creation_time" = Some (PStr (_ms_time_to_unix_time time))).
Proof.
  split; [reflexivity|].
  split; [intros Hlocal; unfold _ms_time_to_unix_time; rewrite Hlocal; reflexivity|].
  split; [reflexivity|].
  split; [intros time dt Hdt; unfold _ms_time_to_unix_time; by rewrite Hdt|].
  split; [intros time Hnone; unfold _ms_time_to_unix_time; by rewrite Hnone|].
  intros s time Hparsed Hct. unfold get_timestamps. rewrite Hparsed. simpl negb. cbv iota.
  rewrite lookup_insert_eq. unfold header_time, get_or. by rewrite Hct.
Qed.

(** The claim under a clock whose local zone is UTC. *)
Lemma timestamp_conversion_witness :
  @fromtimestamp utc_clock (posix_seconds filetime_2021_06_01)
    = Some (mkDatetime 2021 6 1 0 0 0) /\
  @_ms_time_to_unix_time utc_clock filetime_2021_06_01 = "2021-06-01 00:00:00" /\
  @fromtimestamp utc_clock (posix_seconds (2 ^ 63 - 1)) = None /\
  @_ms_time_to_unix_time utc_clock (2 ^ 63 - 1) = "Invalid timestamp".
Proof.
  pose proof (timestamp_conversion utc_clock) as (_ & Hlocal & _ & _ & Hsentinel & _).
  assert (H1 : @fromtimestamp utc_clock (posix_seconds filetime_2021_06_01)
               = Some (mkDatetime 2021 6 1 0 0 0)) by (vm_compute; reflexivity).
  assert (H2 : @fromtimestamp utc_clock (posix_seconds (2 ^ 63 - 1)) = None)
    by (vm_compute; reflexivity).
  split; [exact H1|]. split; [exact (Hlocal H1)|]. split; [exact H2|].
  exact (Hsentinel _ H2).
Defined.

(** C4 as stated fails: at the largest 64-bit FILETIME value the conversion
    is out of range and the string returned is not "invalid timestamp"; and
    under a local zone one hour east of UTC the string for the FILETIME value
    of 2021-06-01 00:00:00 UTC is not that of the UTC date-time. *)
Lemma timestamp_sentinel_and_zone :
  @fromtimestamp utc_clock (posix_seconds (2 ^ 63 - 1)) = None /\
  @_ms_time_to_unix_time utc_clock (2 ^ 63 - 1) <> "invalid timestamp" /\
  @_ms_time_to_unix_time cet_clock filetime_2021_06_01 = "2021-06-01 01:00:00".
Proof.
  split; [vm_compute; reflexivity|].
  split; [vm_compute; discriminate|].
  vm_compute; reflexivity.
Qed.

(** ** The LinkInfo region *)

Lemma unchanged_kept_on_raise {S A B} (proj : S -> B) (m : M S A) :
  unchanged proj m -> kept_on_raise proj m.
Proof. intros Hm s e _. apply Hm. Qed.

Lemma kept_on_raise_bind {S A A' B} (proj : S -> B) (m : M S A) (k : A -> M S A') :
  unchanged proj m -> (forall a, kept_on_raise proj (k a)) -> kept_on_raise proj (bind m k).
Proof.
  intros Hm Hk s e. unfold bind. specialize (Hm s).
  destruct (m s) as [[a|e1] s1]; simpl in *; [|intros _; assumption].
  intros Hr. rewrite (Hk a s1 e Hr). assumption.
Qed.

Lemma kept_on_raise_returns {S A B} (proj : S -> B) (m : M S A) :
  (forall s, exists a, fst (m s) = Ok a) -> kept_on_raise proj m.
Proof. intros Hm s e Hr. destruct (Hm s) as [a Ha]. congruence. Qed.

(** The header of the region is read whole or not at all. *)
Lemma link_info_header_cases index s :
  (exists e, link_info_header index s = (Raise e, s)) \/
  (exists v0 v1 v2 v3 v4 v5 v6,
     link_info_header index s =
       (Ok tt, set_loc_information (link_info_fields v0 v1 v2 v3 v4 v5 v6) s)).
Proof.
  unfold link_info_header, bind, gets, lift, modify.
  repeat match goal with
         | |- context [unpack_i ?x] => destruct (unpack_i x); [|left; eexists; reflexivity]
         end.
  right. do 7 eexists. reflexivity.
Qed.

Lemma link_info_body_split f :
  link_info_body f =
    (run on_self (link_info_header (fr_index f)); link_info_rest (fr_index f)) f.
Proof. reflexivity. Qed.

Lemma volume_information_unchanged k index :
  k <> "LocalBasePath" -> k <> "VolumeIDAndLocalBasePath" ->
  unchanged (fun s => loc_information s !! k) (volume_information index).
Proof.
  intros H1 H2. unfold volume_information. autounfold with lnk_unfold.
  repeat first
    [ apply unchanged_modify; intros ?; simpl; by rewrite lookup_insert_ne
    | unchanged_step ].
Qed.

Lemma network_information_unchanged k index :
  k <> "CommonNetworkRelativeLinkAndPathSuffix" ->
  unchanged (fun s => loc_information s !! k) (network_information index).
Proof.
  intros H1. unfold network_information. autounfold with lnk_unfold.
  repeat first
    [ apply unchanged_modify; intros ?; simpl; by rewrite lookup_insert_ne
    | unchanged_step ].
Qed.

Lemma snd_bind_unchanged {S A A' B} (proj : S -> B) (m : M S A) (k : A -> M S A') s :
  (forall a, unchanged proj (k a)) -> proj (snd (bind m k s)) = proj (snd (m s)).
Proof.
  intros Hk. unfold bind. destruct (m s) as [[a|e] s1]; simpl; [apply Hk|reflexivity].
Qed.

Lemma on_self_loc_int f k z :
  loc_information (fr_self f) !! k = Some (PInt z) -> on_self (loc_int k) f = (Ok z, f).
Proof.
  intros Hk. unfold on_self, loc_int, bind, gets. rewrite Hk. by destruct f.
Qed.

Lemma on_self_lookup {A} (m : M LnkForensics A) k f :
  unchanged (fun s => loc_information s !! k) m ->
  loc_information (fr_self (snd (on_self m f))) !! k = loc_information (fr_self f) !! k.
Proof. intros Hm. apply (unchanged_on_self (fun s => loc_information s !! k) m Hm f). Qed.

Lemma link_info_tail_unchanged index :
  unchanged (fun f => loc_information (fr_self f))
    (do size <- on_self (loc_int "LinkInfoSize"); set_index (index + size)).
Proof.
  apply unchanged_bind.
  - apply (unchanged_on_self loc_information). unfold loc_int. unchanged_solve.
  - intros size. unfold set_index. unchanged_solve.
Qed.

(** After the region's header: which keys the rest of the body can add. *)
Lemma link_info_rest_spec index f flags :
  loc_information (fr_self f) !! "LinkInfoFlags" = Some (PInt flags) ->
  loc_information (fr_self f) !! volume_key = None ->
  loc_information (fr_self f) !! network_key = None ->
  let l' := loc_information (fr_self (snd (link_info_rest index f))) in
  (forall k, k <> "LocalBasePath" -> k <> volume_key -> k <> network_key ->
             l' !! k = loc_information (fr_self f) !! k) /\
  (is_Some (l' !! volume_key) -> Z.land flags 1 <> 0) /\
  (is_Some (l' !! network_key) -> Z.land flags 1 = 0 /\ Z.land flags 2 <> 0).
Proof.
  intros Hflags Hvol Hnet. unfold link_info_rest.
  rewrite (bind_ok _ _ _ _ _ (on_self_loc_int f _ _ Hflags)).
  rewrite (snd_bind_unchanged (fun f => loc_information (fr_self f)))
    by (intros; apply link_info_tail_unchanged).
  destruct (Z.land flags 1 =? 0) eqn:Hbit0; cbv beta iota delta [negb].
  - apply Z.eqb_eq in Hbit0.
    rewrite (bind_ok _ _ _ _ _ (on_self_loc_int f _ _ Hflags)).
    destruct (Z.land flags 2 =? 0) eqn:Hbit1; cbv beta iota delta [negb].
    + change (snd (ret tt f)) with f.
      split; [reflexivity|]. rewrite Hvol, Hnet.
      split; intros [x Hx]; discriminate Hx.
    + apply Z.eqb_neq in Hbit1.
      split; [intros k H1 H2 H3; by apply on_self_lookup, network_information_unchanged|].
      split; [|intros _; by split].
      rewrite on_self_lookup by (by apply network_information_unchanged).
      rewrite Hvol. intros [x Hx]. discriminate Hx.
  - apply Z.eqb_neq in Hbit0.
    split; [intros k H1 H2 H3; by apply on_self_lookup, volume_information_unchanged|].
    split; [intros _; assumption|].
    rewrite on_self_lookup by (by apply volume_information_unchanged).
    rewrite Hnet. intros [x Hx]. discriminate Hx.
Qed.

Lemma link_info_entry_empty path b :
  76 <= len b -> unpack_I (slice b 0 4) = Ok 76 ->
  loc_information (fr_self (link_info_entry path b)) = ∅.
Proof.
  intros Hlen H76. unfold link_info_entry.
  rewrite (region_id_list_unchanged loc_information). simpl.
  destruct (header_steps path b Hlen H76) as (h & _ & _ & _ & _ & ->). reflexivity.
Qed.

Lemma parsed_object_loc_information path b :
  loc_information (parsed_object path b) =
    loc_information (fr_self (region_link_info (link_info_entry path b))).
Proof.
  unfold parsed_object, link_info_entry.
  change (loc_information (set_parsed true ?s)) with (loc_information s).
  by rewrite region_extra_unchanged, region_strings_unchanged.
Qed.

Lemma link_info_rest_keeps_index index : kept_on_raise fr_index (link_info_rest index).
Proof.
  unfold link_info_rest.
  apply kept_on_raise_bind; [unchanged_solve|]. intros flags.
  apply kept_on_raise_bind; [unchanged_solve|]. intros _.
  apply kept_on_raise_bind; [unchanged_solve|]. intros size.
  apply kept_on_raise_returns. intros s. by exists tt.
Qed.

Lemma link_info_fields_lookup v0 v1 v2 v3 v4 v5 v6 :
  link_info_fields v0 v1 v2 v3 v4 v5 v6 !! "LinkInfoSize" = Some (PInt v0) /\
  link_info_fields v0 v1 v2 v3 v4 v5 v6 !! "LinkInfoFlags" = Some (PInt v2) /\
  link_info_fields v0 v1 v2 v3 v4 v5 v6 !! volume_key = None /\
  link_info_fields v0 v1 v2 v3 v4 v5 v6 !! network_key = None.
Proof. repeat split. Qed.

(** C5 (as amended).  When decoding the LinkInfo region (entered when
    HasLinkInfo is set and ForceNoLinkInfo is clear) raises, the exception is
    caught, the overall parse still succeeds and the cursor is where the
    region started; [loc_information] keeps what was assigned before the
    exception.  It is empty exactly when the failure is in reading the seven
    header fields; otherwise those fields stay in the result. *)
Theorem link_info_failure_keeps_partial_fields (path : option string) (b : bytes) (e : exn) :
  76 <= len b -> unpack_I (slice b 0 4) = Ok 76 ->
  let f := link_info_entry path b in
  flag_enabled (fr_self f) "HasLinkInfo" = true ->
  flag_enabled (fr_self f) "ForceNoLinkInfo" = false ->
  fst (link_info_body f) = Raise e ->
  exists s,
    _parse (new_object path b) = (Ok tt, s) /\
    is_valid s = true /\
    loc_information s = loc_information (fr_self (snd (link_info_body f))) /\
    fr_index (snd (link_info_body f)) = fr_index f /\
    (loc_information s = ∅ <->
       exists e', fst (link_info_header (fr_index f) (fr_self f)) = Raise e') /\
    (forall v0 v1 v2 v3 v4 v5 v6,
       link_info_header (fr_index f) (fr_self f) =
         (Ok tt, set_loc_information (link_info_fields v0 v1 v2 v3 v4 v5 v6) (fr_self f)) ->
       forall k, k <> "LocalBasePath" -> k <> volume_key -> k <> network_key ->
                 loc_information s !! k = link_info_fields v0 v1 v2 v3 v4 v5 v6 !! k).
Proof.
  intros Hlen H76 f Hhas Hforce Hraise.
  exists (parsed_object path b).
  split; [by apply _parse_valid|].
  split; [unfold is_valid; rewrite parsed_object_parsed, parsed_object_parse_error by assumption;
          reflexivity|].
  assert (Hloc : loc_information (parsed_object path b)
                 = loc_information (fr_self (snd (link_info_body f)))).
  { rewrite parsed_object_loc_information. fold f. unfold region_link_info.
    by rewrite Hhas, Hforce. }
  split; [exact Hloc|].
  pose proof (link_info_entry_empty path b Hlen H76) as Hempty. fold f in Hempty.
  rewrite Hloc. clear Hloc.
  rewrite link_info_body_split in *.
  destruct (link_info_header_cases (fr_index f) (fr_self f))
    as [[e' He']|(v0 & v1 & v2 & v3 & v4 & v5 & v6 & Hok)].
  - assert (Hbody : (run on_self (link_info_header (fr_index f)); link_info_rest (fr_index f)) f
                    = (Raise e', f)).
    { unfold bind, on_self. rewrite He'. by destruct f. }
    rewrite Hbody. simpl. split; [reflexivity|]. split.
    + split; [intros _; exists e'; by rewrite He'|intros _; exact Hempty].
    + intros ? ? ? ? ? ? ? Hok. rewrite He' in Hok. discriminate Hok.
  - set (f1 := mkFrame (set_loc_information (link_info_fields v0 v1 v2 v3 v4 v5 v6) (fr_self f))
                 (fr_index f)).
    assert (Hstep : on_self (link_info_header (fr_index f)) f = (Ok tt, f1))
      by (unfold on_self; rewrite Hok; reflexivity).
    rewrite (bind_ok _ _ _ _ _ Hstep) in *.
    destruct (link_info_fields_lookup v0 v1 v2 v3 v4 v5 v6) as (Hsize & Hflags & Hvol & Hnet).
    destruct (link_info_rest_spec (fr_index f) f1 v2 Hflags Hvol Hnet) as (Hkeep & _ & _).
    split; [exact (link_info_rest_keeps_index (fr_index f) f1 e Hraise)|]. split.
    + split.
      * intros Habs.
        assert (Hk : forall k : string, k = "LinkInfoSize" -> k <> "LocalBasePath"
                       /\ k <> volume_key /\ k <> network_key)
          by (intros k ->; repeat split; discriminate).
        destruct (Hk _ eq_refl) as (Hk1 & Hk2 & Hk3).
        pose proof (Hkeep "LinkInfoSize" Hk1 Hk2 Hk3) as Hsz.
        rewrite Habs, lookup_empty in Hsz. subst f1.
        cbn [fr_self loc_information set_loc_information] in Hsz.
        discriminate (eq_trans Hsz Hsize).
      * intros [e' He']. rewrite Hok in He'. discriminate He'.
    + intros w0 w1 w2 w3 w4 w5 w6 Hok'. rewrite Hok in Hok'.
      apply (f_equal (fun p => loc_information (snd p))) in Hok'.
      cbn [snd loc_information set_loc_information] in Hok'.
      intros k Hk1 Hk2 Hk3.
      rewrite (Hkeep k Hk1 Hk2 Hk3). subst f1.
      cbn [fr_self loc_information set_loc_information]. by rewrite Hok'.
Qed.

(** The claim at [link_info_truncated]: the read of the VolumeID raises. *)
Lemma link_info_failure_keeps_partial_fields_witness :
  exists s,
    _parse (new_object None link_info_truncated) = (Ok tt, s) /\
    is_valid s = true /\
    fr_index (snd (link_info_body (link_info_entry None link_info_truncated))) = 76.
Proof.
  assert (Hlen : 76 <= len link_info_truncated) by (vm_compute; discriminate).
  assert (H76 : unpack_I (slice link_info_truncated 0 4) = Ok 76) by (vm_compute; reflexivity).
  assert (Hhas : flag_enabled (fr_self (link_info_entry None link_info_truncated))
                   "HasLinkInfo" = true) by (vm_compute; reflexivity).
  assert (Hforce : flag_enabled (fr_self (link_info_entry None link_info_truncated))
                     "ForceNoLinkInfo" = false) by (vm_compute; reflexivity).
  assert (Hraise : fst (link_info_body (link_info_entry None link_info_truncated))
                   = Raise (struct_error 4)) by (vm_compute; reflexivity).
  destruct (link_info_failure_keeps_partial_fields None link_info_truncated (struct_error 4)
              Hlen H76 Hhas Hforce Hraise) as (s & Hs & Hvalid & _ & Hindex & _).
  exists s. split; [exact Hs|]. split; [exact Hvalid|]. rewrite Hindex. reflexivity.
Defined.

(** C5 as stated fails: at [link_info_truncated] the region raises, the parse
    succeeds, and the LinkInfo fields decoded before the exception are in the
    result; [get_volume_info] returns the local base path. *)
Lemma link_info_failure_leaves_fields :
  let s := snd (_parse (new_object None link_info_truncated)) in
  fst (link_info_body (link_info_entry None link_info_truncated)) = Raise (struct_error 4) /\
  is_valid s = true /\
  loc_information s !! "LinkInfoFlags" = Some (PInt 1) /\
  loc_information s !! "LocalBasePath" = Some (PStr "C:\x.exe") /\
  get_volume_info s = {[ "local_base_path" := PStr "C:\x.exe" ]}.
Proof. cbv zeta. repeat split; vm_compute; reflexivity. Qed.

Lemma region_link_info_shape f :
  loc_information (fr_self f) = ∅ ->
  let l := loc_information (fr_self (region_link_info f)) in
  l = ∅ \/
  exists flags,
    l !! "LinkInfoFlags" = Some (PInt flags) /\
    (is_Some (l !! volume_key) -> Z.land flags 1 <> 0) /\
    (is_Some (l !! network_key) -> Z.land flags 1 = 0 /\ Z.land flags 2 <> 0).
Proof.
  intros Hempty. unfold region_link_info.
  destruct (_ && _); [|by left].
  rewrite link_info_body_split.
  destruct (link_info_header_cases (fr_index f) (fr_self f))
    as [[e' He']|(v0 & v1 & v2 & v3 & v4 & v5 & v6 & Hok)].
  - left. unfold bind, on_self. rewrite He'. assumption.
  - right. exists v2.
    set (f1 := mkFrame (set_loc_information (link_info_fields v0 v1 v2 v3 v4 v5 v6) (fr_self f))
                 (fr_index f)).
    assert (Hstep : on_self (link_info_header (fr_index f)) f = (Ok tt, f1))
      by (unfold on_self; rewrite Hok; reflexivity).
    rewrite (bind_ok _ _ _ _ _ Hstep).
    destruct (link_info_fields_lookup v0 v1 v2 v3 v4 v5 v6) as (Hsize & Hflags & Hvol & Hnet).
    destruct (link_info_rest_spec (fr_index f) f1 v2 Hflags Hvol Hnet) as (Hkeep & Hv & Hn).
    split; [|split; assumption].
    assert (Hk : forall k : string, k = "LinkInfoFlags" -> k <> "LocalBasePath"
                   /\ k <> volume_key /\ k <> network_key)
      by (intros k ->; repeat split; discriminate).
    destruct (Hk _ eq_refl) as (Hk1 & Hk2 & Hk3).
    exact (eq_trans (Hkeep "LinkInfoFlags" Hk1 Hk2 Hk3) Hflags).
Qed.

(** ** The string section *)

Lemma unpack_H_in_bounds b index n :
  unpack_H (slice b index (index + 2)) = Ok n -> index + 2 <= len b.
Proof.
  intros Hn. apply unpack_unsigned_inv in Hn as [Hlen _].
  rewrite len_slice_gen in Hlen. pose proof (len_nonneg b) as Hb.
  unfold slice_bound in Hlen.
  destruct (index <? 0) eqn:E1; destruct (index + 2 <? 0) eqn:E2; lia.
Qed.

Lemma _read_string_data_overlong b index u_mult n :
  unpack_H (slice b index (index + 2)) = Ok n ->
  len b < index + 2 + n * u_mult ->
  _read_string_data b index u_mult = (index + 2, EmptyString).
Proof.
  intros Hn Hover. pose proof (unpack_H_in_bounds b index n Hn) as Hin.
  unfold _read_string_data. rewrite Hn.
  replace (len b <? index + 2) with false by lia.
  replace (len b <? index + 2 + n * u_mult) with true by lia.
  reflexivity.
Qed.

(** A read either fails, with the empty string and the cursor moved by 0 or by
    2, or returns the declared bytes and the cursor after them. *)
Lemma _read_string_data_cases b index u_mult :
  (snd (_read_string_data b index u_mult) = EmptyString /\
   (fst (_read_string_data b index u_mult) = index \/
    fst (_read_string_data b index u_mult) = index + 2)) \/
  (exists n,
     unpack_H (slice b index (index + 2)) = Ok n /\
     index + 2 + n * u_mult <= len b /\
     _read_string_data b index u_mult =
       (index + n * u_mult + 2,
        _clean_line (replace_nul (slice b (index + 2) (index + 2 + n * u_mult))))).
Proof.
  unfold _read_string_data.
  destruct (len b <? index + 2) eqn:Hshort; [left; simpl; tauto|].
  destruct (unpack_H (slice b index (index + 2))) as [n|e]; [|left; simpl; tauto].
  destruct (len b <? index + 2 + n * u_mult) eqn:Hover; [left; simpl; tauto|].
  right. exists n. repeat split. lia.
Qed.

Lemma string_field_eq f fl flag_name key u_mult :
  linkFlag (fr_self f) = decode_flags LINK_FLAG_BITS fl ->
  In flag_name (map fst LINK_FLAG_BITS) ->
  string_field flag_name key u_mult f =
    (Ok tt, field_step (flag_enabled (fr_self f) flag_name) key u_mult f).
Proof.
  intros Hfl Hin. unfold string_field, field_step.
  rewrite (bind_ok _ _ _ _ _ (on_self_flag f fl flag_name Hfl Hin)).
  destruct (flag_enabled (fr_self f) flag_name); [|reflexivity].
  unfold bind, get_index, gets, on_self. simpl.
  destruct (_read_string_data _ _ _) as [index' text]. reflexivity.
Qed.

Lemma field_step_linkFlag present key u_mult f :
  linkFlag (fr_self (field_step present key u_mult f)) = linkFlag (fr_self f).
Proof.
  unfold field_step. destruct present; [|reflexivity].
  destruct (_read_string_data _ _ _). reflexivity.
Qed.

Lemma field_step_stores key u_mult f :
  is_Some (data (fr_self (field_step true key u_mult f)) !! key).
Proof.
  unfold field_step. destruct (_read_string_data _ _ _) as [index' text].
  cbn [fr_self data set_data]. rewrite lookup_insert_eq. by eexists.
Qed.

Lemma field_step_keeps present key u_mult f k :
  is_Some (data (fr_self f) !! k) ->
  is_Some (data (fr_self (field_step present key u_mult f)) !! k).
Proof.
  intros Hk. unfold field_step. destruct present; [|assumption].
  destruct (_read_string_data _ _ _) as [index' text].
  cbn [fr_self data set_data]. rewrite lookup_insert.
  destruct (decide (key = k)); [by eexists|assumption].
Qed.

(** The string section as five steps in a row. *)
Lemma string_data_body_steps (f : frame) (fl : Z) :
  linkFlag (fr_self f) = decode_flags LINK_FLAG_BITS fl ->
  let present k := flag_enabled (fr_self f) k in
  let u_mult := if present "IsUnicode" then 2 else 1 in
  let f1 := field_step (present "HasName") "description" u_mult f in
  let f2 := field_step (present "HasRelativePath") "relativePath" u_mult f1 in
  let f3 := field_step (present "HasWorkingDir") "workingDirectory" u_mult f2 in
  let f4 := field_step (present "HasArguments") "commandLineArguments" u_mult f3 in
  let f5 := field_step (present "HasIconLocation") "iconLocation" u_mult f4 in
  string_data_body f = (Ok tt, f5).
Proof.
  intros Hfl present u_mult f1 f2 f3 f4 f5.
  assert (Hin : forall k, In k ["IsUnicode"; "HasName"; "HasRelativePath"; "HasWorkingDir";
                                "HasArguments"; "HasIconLocation"] ->
                          In k (map fst LINK_FLAG_BITS))
    by (intros k Hk; simpl in Hk; simpl;
        repeat (destruct Hk as [<-|Hk]; [tauto|]); destruct Hk).
  assert (Hstep : forall g flag_name key,
            In flag_name ["IsUnicode"; "HasName"; "HasRelativePath"; "HasWorkingDir";
                          "HasArguments"; "HasIconLocation"] ->
            linkFlag (fr_self g) = decode_flags LINK_FLAG_BITS fl ->
            string_field flag_name key u_mult g =
              (Ok tt, field_step (present flag_name) key u_mult g) /\
            linkFlag (fr_self (field_step (present flag_name) key u_mult g))
              = decode_flags LINK_FLAG_BITS fl).
  { intros g flag_name key Hk Hg. split; [|by rewrite field_step_linkFlag].
    rewrite (string_field_eq g fl flag_name key u_mult Hg (Hin _ Hk)).
    unfold present, flag_enabled. by rewrite Hg, Hfl. }
  destruct (Hstep f "HasName" "description" ltac:(simpl; tauto) Hfl) as [E1 H1].
  fold f1 in E1, H1.
  destruct (Hstep f1 "HasRelativePath" "relativePath" ltac:(simpl; tauto) H1) as [E2 H2].
  fold f2 in E2, H2.
  destruct (Hstep f2 "HasWorkingDir" "workingDirectory" ltac:(simpl; tauto) H2) as [E3 H3].
  fold f3 in E3, H3.
  destruct (Hstep f3 "HasArguments" "commandLineArguments" ltac:(simpl; tauto) H3) as [E4 H4].
  fold f4 in E4, H4.
  destruct (Hstep f4 "HasIconLocation" "iconLocation" ltac:(simpl; tauto) H4) as [E5 _].
  fold f5 in E5.
  unfold string_data_body.
  rewrite (bind_ok _ _ _ _ _ (on_self_flag f fl "IsUnicode" Hfl (Hin _ ltac:(simpl; tauto)))).
  fold (present "IsUnicode"). fold u_mult.
  rewrite (bind_ok _ _ _ _ _ E1), (bind_ok _ _ _ _ _ E2), (bind_ok _ _ _ _ _ E3),
    (bind_ok _ _ _ _ _ E4).
  exact E5.
Qed.

(** C6 (as amended).  The string section reads the five optional fields in
    the fixed order description, relative path, working directory, arguments,
    icon location, each gated by its own link flag and each moving the shared
    cursor to where its read ended.  A field whose read fails is stored as the
    empty string and does not stop the section: every later field whose flag
    is set is still read and stored, and the section never raises.  A read
    fails with the empty string and the cursor moved by 0 or by 2, or returns
    the declared bytes and the cursor after them. *)
Theorem string_section_reads_every_flagged_field (f : frame) (fl : Z) :
  linkFlag (fr_self f) = decode_flags LINK_FLAG_BITS fl ->
  let present k := flag_enabled (fr_self f) k in
  let u_mult := if present "IsUnicode" then 2 else 1 in
  let f1 := field_step (present "HasName") "description" u_mult f in
  let f2 := field_step (present "HasRelativePath") "relativePath" u_mult f1 in
  let f3 := field_step (present "HasWorkingDir") "workingDirectory" u_mult f2 in
  let f4 := field_step (present "HasArguments") "commandLineArguments" u_mult f3 in
  let f5 := field_step (present "HasIconLocation") "iconLocation" u_mult f4 in
  string_data_body f = (Ok tt, f5) /\
  (forall flag_name key,
     In (flag_name, key) STRING_FIELDS -> present flag_name = true ->
     is_Some (data (fr_self f5) !! key)) /\
  (forall b index,
     (snd (_read_string_data b index u_mult) = EmptyString /\
      (fst (_read_string_data b index u_mult) = index \/
       fst (_read_string_data b index u_mult) = index + 2)) \/
     (exists n,
        unpack_H (slice b index (index + 2)) = Ok n /\
        index + 2 + n * u_mult <= len b /\
        _read_string_data b index u_mult =
          (index + n * u_mult + 2,
           _clean_line (replace_nul (slice b (index + 2) (index + 2 + n * u_mult)))))).
Proof.
  intros Hfl present u_mult f1 f2 f3 f4 f5.
  split; [exact (string_data_body_steps f fl Hfl)|].
  split; [|intros b index; apply _read_string_data_cases].
  intros flag_name key Hfield Hon. unfold STRING_FIELDS in Hfield. simpl in Hfield.
  destruct Hfield as [[= <- <-]|[[= <- <-]|[[= <- <-]|[[= <- <-]|[[= <- <-]|[]]]]]];
    unfold f5, f4, f3, f2, f1; rewrite Hon;
    repeat first [ apply field_step_stores | apply field_step_keeps ].
Qed.

(** The claim at [overlong_description]: both flagged fields are stored. *)
Lemma string_section_reads_every_flagged_field_witness :
  fst (string_data_body overlong_description_frame) = Ok tt /\
  is_Some (data (fr_self (snd (string_data_body overlong_description_frame))) !! "description") /\
  is_Some (data (fr_self (snd (string_data_body overlong_description_frame))) !! "relativePath").
Proof.
  assert (Hfl : linkFlag (fr_self overlong_description_frame)
                = decode_flags LINK_FLAG_BITS 0x0C) by (vm_compute; reflexivity).
  destruct (string_section_reads_every_flagged_field overlong_description_frame 0x0C Hfl)
    as (Hbody & Hstored & _).
  rewrite Hbody. split; [reflexivity|]. split.
  - apply (Hstored "HasName" "description"); [simpl; tauto|vm_compute; reflexivity].
  - apply (Hstored "HasRelativePath" "relativePath"); [simpl; tauto|vm_compute; reflexivity].
Defined.

(** C6 as stated fails: at [overlong_description] the read of the description
    fails, and the relative path after it is still decoded. *)
Lemma later_field_is_decoded_after_a_failed_one :
  let s := snd (_parse (new_object None overlong_description)) in
  _read_string_data overlong_description 76 1 = (78, EmptyString) /\
  is_valid s = true /\
  data s !! "description" = Some EmptyString /\
  data s !! "relativePath" = Some "A" /\
  get_target_command s = "A".
Proof. cbv zeta. repeat split; vm_compute; reflexivity. Qed.

(** C10.  When [_read_string_data] reads at [index] a length prefix [n] whose
    span of [n * u_mult] bytes runs past the end of the buffer, it returns the
    empty string and the index plus 2, a position before the end of the
    declared span.  The string section stores the empty string for that field
    and runs what follows it, the later flag-gated fields included, from that
    cursor: the next field whose flag is set is read by
    [_read_string_data] at [index + 2]. *)
Theorem overlong_field_advances_by_two (b : bytes) (index u_mult n : Z) :
  unpack_H (slice b index (index + 2)) = Ok n ->
  len b < index + 2 + n * u_mult ->
  _read_string_data b index u_mult = (index + 2, EmptyString) /\
  index + 2 < index + 2 + n * u_mult /\
  forall (f : frame) (fl : Z) (flag_name key : string),
    indata (fr_self f) = b -> fr_index f = index ->
    linkFlag (fr_self f) = decode_flags LINK_FLAG_BITS fl ->
    In flag_name (map fst LINK_FLAG_BITS) ->
    flag_enabled (fr_self f) flag_name = true ->
    let f' := mkFrame (set_data (<[key := EmptyString]> (data (fr_self f))) (fr_self f))
                (index + 2) in
    (forall next : M frame unit, (run string_field flag_name key u_mult; next) f = next f') /\
    (forall flag_name' key',
       In flag_name' (map fst LINK_FLAG_BITS) ->
       flag_enabled (fr_self f) flag_name' = true ->
       string_field flag_name' key' u_mult f' =
         (Ok tt,
          mkFrame (set_data (<[key' := snd (_read_string_data b (index + 2) u_mult)]>
                               (data (fr_self f'))) (fr_self f'))
            (fst (_read_string_data b (index + 2) u_mult)))).
Proof.
  intros Hn Hover.
  pose proof (_read_string_data_overlong b index u_mult n Hn Hover) as Hread.
  pose proof (unpack_H_in_bounds b index n Hn) as Hin.
  split; [exact Hread|]. split; [lia|].
  intros f fl flag_name key Hb Hi Hfl Hflag Hon f'.
  assert (Hfield : string_field flag_name key u_mult f = (Ok tt, f')).
  { rewrite (string_field_eq f fl flag_name key u_mult Hfl Hflag), Hon.
    unfold field_step. rewrite Hb, Hi, Hread. reflexivity. }
  split.
  - intros next. by rewrite (bind_ok _ _ _ _ _ Hfield).
  - intros flag_name' key' Hflag' Hon'.
    assert (Hfl' : linkFlag (fr_self f') = decode_flags LINK_FLAG_BITS fl) by exact Hfl.
    rewrite (string_field_eq f' fl flag_name' key' u_mult Hfl' Hflag').
    assert (Hon'' : flag_enabled (fr_self f') flag_name' = true) by exact Hon'.
    rewrite Hon''. unfold field_step.
    change (indata (fr_self f')) with (indata (fr_self f)). rewrite Hb.
    change (fr_index f') with (index + 2).
    destruct (_read_string_data b (index + 2) u_mult) as [index' text]. reflexivity.
Qed.

(** The claim at [overlong_description]: the description's prefix 65535 is
    read at index 76, and the relative path is then read at index 78. *)
Lemma overlong_field_advances_by_two_witness :
  _read_string_data overlong_description 76 1 = (78, EmptyString) /\
  _read_string_data overlong_description 78 1 = (81, "A") /\
  data (snd (_parse (new_object None overlong_description))) !! "relativePath" = Some "A".
Proof.
  assert (Hn : unpack_H (slice overlong_description 76 (76 + 2)) = Ok 65535)
    by (vm_compute; reflexivity).
  assert (Hover : len overlong_description < 76 + 2 + 65535 * 1) by (vm_compute; reflexivity).
  destruct (overlong_field_advances_by_two overlong_description 76 1 65535 Hn Hover)
    as (Hread & _ & _).
  split; [exact Hread|]. split; vm_compute; reflexivity.
Defined.

(** ** The extra-block walk *)

(** The loop unrolled: one test of the [while] condition, one pass through its
    body. *)
Lemma extra_block_walk_unfold_step s index :
  extra_block_walk s index =
    if Z_le_dec index (len (indata s) - 10) then
      match extra_block_at index s with
      | (Ok (Some index'), s') => extra_block_walk s' index'
      | (Ok None, s') => (s', index)
      | (Raise _, s') => (s', index)
      end
    else (s, index).
Proof.
  funelim (extra_block_walk s index); rewrite Heq;
    try match goal with E : extra_block_at _ _ = _ |- _ => rewrite E end; reflexivity.
Qed.








(** ** The target command *)

Lemma slice_middle {A} (p m t : list A) :
  slice (p ++ m ++ t) (len p) (len p + len m) = m.
Proof.
  unfold slice, slice_bound.
  pose proof (len_nonneg p) as Hp. pose proof (len_nonneg m) as Hm.
  pose proof (len_nonneg t) as Ht.
  assert (Htotal : len (p ++ m ++ t) = len p + len m + len t)
    by (unfold len; rewrite !length_app; lia).
  rewrite Htotal.
  replace (len p <? 0) with false by lia.
  replace (len p + len m <? 0) with false by lia.
  replace (Z.min (len p) (len p + len m + len t)) with (len p) by lia.
  replace (Z.min (len p + len m) (len p + len m + len t)) with (len p + len m) by lia.
  replace (len p + len m - len p) with (len m) by lia.
  unfold len. rewrite !Nat2Z.id.
  by rewrite drop_app_length, take_app_length.
Qed.

(** A well-formed field: the two bytes of its length prefix, then exactly the
    declared number of bytes. *)
Lemma _read_string_data_field (p pre payload t : bytes) n u_mult :
  unpack_H pre = Ok n -> len payload = n * u_mult ->
  _read_string_data (p ++ pre ++ payload ++ t) (len p) u_mult =
    (len p + n * u_mult + 2, _clean_line (replace_nul payload)).
Proof.
  intros Hpre Hpay.
  pose proof (unpack_unsigned_inv 2 pre n Hpre) as [Hlen2 _].
  pose proof (len_nonneg t) as Ht. pose proof (len_nonneg p) as Hp.
  assert (Htotal : len (p ++ pre ++ payload ++ t) = len p + 2 + n * u_mult + len t)
    by (unfold len in *; rewrite !length_app; lia).
  unfold _read_string_data. rewrite Htotal.
  replace (len p + 2 + n * u_mult + len t <? len p + 2) with false
    by (pose proof (len_nonneg payload); lia).
  replace (len p + 2) with (len p + len pre) by lia.
  rewrite slice_middle, Hpre.
  replace (len p + len pre + n * u_mult + len t <? len p + len pre + n * u_mult)
    with false by lia.
  replace (slice (p ++ pre ++ payload ++ t) (len p + len pre) (len p + len pre + n * u_mult))
    with payload; [reflexivity|].
  replace (p ++ pre ++ payload ++ t) with ((p ++ pre) ++ payload ++ t)
    by (by rewrite <- app_assoc).
  replace (len p + len pre) with (len (p ++ pre)) by (unfold len; rewrite length_app; lia).
  rewrite <- Hpay. by rewrite slice_middle.
Qed.

Lemma slice_whole {A} (p t : list A) : slice (p ++ t) 0 (len p) = p.
Proof.
  pose proof (slice_middle [] p t) as H. simpl in H.
  change (len []) with 0 in H. by rewrite Z.add_0_l in H.
Qed.

Lemma flag_enabled_decoded s fl k :
  linkFlag s = decode_flags LINK_FLAG_BITS fl ->
  flag_enabled s k = default false (od_get k (decode_flags LINK_FLAG_BITS fl)).
Proof. intros Hfl. unfold flag_enabled. rewrite Hfl. by destruct (od_get _ _). Qed.

Lemma header_state_fields path b :
  76 <= len b -> unpack_I (slice b 0 4) = Ok 76 ->
  indata (header_state path b) = b /\
  linkFlag (header_state path b) = decode_flags LINK_FLAG_BITS (rlinkFlags_of b) /\
  data (header_state path b) = ∅.
Proof.
  intros Hlen H76.
  destruct (header_steps path b Hlen H76) as (h & _ & _ & _ & _ & ->). by repeat split.
Qed.

(** The parse of a valid header with link flags 0x28 followed by the two
    strings. *)
Lemma notepad_data path (hdr trailer : bytes) :
  len hdr = 76 -> unpack_I (slice hdr 0 4) = Ok 76 -> unpack_i (slice hdr 20 24) = Ok 0x28 ->
  let s := parsed_object path (hdr ++ notepad_strings ++ trailer) in
  _parse (new_object path (hdr ++ notepad_strings ++ trailer)) = (Ok tt, s) /\
  flag_enabled s "HasRelativePath" = true /\
  flag_enabled s "HasArguments" = true /\
  data s !! "relativePath" = Some "notepad.exe" /\
  data s !! "commandLineArguments" = Some "/A test.txt".
Proof.
  intros Hhdr H76 Hflags. set (b := hdr ++ notepad_strings ++ trailer). intros s.
  assert (Hlen : 76 <= len b).
  { unfold b, len in *. rewrite length_app. lia. }
  assert (Hfour : slice b 0 4 = slice hdr 0 4) by (apply slice_app_l; lia).
  assert (Hb76 : unpack_I (slice b 0 4) = Ok 76) by (by rewrite Hfour).
  assert (Hword : rlinkFlags_of b = 0x28).
  { unfold rlinkFlags_of. replace (slice b 0 76) with hdr
      by (unfold b; by rewrite <- Hhdr, slice_whole).
    unfold unpack_i, unpack_signed in Hflags.
    destruct (len (slice hdr 20 24) =? 4); [|discriminate Hflags]. by injection Hflags. }
  destruct (header_state_fields path b Hlen Hb76) as (Hin & Hfl & Hdata).
  rewrite Hword in Hfl.
  split; [by apply _parse_valid|].
  assert (HflS : linkFlag s = decode_flags LINK_FLAG_BITS 0x28)
    by (unfold s; rewrite parsed_object_linkFlag by assumption; by rewrite Hword).
  split; [by rewrite (flag_enabled_decoded s 0x28)|].
  split; [by rewrite (flag_enabled_decoded s 0x28)|].
  set (f0 := mkFrame (header_state path b) 76).
  assert (Hf0 : forall k, flag_enabled (fr_self f0) k
                          = default false (od_get k (decode_flags LINK_FLAG_BITS 0x28)))
    by (intros k; by apply flag_enabled_decoded).
  assert (Hdata_s : data s = data (fr_self (region_strings f0))).
  { unfold s, parsed_object. fold f0.
    change (data (set_parsed true ?x)) with (data x).
    rewrite (region_extra_unchanged data) by reflexivity.
    unfold region_id_list. rewrite (Hf0 "HasTargetIDList"). simpl default. cbv iota.
    unfold region_link_info. rewrite (Hf0 "HasLinkInfo"). reflexivity. }
  rewrite Hdata_s. unfold region_strings.
  pose proof (string_data_body_steps f0 0x28 Hfl) as Hsteps. cbv zeta in Hsteps.
  rewrite Hsteps. rewrite !Hf0. simpl default. cbv iota.
  cbn [snd].
  repeat match goal with
         | |- context [field_step false ?k ?u ?g] => change (field_step false k u g) with g
         end.
  assert (Hrel : _read_string_data b 76 1 = (89, "notepad.exe")).
  { unfold b, notepad_strings. rewrite <- !app_assoc. rewrite <- Hhdr.
    rewrite (_read_string_data_field hdr (le16 11) (list_byte_of_string "notepad.exe") _ 11 1)
      by reflexivity.
    rewrite Hhdr. reflexivity. }
  assert (Harg : _read_string_data b 89 1 = (102, "/A test.txt")).
  { unfold b, notepad_strings. rewrite <- !app_assoc.
    replace (hdr ++ le16 11 ++ list_byte_of_string "notepad.exe"
             ++ le16 11 ++ list_byte_of_string "/A test.txt" ++ trailer)
      with ((hdr ++ le16 11 ++ list_byte_of_string "notepad.exe")
            ++ le16 11 ++ list_byte_of_string "/A test.txt" ++ trailer)
      by (by rewrite <- !app_assoc).
    assert (H89 : len (hdr ++ le16 11 ++ list_byte_of_string "notepad.exe") = 89)
      by (unfold len in *; rewrite length_app; simpl length; lia).
    rewrite <- H89.
    rewrite (_read_string_data_field _ (le16 11) (list_byte_of_string "/A test.txt") _ 11 1)
      by reflexivity.
    rewrite H89. reflexivity. }
  assert (Hone : field_step true "relativePath" 1 f0
                = mkFrame (set_data (<["relativePath" := "notepad.exe"]> ∅)
                             (header_state path b)) 89).
  { unfold field_step, f0. cbn [fr_self fr_index]. by rewrite Hin, Hrel, Hdata. }
  rewrite Hone. unfold field_step. cbn [fr_self fr_index indata set_data data].
  rewrite Hin, Harg. cbn [fr_self data set_data].
  split; [by rewrite lookup_insert_ne, lookup_insert_eq|by rewrite lookup_insert_eq].
Qed.

(** ** The constructor on raw data *)

Lemma constructor_runs_parse (os : OS) (b : bytes) :
  b <> [] ->
  __init__ None None (Some b) =
    match _parse (new_object None b) with
    | (Ok _, s) => Ok s
    | (Raise e, _) => Raise e
    end.
Proof. intros Hne. destruct b; [congruence|reflexivity]. Qed.

(** X1.  For every non-empty buffer given as raw data the constructor either
    raises the invalid-header error, when the header is invalid, or returns
    an object that is valid and holds the buffer: once the header is accepted
    no later region fails the parse. *)
Theorem constructor_on_raw_data (os : OS) (b : bytes) :
  b <> [] ->
  (invalid_header b /\
   __init__ None None (Some b) =
     Raise (LnkForensicsError "Parsing failed: Invalid LNK header: None")) \/
  (~ invalid_header b /\
   exists s, __init__ None None (Some b) = Ok s /\ is_valid s = true /\ indata s = b).
Proof.
  intros Hne. rewrite (constructor_runs_parse os b Hne).
  assert (Hrejected : invalid_header b ->
            invalid_header b /\
            match _parse (new_object None b) with
            | (Ok _, s) => Ok s
            | (Raise e, _) => Raise e
            end = Raise (LnkForensicsError "Parsing failed: Invalid LNK header: None")).
  { intros Hinv. split; [exact Hinv|].
    destruct (_parse_invalid None b Hinv) as [h Hr]. by rewrite Hr. }
  destruct (Z_lt_dec (len b) 76) as [Hshort|Hlong]; [left; apply Hrejected; by left|].
  destruct (unpack_I (slice b 0 4)) as [v|e] eqn:Hv;
    [|left; apply Hrejected; right; congruence].
  destruct (Z.eq_dec v 76) as [->|Hv76];
    [|left; apply Hrejected; right; congruence].
  right. split; [intros [Hlt|Hbad]; [lia|congruence]|].
  exists (parsed_object None b).
  rewrite _parse_valid by (lia || assumption).
  split; [reflexivity|]. split.
  - unfold is_valid. rewrite parsed_object_parsed.
    rewrite parsed_object_parse_error by (lia || assumption). reflexivity.
  - apply parsed_object_indata; [lia|assumption].
Qed.

(** The property at the header alone. *)
Lemma constructor_on_raw_data_witness :
  exists s,
    @__init__ no_files None None (Some (header_with_flags 0)) = Ok s /\ is_valid s = true.
Proof.
  assert (Hne : header_with_flags 0 <> []) by discriminate.
  destruct (constructor_on_raw_data no_files (header_with_flags 0) Hne)
    as [[Hinv _]|(_ & s & Hs & Hvalid & _)].
  - exfalso. destruct Hinv as [Hlt|Hbad]; [vm_compute in Hlt; discriminate Hlt|].
    apply Hbad. reflexivity.
  - exists s. split; assumption.
Defined.

(** ** The null-terminated read *)

Lemma _read_string_from_step b index result :
  _read_string_from b index result =
    if Z_lt_dec index (len b) then
      match index_at b index with
      | Raise e => Raise e
      | Ok c =>
          if Z.eq_dec c 0 then Ok result
          else _read_string_from b (index + 1) (result +:+ String (chr c) EmptyString)
      end
    else Ok result.
Proof.
  funelim (_read_string_from b index result).
  - rewrite Heq. reflexivity.
  - rewrite Heq0. rewrite Heq. reflexivity.
  - rewrite Heq1, Heq0. rewrite Heq. reflexivity.
  - rewrite Heq1, Heq0. rewrite Heq. reflexivity.
Qed.

Lemma index_at_in_range (b : bytes) i :
  - len b <= i -> i < len b -> exists c, index_at b i = Ok c /\ 0 <= c < 256.
Proof.
  intros Hlo Hhi. unfold index_at.
  set (k := if i <? 0 then len b + i else i).
  assert (Hk : 0 <= k < len b) by (unfold k; destruct (i <? 0) eqn:E; lia).
  replace ((k <? 0) || (len b <=? k)) with false by lia.
  destruct (b !! Z.to_nat k) as [x|] eqn:Hx.
  - exists (byte_val x). split; [reflexivity|]. unfold byte_val.
    pose proof (Byte.to_N_bounded x). lia.
  - apply lookup_ge_None in Hx. unfold len in Hk. lia.
Qed.

Lemma index_at_below (b : bytes) i : i < - len b -> index_at b i = Raise IndexError.
Proof.
  intros Hlo. unfold index_at. pose proof (len_nonneg b).
  replace (i <? 0) with true by lia.
  replace ((len b + i <? 0) || (len b <=? len b + i)) with true by lia. reflexivity.
Qed.

Lemma index_at_middle (p : bytes) x t : index_at (p ++ x :: t) (len p) = Ok (byte_val x).
Proof.
  unfold index_at. pose proof (len_nonneg p).
  replace (len p <? 0) with false by lia.
  assert (Hl : len (p ++ x :: t) = len p + 1 + len t)
    by (unfold len; rewrite length_app; simpl; lia).
  pose proof (len_nonneg t).
  replace ((len p <? 0) || (len (p ++ x :: t) <=? len p)) with false by lia.
  unfold len. rewrite Nat2Z.id.
  pose proof (list_lookup_middle p t x (length p) eq_refl) as Hm.
  unfold bytes in *. by rewrite Hm.
Qed.

Lemma _read_string_from_returns (b : bytes) (n : nat) : forall index result,
  - len b <= index -> (Z.to_nat (len b - index) <= n)%nat ->
  exists text, _read_string_from b index result = Ok text.
Proof.
  induction n as [|n IH]; intros index result Hlo Hn; rewrite _read_string_from_step.
  - destruct (Z_lt_dec index (len b)); [lia|by eexists].
  - destruct (Z_lt_dec index (len b)) as [Hlt|]; [|by eexists].
    destruct (index_at_in_range b index Hlo Hlt) as (c & -> & _).
    destruct (Z.eq_dec c 0); [by eexists|]. apply IH; lia.
Qed.

Lemma append_assoc (a b c : string) : (a +:+ b) +:+ c = a +:+ (b +:+ c).
Proof.
  induction a as [|x a IH]; [reflexivity|].
  change (String x ((a +:+ b) +:+ c) = String x (a +:+ (b +:+ c))). by rewrite IH.
Qed.

Lemma append_nil_r (a : string) : a +:+ EmptyString = a.
Proof.
  induction a as [|x a IH]; [reflexivity|].
  change (String x (a +:+ EmptyString) = String x a). by rewrite IH.
Qed.

Lemma _read_string_from_body (body : bytes) : forall (p t : bytes) result,
  Forall (fun x => byte_val x <> 0) body ->
  (t = [] \/ exists t', t = x00 :: t') ->
  _read_string_from (p ++ body ++ t) (len p) result = Ok (result +:+ text_of body).
Proof.
  induction body as [|x body IH]; intros p t result Hbody Ht; rewrite _read_string_from_step.
  - simpl app. change (text_of []) with EmptyString. rewrite append_nil_r.
    destruct Ht as [->|[t' ->]].
    + rewrite app_nil_r. destruct (Z_lt_dec (len p) (len p)); [lia|reflexivity].
    + rewrite index_at_middle.
      destruct (Z_lt_dec _ _); [|reflexivity]. reflexivity.
  - simpl app. rewrite index_at_middle.
    assert (Hl : len (p ++ x :: body ++ t) = len p + 1 + len (body ++ t))
      by (unfold len; rewrite length_app; simpl; lia).
    pose proof (len_nonneg (body ++ t)).
    destruct (Z_lt_dec _ _); [|lia].
    inversion Hbody as [|? ? Hx Hrest]; subst.
    destruct (Z.eq_dec (byte_val x) 0); [contradiction|].
    replace (p ++ x :: body ++ t) with ((p ++ [x]) ++ body ++ t)
      by (by rewrite <- app_assoc).
    replace (len p + 1) with (len (p ++ [x])) by (unfold len; rewrite length_app; simpl; lia).
    rewrite IH by assumption.
    rewrite append_assoc. reflexivity.
Qed.

(** X2.  [_read_string] returns the characters from [index] up to the
    first zero byte, or up to the end of the buffer when there is none, and
    the empty string at or past the end.  A negative index counts from the
    end of the buffer, as Python's indexing does: the read returns for every
    index from [- len] on, and raises IndexError below it. *)
Theorem read_string_reads_to_nul (b : bytes) (index : Z) :
  (- len b <= index -> exists text, _read_string b index = Ok text) /\
  (index < - len b -> _read_string b index = Raise IndexError) /\
  (len b <= index -> _read_string b index = Ok EmptyString) /\
  (forall p body t,
     b = p ++ body ++ t -> index = len p ->
     Forall (fun x => byte_val x <> 0) body ->
     (t = [] \/ exists t', t = x00 :: t') ->
     _read_string b index = Ok (text_of body)).
Proof.
  unfold _read_string. split; [|split; [|split]].
  - intros Hlo. by apply (_read_string_from_returns b (Z.to_nat (len b - index))).
  - intros Hlo. rewrite _read_string_from_step. pose proof (len_nonneg b).
    destruct (Z_lt_dec index (len b)); [|lia]. by rewrite index_at_below.
  - intros Hhi. rewrite _read_string_from_step.
    destruct (Z_lt_dec index (len b)); [lia|reflexivity].
  - intros p body t -> -> Hbody Ht. by rewrite _read_string_from_body.
Qed.

(** ** The text filter *)

Lemma chars_of_string_of_chars l : chars_of_string (string_of_chars l) = l.
Proof. induction l as [|c l IH]; simpl; [reflexivity|by rewrite IH]. Qed.

Lemma byte_val_range x : 0 <= byte_val x < 256.
Proof. unfold byte_val. pose proof (Byte.to_N_bounded x). lia. Qed.

Lemma code_chr z : 0 <= z < 256 -> Z.of_N (N_of_ascii (chr z)) = z.
Proof. intros Hz. unfold chr. rewrite N_ascii_embedding by lia. lia. Qed.

Lemma _clean_line_cons x r :
  _clean_line (x :: r) =
    if decide (byte_val x < 128 ∧ 20 < byte_val x)
    then String (chr (byte_val x)) (_clean_line r) else _clean_line r.
Proof.
  unfold _clean_line, bytes. rewrite filter_cons.
  destruct (decide (byte_val x < 128 ∧ 20 < byte_val x)); reflexivity.
Qed.

Lemma _clean_line_printable r : printable (_clean_line r).
Proof.
  induction r as [|x r IH]; [constructor|].
  rewrite _clean_line_cons. destruct (decide _) as [Hx|]; [|assumption].
  unfold printable. simpl. constructor; [|exact IH].
  rewrite code_chr by apply byte_val_range. lia.
Qed.

Lemma _clean_line_app a b : _clean_line (a ++ b) = _clean_line a +:+ _clean_line b.
Proof.
  induction a as [|x a IH]; [reflexivity|].
  simpl app. rewrite !_clean_line_cons. destruct (decide _); [|assumption].
  change (String ?c ?s +:+ ?t) with (String c (s +:+ t)). by rewrite IH.
Qed.

Lemma byte_val_of_ascii c : byte_val (byte_of_ascii c) = Z.of_N (N_of_ascii c).
Proof.
  unfold byte_val. f_equal. apply Byte.to_of_N. symmetry. apply byte_of_ascii_via_N.
Qed.

Lemma chr_byte_val_of_ascii c : chr (byte_val (byte_of_ascii c)) = c.
Proof. rewrite byte_val_of_ascii. unfold chr. rewrite N2Z.id. apply ascii_N_embedding. Qed.

Lemma _clean_line_of_printable s : printable s -> _clean_line (list_byte_of_string s) = s.
Proof.
  induction s as [|c s IH]; intros Hs; [reflexivity|].
  inversion Hs as [|? ? Hc Hrest]; subst.
  change (list_byte_of_string (String c s)) with (byte_of_ascii c :: list_byte_of_string s).
  rewrite _clean_line_cons, byte_val_of_ascii.
  destruct (decide _) as [_|Hn]; [|lia].
  rewrite <- byte_val_of_ascii, chr_byte_val_of_ascii. by rewrite IH.
Qed.

Lemma _clean_line_length r : (String.length (_clean_line r) <= length r)%nat.
Proof.
  induction r as [|x r IH]; [simpl; lia|].
  rewrite _clean_line_cons. destruct (decide _); simpl; lia.
Qed.

(** X3.  [_clean_line] returns only characters whose code is above 20
    and below 128, never more characters than the bytes it was given; it
    works byte by byte, so that the text of two runs of bytes is the two texts
    in a row; it gives back unchanged every text made of such characters, and
    applying it to its own result changes nothing. *)
Theorem clean_line_keeps_printable_ascii (rstring : bytes) :
  printable (_clean_line rstring) /\
  (String.length (_clean_line rstring) <= length rstring)%nat /\
  (forall tail, _clean_line (rstring ++ tail) = _clean_line rstring +:+ _clean_line tail) /\
  (forall s, printable s -> _clean_line (list_byte_of_string s) = s) /\
  _clean_line (list_byte_of_string (_clean_line rstring)) = _clean_line rstring.
Proof.
  split; [apply _clean_line_printable|].
  split; [apply _clean_line_length|].
  split; [intros tail; apply _clean_line_app|].
  split; [apply _clean_line_of_printable|].
  apply _clean_line_of_printable, _clean_line_printable.
Qed.

(** ** Length-prefixed strings, written and read back *)

Lemma byte_val_of_N z :
  0 <= z < 256 ->
  byte_val (match Byte.of_N (Z.to_N z) with Some x => x | None => x00 end) = z.
Proof.
  intros Hz. destruct (Byte.of_N (Z.to_N z)) as [x|] eqn:Hx.
  - unfold byte_val. rewrite (Byte.to_of_N _ Hx). lia.
  - apply Byte.of_N_None_iff in Hx. lia.
Qed.

Lemma unpack_H_le16 n : 0 <= n < 65536 -> unpack_H (le16 n) = Ok n.
Proof.
  intros Hn. unfold unpack_H, unpack_unsigned, le16, B. simpl map.
  change (len [_; _] =? 2) with true. cbv iota.
  unfold le_uint. simpl fold_right.
  rewrite !byte_val_of_N by (apply Z.mod_pos_bound; lia).
  f_equal.
  assert (n / 256 < 256) by (apply Z.div_lt_upper_bound; lia).
  assert (0 <= n / 256) by (apply Z.div_pos; lia).
  rewrite (Z.mod_small (n / 256) 256) by lia.
  pose proof (Z.div_mod n 256). lia.
Qed.

Lemma len_list_byte_of_string s : len (list_byte_of_string s) = Z.of_nat (String.length s).
Proof.
  unfold len. f_equal. induction s as [|c s IH]; [reflexivity|].
  change (list_byte_of_string (String c s)) with (byte_of_ascii c :: list_byte_of_string s).
  simpl. by rewrite IH.
Qed.

Lemma len_utf16le s : len (utf16le s) = Z.of_nat (String.length s) * 2.
Proof.
  unfold utf16le. rewrite <- len_list_byte_of_string. unfold len.
  induction (list_byte_of_string s) as [|x l IH]; [reflexivity|].
  simpl flat_map. simpl length. lia.
Qed.

Lemma printable_bytes_nonzero s :
  printable s -> Forall (fun x => byte_val x <> 0) (list_byte_of_string s).
Proof.
  induction s as [|c s IH]; intros Hs; [constructor|].
  inversion Hs as [|? ? Hc Hrest]; subst.
  change (list_byte_of_string (String c s)) with (byte_of_ascii c :: list_byte_of_string s).
  constructor; [rewrite byte_val_of_ascii; lia|by apply IH].
Qed.

Lemma replace_nul_nonzero l : Forall (fun x => byte_val x <> 0) l -> replace_nul l = l.
Proof.
  unfold replace_nul, bytes. induction 1 as [|x l Hx Hl IH]; [reflexivity|].
  rewrite filter_cons_True by assumption. by rewrite IH.
Qed.

Lemma replace_nul_interleaved l :
  Forall (fun x => byte_val x <> 0) l ->
  replace_nul (flat_map (fun x => [x; x00]) l) = l.
Proof.
  unfold replace_nul, bytes. induction 1 as [|x l Hx Hl IH]; [reflexivity|].
  simpl flat_map. rewrite filter_cons_True by assumption.
  rewrite filter_cons_False by (intros Hz; by apply Hz). by rewrite IH.
Qed.

Lemma _read_string_data_text (p t : bytes) (s : string) :
  printable s -> Z.of_nat (String.length s) < 65536 ->
  let n := Z.of_nat (String.length s) in
  _read_string_data (p ++ le16 n ++ list_byte_of_string s ++ t) (len p) 1
    = (len p + n + 2, s) /\
  _read_string_data (p ++ le16 n ++ utf16le s ++ t) (len p) 2
    = (len p + n * 2 + 2, s).
Proof.
  intros Hs Hlen n.
  assert (Hn : unpack_H (le16 n) = Ok n) by (apply unpack_H_le16; unfold n; lia).
  pose proof (printable_bytes_nonzero s Hs) as Hnz.
  split.
  - rewrite (_read_string_data_field p (le16 n) (list_byte_of_string s) t n 1 Hn)
      by (rewrite len_list_byte_of_string; unfold n; lia).
    rewrite replace_nul_nonzero by assumption.
    rewrite _clean_line_of_printable by assumption. f_equal. lia.
  - rewrite (_read_string_data_field p (le16 n) (utf16le s) t n 2 Hn)
      by (rewrite len_utf16le; reflexivity).
    unfold utf16le. rewrite replace_nul_interleaved by assumption.
    by rewrite _clean_line_of_printable.
Qed.

(** X4.  A text of characters with codes above 20 and below 128 and
    of fewer than 65536 characters, written as [_parse] expects it (its count
    on two bytes, little-endian, then its characters on one byte each, or on
    two bytes each with the multiplier 2), is read back unchanged by
    [_read_string_data], whatever precedes and follows it in the buffer, and
    the index returned is the end of the field.  Every text
    [_read_string_data] returns is made of such characters. *)
Theorem read_string_data_round_trip (p t : bytes) (s : string) :
  printable s -> Z.of_nat (String.length s) < 65536 ->
  let n := Z.of_nat (String.length s) in
  _read_string_data (p ++ le16 n ++ list_byte_of_string s ++ t) (len p) 1
    = (len p + n + 2, s) /\
  _read_string_data (p ++ le16 n ++ utf16le s ++ t) (len p) 2
    = (len p + n * 2 + 2, s) /\
  (forall b index u_mult, printable (snd (_read_string_data b index u_mult))).
Proof.
  intros Hs Hlen n. destruct (_read_string_data_text p t s Hs Hlen) as [H1 H2].
  split; [exact H1|]. split; [exact H2|].
  intros b index u_mult.
  destruct (_read_string_data_cases b index u_mult) as [[-> _]|(k & _ & _ & ->)];
    [constructor|apply _clean_line_printable].
Qed.

(** The property at the text notepad.exe after a header, in both encodings. *)
Lemma read_string_data_round_trip_witness :
  _read_string_data (header_with_flags 0x08 ++ le16 11 ++ list_byte_of_string "notepad.exe" ++ [])
    (len (header_with_flags 0x08)) 1 = (len (header_with_flags 0x08) + 11 + 2, "notepad.exe") /\
  _read_string_data (header_with_flags 0x88 ++ le16 11 ++ utf16le "notepad.exe" ++ [])
    (len (header_with_flags 0x88)) 2 = (len (header_with_flags 0x88) + 11 * 2 + 2, "notepad.exe").
Proof.
  assert (Hs : printable "notepad.exe") by (unfold printable; simpl; repeat constructor; lia).
  assert (Hlen : Z.of_nat (String.length "notepad.exe") < 65536) by (simpl; lia).
  split.
  - exact (proj1 (read_string_data_round_trip (header_with_flags 0x08) [] "notepad.exe" Hs Hlen)).
  - exact (proj1 (proj2 (read_string_data_round_trip (header_with_flags 0x88) []
                            "notepad.exe" Hs Hlen))).
Defined.

(** ** The cursor of the string section *)

Lemma le_uint_nonneg bs : 0 <= le_uint bs.
Proof.
  unfold le_uint. induction bs as [|x bs IH]; simpl; [lia|].
  pose proof (byte_val_range x). lia.
Qed.

Lemma _read_string_data_cursor (b : bytes) (index u_mult : Z) :
  0 <= u_mult ->
  index <= fst (_read_string_data b index u_mult) <= Z.max index (len b).
Proof.
  intros Hu. unfold _read_string_data.
  destruct (len b <? index + 2) eqn:Hshort; [simpl; lia|].
  destruct (unpack_H (slice b index (index + 2))) as [n|e] eqn:Hn; [|simpl; lia].
  apply unpack_unsigned_inv in Hn as [_ ->].
  pose proof (le_uint_nonneg (slice b index (index + 2))) as H0.
  destruct (len b <? index + 2 + _ * u_mult) eqn:Hover; simpl; nia.
Qed.

Lemma field_step_cursor present key u_mult f :
  0 <= u_mult ->
  indata (fr_self (field_step present key u_mult f)) = indata (fr_self f) /\
  fr_index f <= fr_index (field_step present key u_mult f)
    <= Z.max (fr_index f) (len (indata (fr_self f))).
Proof.
  intros Hu. unfold field_step. destruct present; [|split; [reflexivity|lia]].
  pose proof (_read_string_data_cursor (indata (fr_self f)) (fr_index f) u_mult Hu) as Hc.
  destruct (_read_string_data _ _ _) as [index' text]. simpl in *. split; [reflexivity|lia].
Qed.

(** X5.  The string section never moves the cursor backwards, and
    never past the end of the buffer unless the cursor was there already: the
    cursor it leaves is between the one it found and the larger of that and
    the length of the buffer.  It never raises and never changes the buffer.
    The same bounds hold for each read of [_read_string_data] with a
    multiplier that is not negative. *)
Theorem string_section_cursor_bounds (f : frame) (fl : Z) :
  linkFlag (fr_self f) = decode_flags LINK_FLAG_BITS fl ->
  fst (string_data_body f) = Ok tt /\
  indata (fr_self (region_strings f)) = indata (fr_self f) /\
  fr_index f <= fr_index (region_strings f)
    <= Z.max (fr_index f) (len (indata (fr_self f))) /\
  (forall b index u_mult,
     0 <= u_mult ->
     index <= fst (_read_string_data b index u_mult) <= Z.max index (len b)).
Proof.
  intros Hfl. pose proof (string_data_body_steps f fl Hfl) as Hsteps. cbv zeta in Hsteps.
  unfold region_strings. rewrite Hsteps. cbn [fst snd].
  split; [reflexivity|].
  set (u := if flag_enabled (fr_self f) "IsUnicode" then 2 else 1).
  assert (Hu : 0 <= u) by (unfold u; destruct (flag_enabled _ _); lia).
  set (f1 := field_step _ "description" u f).
  set (f2 := field_step _ "relativePath" u f1).
  set (f3 := field_step _ "workingDirectory" u f2).
  set (f4 := field_step _ "commandLineArguments" u f3).
  destruct (field_step_cursor (flag_enabled (fr_self f) "HasName") "description" u f Hu)
    as [E1 B1]. fold f1 in E1, B1.
  destruct (field_step_cursor (flag_enabled (fr_self f) "HasRelativePath") "relativePath" u f1 Hu)
    as [E2 B2]. fold f2 in E2, B2.
  destruct (field_step_cursor (flag_enabled (fr_self f) "HasWorkingDir") "workingDirectory" u f2 Hu)
    as [E3 B3]. fold f3 in E3, B3.
  destruct (field_step_cursor (flag_enabled (fr_self f) "HasArguments") "commandLineArguments"
              u f3 Hu) as [E4 B4]. fold f4 in E4, B4.
  destruct (field_step_cursor (flag_enabled (fr_self f) "HasIconLocation") "iconLocation" u f4 Hu)
    as [E5 B5].
  rewrite E1 in *. rewrite E2 in *. rewrite E3 in *. rewrite E4 in *.
  split; [by rewrite E5|]. split; [lia|].
  intros b index u_mult. apply _read_string_data_cursor.
Qed.

(** The property at [overlong_description_frame]. *)
Lemma string_section_cursor_bounds_witness :
  fr_index overlong_description_frame <= fr_index (region_strings overlong_description_frame)
    <= Z.max (fr_index overlong_description_frame)
         (len (indata (fr_self overlong_description_frame))).
Proof.
  assert (Hfl : linkFlag (fr_self overlong_description_frame)
                = decode_flags LINK_FLAG_BITS 0x0C) by (vm_compute; reflexivity).
  exact (proj1 (proj2 (proj2 (string_section_cursor_bounds overlong_description_frame 0x0C Hfl)))).
Defined.

(** ** The flag words *)

Lemma _get_enabled_flags_decode table flags :
  _get_enabled_flags (decode_flags table flags) = enabled_names table flags.
Proof.
  unfold _get_enabled_flags, decode_flags, enabled_names, odict.
  induction table as [|[name mask] table IH]; [reflexivity|].
  simpl map at 2. rewrite !filter_cons. simpl snd.
  destruct (Z.land flags mask =? 0) eqn:E.
  - apply Z.eqb_eq in E. simpl negb.
    destruct (decide (false = true)); [discriminate|].
    destruct (decide (Z.land flags mask ≠ 0)); [contradiction|]. exact IH.
  - apply Z.eqb_neq in E. simpl negb.
    destruct (decide (true = true)); [|contradiction].
    destruct (decide (Z.land flags mask ≠ 0)); [|contradiction].
    simpl. by rewrite IH.
Qed.

Lemma enabled_names_In table flags name :
  In name (enabled_names table flags) <->
  exists mask, In (name, mask) table /\ Z.land flags mask <> 0.
Proof.
  unfold enabled_names. rewrite in_map_iff. split.
  - intros [[n m] [Hn Hin]]. simpl in Hn. subst n. exists m.
    apply list_elem_of_In, list_elem_of_filter in Hin as [Hbit Hin]. split; [|exact Hbit].
    by apply list_elem_of_In.
  - intros [mask [Hin Hbit]]. exists (name, mask). split; [reflexivity|].
    apply list_elem_of_In, list_elem_of_filter. split; [exact Hbit|by apply list_elem_of_In].
Qed.

Lemma land_lor_same (m r : Z) : Z.land (Z.lor m r) m = m.
Proof.
  apply Z.bits_inj'. intros n Hn. rewrite Z.land_spec, Z.lor_spec.
  destruct (Z.testbit m n), (Z.testbit r n); reflexivity.
Qed.

Lemma land_lor_keeps (m r mask : Z) : Z.land r mask = mask -> Z.land (Z.lor m r) mask = mask.
Proof.
  intros Hr. apply Z.bits_inj'. intros n Hn.
  apply (f_equal (fun z => Z.testbit z n)) in Hr. rewrite Z.land_spec in Hr.
  rewrite Z.land_spec, Z.lor_spec.
  destruct (Z.testbit m n), (Z.testbit r n), (Z.testbit mask n); simpl in *; congruence.
Qed.

Lemma land_named_bits table flags name mask :
  In (name, mask) table -> Z.land (Z.land flags (named_bits table)) mask = Z.land flags mask.
Proof.
  intros Hin. rewrite <- Z.land_assoc. f_equal.
  unfold named_bits. induction table as [|[n m] table IH]; [destruct Hin|].
  simpl. destruct Hin as [[= -> ->]|Hin].
  - apply land_lor_same.
  - apply land_lor_keeps. by apply IH.
Qed.

Lemma enabled_names_named_bits table flags flags' :
  Z.land flags (named_bits table) = Z.land flags' (named_bits table) ->
  enabled_names table flags = enabled_names table flags'.
Proof.
  intros Hsame. unfold enabled_names. f_equal.
  assert (Hall : forall nm, In nm table -> Z.land flags (snd nm) = Z.land flags' (snd nm)).
  { intros [n m] Hin. simpl.
    rewrite <- (land_named_bits table flags n m Hin), <- (land_named_bits table flags' n m Hin).
    by rewrite Hsame. }
  clear Hsame. induction table as [|nm table IH]; [reflexivity|].
  rewrite !filter_cons. rewrite (Hall nm) by (by left).
  rewrite IH by (intros nm' Hin; apply Hall; by right). reflexivity.
Qed.

Lemma header_state_fileFlag path b :
  76 <= len b -> unpack_I (slice b 0 4) = Ok 76 ->
  fileFlag (header_state path b) = decode_flags FILE_FLAG_BITS (rfileFlags_of b).
Proof.
  intros Hlen H76.
  destruct (header_steps path b Hlen H76) as (h & _ & _ & _ & _ & ->). reflexivity.
Qed.

Lemma parsed_object_fileFlag path b :
  76 <= len b -> unpack_I (slice b 0 4) = Ok 76 ->
  fileFlag (parsed_object path b) = decode_flags FILE_FLAG_BITS (rfileFlags_of b).
Proof.
  intros Hlen H76. rewrite (parsed_object_core fileFlag) by reflexivity.
  by apply header_state_fileFlag.
Qed.

(** X6.  For every buffer with a valid header, the list
    'enabled_flags' of [get_link_flags] (and 'enabled_attributes' of
    [get_file_attributes]) holds the names of the table whose mask has a bit
    in common with the flags word of the header, in the order of the table: a
    name is listed exactly when its bit is set.  The bits that have no name in
    the table (for the link flags, all but 0x07FEF7FF; for the file
    attributes, all but 0x00017FF7) have no effect on the list. *)
Theorem enabled_flags_follow_the_bits (path : option string) (b : bytes) :
  76 <= len b -> unpack_I (slice b 0 4) = Ok 76 ->
  exists s,
    _parse (new_object path b) = (Ok tt, s) /\
    get_link_flags s !! "enabled_flags" =
      Some (PList (map PStr (enabled_names LINK_FLAG_BITS (rlinkFlags_of b)))) /\
    get_file_attributes s !! "enabled_attributes" =
      Some (PList (map PStr (enabled_names FILE_FLAG_BITS (rfileFlags_of b)))) /\
    (forall table flags name,
       In name (enabled_names table flags) <->
       exists mask, In (name, mask) table /\ Z.land flags mask <> 0) /\
    (forall table flags flags',
       Z.land flags (named_bits table) = Z.land flags' (named_bits table) ->
       enabled_names table flags = enabled_names table flags') /\
    named_bits LINK_FLAG_BITS = 0x07FEF7FF /\
    named_bits FILE_FLAG_BITS = 0x00017FF7.
Proof.
  intros Hlen H76. exists (parsed_object path b).
  split; [by apply _parse_valid|].
  split.
  { unfold get_link_flags. rewrite parsed_object_parsed. simpl negb. cbv iota.
    rewrite lookup_insert_ne by discriminate. rewrite lookup_insert_eq.
    rewrite parsed_object_linkFlag by assumption. by rewrite _get_enabled_flags_decode. }
  split.
  { unfold get_file_attributes. rewrite parsed_object_parsed. simpl negb. cbv iota.
    rewrite lookup_insert_ne by discriminate. rewrite lookup_insert_eq.
    rewrite parsed_object_fileFlag by assumption. by rewrite _get_enabled_flags_decode. }
  split; [apply enabled_names_In|].
  split; [apply enabled_names_named_bits|].
  split; reflexivity.
Qed.

(** The property at a header with the link flags 0x2C. *)
Lemma enabled_flags_follow_the_bits_witness :
  exists s,
    _parse (new_object None (header_with_flags 0x2C)) = (Ok tt, s) /\
    get_link_flags s !! "enabled_flags" =
      Some (PList (map PStr (enabled_names LINK_FLAG_BITS
                               (rlinkFlags_of (header_with_flags 0x2C))))).
Proof.
  assert (Hlen : 76 <= len (header_with_flags 0x2C)) by (vm_compute; discriminate).
  assert (H76 : unpack_I (slice (header_with_flags 0x2C) 0 4) = Ok 76) by reflexivity.
  destruct (enabled_flags_follow_the_bits None (header_with_flags 0x2C) Hlen H76)
    as (s & Hs & Hl & _).
  exists s. split; assumption.
Defined.

(** ** The header, field by field *)

Lemma slice_prefix {A} (b : list A) n i j :
  0 <= i -> i <= j -> j <= n -> n <= len b -> slice (slice b 0 n) i j = slice b i j.
Proof.
  intros Hi Hij Hj Hn.
  assert (Hpre : slice b 0 n = take (Z.to_nat n) b).
  { unfold slice, slice_bound. simpl (0 <? 0).
    replace (n <? 0) with false by lia.
    replace (Z.min 0 (len b)) with 0 by lia. replace (Z.min n (len b)) with n by lia.
    rewrite Z.sub_0_r. reflexivity. }
  rewrite Hpre. rewrite <- (take_drop (Z.to_nat n) b) at 2.
  symmetry. apply slice_app_l; [lia|lia|].
  unfold len in *. rewrite length_take. lia.
Qed.

Lemma _parse_lnk_header_fields path b :
  76 <= len b -> unpack_I (slice b 0 4) = Ok 76 ->
  _parse_lnk_header (new_object path b)
    = (Ok true, set_lnk_header (header_fields b) (new_object path b)).
Proof.
  intros Hlen H76.
  assert (Hs : len (slice b 0 76) = 76) by (apply len_slice; lia).
  cbv [_parse_lnk_header try_except bind gets lift ret modify header_set header_int
       indata new_object set_lnk_header lnk_header file_path parsed parse_error linkFlag
       fileFlag data extraBlocks loc_information].
  replace (len b <? 76) with false by lia.
  rewrite H76. rewrite lookup_insert_eq. cbv [negb Z.eqb Pos.eqb].
  unfold unpack_i, unpack_q, unpack_I, unpack_H.
  rewrite !unpack_signed_ok, !unpack_unsigned_ok by (rewrite len_slice; lia).
  rewrite !(slice_prefix b 76) by lia.
  unfold header_fields, window_style_value, signed32, signed64.
  destruct (_ && _);
    cbv [try_except bind gets lift ret modify header_set header_int
         indata new_object set_lnk_header lnk_header file_path parsed parse_error linkFlag
         fileFlag data extraBlocks loc_information]; reflexivity.
Qed.

Lemma header_state_lnk_header path b :
  76 <= len b -> unpack_I (slice b 0 4) = Ok 76 ->
  lnk_header (header_state path b) = header_fields b.
Proof.
  intros Hlen H76.
  destruct (header_steps path b Hlen H76) as (h & Hh & _ & _ & _ & ->).
  rewrite (_parse_lnk_header_fields path b Hlen H76) in Hh.
  apply (f_equal (fun p => lnk_header (snd p))) in Hh. simpl in Hh. by rewrite <- Hh.
Qed.

Lemma parsed_object_lnk_header path b :
  76 <= len b -> unpack_I (slice b 0 4) = Ok 76 ->
  lnk_header (parsed_object path b) = header_fields b.
Proof.
  intros Hlen H76. rewrite (parsed_object_core lnk_header) by reflexivity.
  by apply header_state_lnk_header.
Qed.

Lemma header_fields_lookup b :
  header_fields b !! "header_size" = Some (PInt 76) /\
  header_fields b !! "guid" = Some (PStr (bytes_hex (slice b 4 20))) /\
  header_fields b !! "rlinkFlags" = Some (PInt (signed32 (slice b 20 24))) /\
  header_fields b !! "rfileFlags" = Some (PInt (signed32 (slice b 24 28))) /\
  header_fields b !! "creation_time" = Some (PInt (signed64 (slice b 28 36))) /\
  header_fields b !! "accessed_time" = Some (PInt (signed64 (slice b 36 44))) /\
  header_fields b !! "modified_time" = Some (PInt (signed64 (slice b 44 52))) /\
  header_fields b !! "file_size" = Some (PInt (signed32 (slice b 52 56))) /\
  header_fields b !! "icon_index" = Some (PInt (le_uint (slice b 56 60))) /\
  header_fields b !! "windowstyle" = Some (window_style_value (signed32 (slice b 60 64))) /\
  header_fields b !! "hotkey" = Some (PInt (le_uint (slice b 64 66))).
Proof. repeat split. Qed.

(** X7.  For every buffer with a valid header, the dictionary
    [lnk_header] of the parsed object and the section 'lnk_header' of
    [get_forensic_data] are determined by the first 76 bytes: the GUID is the
    hexadecimal text of bytes 4 to 20, the creation, access and modification
    times are the signed 64-bit numbers at offsets 28, 36 and 44, the size of
    the target the signed 32-bit number at 52, the icon index the unsigned
    number at 56, the window style the name of the style when the signed
    number at 60 is from 0 to 10 and that number otherwise, the hot key the
    unsigned 16-bit number at 64.  No later region of the parse changes
    them. *)
Theorem header_report_from_bytes (clock : Clock) (hashlib : Hashlib) (os : OS)
    (path : option string) (b : bytes) :
  76 <= len b -> unpack_I (slice b 0 4) = Ok 76 ->
  exists s,
    _parse (new_object path b) = (Ok tt, s) /\
    lnk_header s = header_fields b /\
    get_forensic_data s !! "lnk_header" = Some (PDict (header_report clock b)) /\
    get_timestamps s =
      <["creation_time" := PStr (_ms_time_to_unix_time (signed64 (slice b 28 36)))]>
      (<["modified_time" := PStr (_ms_time_to_unix_time (signed64 (slice b 44 52)))]>
      (<["accessed_time" := PStr (_ms_time_to_unix_time (signed64 (slice b 36 44)))]> ∅)).
Proof.
  intros Hlen H76. exists (parsed_object path b).
  split; [by apply _parse_valid|].
  pose proof (parsed_object_lnk_header path b Hlen H76) as Hh.
  split; [exact Hh|].
  destruct (header_fields_lookup b)
    as (Hsz & Hguid & _ & _ & Hct & Hat & Hmt & Hfs & Hii & Hws & Hhk).
  assert (Hts : get_timestamps (parsed_object path b) =
      <["creation_time" := PStr (_ms_time_to_unix_time (signed64 (slice b 28 36)))]>
      (<["modified_time" := PStr (_ms_time_to_unix_time (signed64 (slice b 44 52)))]>
      (<["accessed_time" := PStr (_ms_time_to_unix_time (signed64 (slice b 36 44)))]> ∅))).
  { unfold get_timestamps. rewrite parsed_object_parsed. simpl negb. cbv iota.
    unfold header_time, get_or. rewrite Hh, Hct, Hmt, Hat. reflexivity. }
  split; [|exact Hts].
  unfold get_forensic_data. rewrite parsed_object_parsed. simpl negb. cbv iota.
  rewrite lookup_insert_ne by discriminate. rewrite lookup_insert_eq.
  rewrite Hts. unfold get_or. rewrite Hh, Hsz, Hguid, Hfs, Hii, Hws, Hhk.
  unfold header_report.
  rewrite <- !insert_union_l. rewrite (left_id ∅ (∪)). reflexivity.
Qed.

(** The property at a header with no flag set, under a clock whose local zone
    is UTC. *)
Lemma header_report_from_bytes_witness :
  exists s,
    _parse (new_object None (header_with_flags 0)) = (Ok tt, s) /\
    @get_forensic_data utc_clock no_digests no_files s !! "lnk_header"
      = Some (PDict (header_report utc_clock (header_with_flags 0))).
Proof.
  assert (Hlen : 76 <= len (header_with_flags 0)) by (vm_compute; discriminate).
  assert (H76 : unpack_I (slice (header_with_flags 0) 0 4) = Ok 76) by reflexivity.
  destruct (header_report_from_bytes utc_clock no_digests no_files None
              (header_with_flags 0) Hlen H76) as (s & Hs & _ & Hrep & _).
  exists s. split; assumption.
Defined.

(** ** The sign of the flag words *)

Lemma le_uint_bound bs : 0 <= le_uint bs < 256 ^ len bs.
Proof.
  unfold le_uint, len. induction bs as [|x bs IH]; [simpl; lia|].
  simpl fold_right. simpl length. rewrite Nat2Z.inj_succ, Z.pow_succ_r by lia.
  pose proof (byte_val_range x). lia.
Qed.

Lemma signed32_cases bs :
  len bs = 4 ->
  0 <= le_uint bs < 2 ^ 32 /\
  signed32 bs = (if le_uint bs <? 2 ^ 31 then le_uint bs else le_uint bs - 2 ^ 32) /\
  - 2 ^ 31 <= signed32 bs < 2 ^ 31.
Proof.
  intros Hlen. pose proof (le_uint_bound bs) as Hb. rewrite Hlen in Hb.
  change (256 ^ 4) with (2 ^ 32) in Hb.
  split; [exact Hb|]. unfold signed32, to_signed.
  change (2 ^ (32 - 1)) with (2 ^ 31).
  split; [reflexivity|]. destruct (le_uint bs <? 2 ^ 31) eqn:E; lia.
Qed.

Lemma land_low_bits x mask :
  0 <= mask < 2 ^ 32 -> Z.land (x - 2 ^ 32) mask = Z.land x mask.
Proof.
  intros Hm.
  assert (Hmask : mask = Z.land mask (Z.ones 32))
    by (rewrite Z.land_ones by lia; symmetry; apply Z.mod_small; lia).
  rewrite Hmask, !(Z.land_comm mask), !Z.land_assoc. f_equal.
  rewrite !Z.land_ones by lia.
  replace (x - 2 ^ 32) with (x + (-1) * 2 ^ 32) by lia. apply Z.mod_add. lia.
Qed.

Lemma enabled_names_signed table bs :
  Forall (fun nm => 0 <= snd nm < 2 ^ 32) table ->
  enabled_names table (signed32 bs) = enabled_names table (le_uint bs).
Proof.
  intros Htable. unfold enabled_names, signed32, to_signed. f_equal.
  destruct (le_uint bs <? 2 ^ (32 - 1)); [reflexivity|].
  change (2 ^ 32) with 4294967296 in *.
  induction Htable as [|nm table Hnm Htable IH]; [reflexivity|].
  rewrite !filter_cons.
  pose proof (land_low_bits (le_uint bs) (snd nm) Hnm) as Hl.
  change (2 ^ 32) with 4294967296 in Hl. rewrite Hl, IH. reflexivity.
Qed.

Lemma format_08X_negative z :
  z < 0 -> exists rest, "0x" +:+ format_08X z = "0x-" +:+ rest.
Proof.
  intros Hz. unfold format_08X. replace (z <? 0) with true by lia.
  eexists. reflexivity.
Qed.

(** X8.  The two flag words of the header are decoded as signed
    32-bit numbers, and 'raw_value' in [get_link_flags] and
    [get_file_attributes] is the text 0x followed by that number formatted
    with [08X]: when bit 31 of the word is set the number is negative and the
    text starts with 0x and a minus sign.  The lists of enabled names are the
    same as for the unsigned word. *)
Theorem raw_flag_values_are_signed (path : option string) (b : bytes) :
  76 <= len b -> unpack_I (slice b 0 4) = Ok 76 ->
  exists s,
    _parse (new_object path b) = (Ok tt, s) /\
    get_link_flags s !! "raw_value"
      = Some (PStr ("0x" +:+ format_08X (signed32 (slice b 20 24)))) /\
    get_file_attributes s !! "raw_value"
      = Some (PStr ("0x" +:+ format_08X (signed32 (slice b 24 28)))) /\
    (forall bs,
       len bs = 4 ->
       0 <= le_uint bs < 2 ^ 32 /\
       signed32 bs = (if le_uint bs <? 2 ^ 31 then le_uint bs else le_uint bs - 2 ^ 32) /\
       - 2 ^ 31 <= signed32 bs < 2 ^ 31) /\
    (forall z, z < 0 -> exists rest, "0x" +:+ format_08X z = "0x-" +:+ rest) /\
    get_link_flags s !! "enabled_flags"
      = Some (PList (map PStr (enabled_names LINK_FLAG_BITS (le_uint (slice b 20 24))))) /\
    get_file_attributes s !! "enabled_attributes"
      = Some (PList (map PStr (enabled_names FILE_FLAG_BITS (le_uint (slice b 24 28))))).
Proof.
  intros Hlen H76. exists (parsed_object path b).
  split; [by apply _parse_valid|].
  pose proof (parsed_object_lnk_header path b Hlen H76) as Hh.
  destruct (header_fields_lookup b) as (_ & _ & Hlf & Hff & _).
  assert (Hrl : rlinkFlags_of b = signed32 (slice b 20 24))
    by (unfold rlinkFlags_of, signed32; by rewrite (slice_prefix b 76) by lia).
  assert (Hrf : rfileFlags_of b = signed32 (slice b 24 28))
    by (unfold rfileFlags_of, signed32; by rewrite (slice_prefix b 76) by lia).
  split.
  { unfold get_link_flags. rewrite parsed_object_parsed. simpl negb. cbv iota.
    rewrite lookup_insert_eq. unfold header_word, get_or. by rewrite Hh, Hlf. }
  split.
  { unfold get_file_attributes. rewrite parsed_object_parsed. simpl negb. cbv iota.
    rewrite lookup_insert_eq. unfold header_word, get_or. by rewrite Hh, Hff. }
  split; [apply signed32_cases|].
  split; [apply format_08X_negative|].
  split.
  { unfold get_link_flags. rewrite parsed_object_parsed. simpl negb. cbv iota.
    rewrite lookup_insert_ne by discriminate. rewrite lookup_insert_eq.
    rewrite parsed_object_linkFlag by assumption.
    rewrite _get_enabled_flags_decode, Hrl, enabled_names_signed; [reflexivity|].
    unfold LINK_FLAG_BITS. repeat constructor; simpl; lia. }
  { unfold get_file_attributes. rewrite parsed_object_parsed. simpl negb. cbv iota.
    rewrite lookup_insert_ne by discriminate. rewrite lookup_insert_eq.
    rewrite parsed_object_fileFlag by assumption.
    rewrite _get_enabled_flags_decode, Hrf, enabled_names_signed; [reflexivity|].
    unfold FILE_FLAG_BITS. repeat constructor; simpl; lia. }
Qed.

(** The property at a header whose link flags are 0xFFFFFFFF: the raw value
    is 0x-0000001. *)
Lemma raw_flag_values_are_signed_witness :
  exists s,
    _parse (new_object None (header_with_flags 0xFFFFFFFF)) = (Ok tt, s) /\
    get_link_flags s !! "raw_value" = Some (PStr "0x-0000001").
Proof.
  assert (Hlen : 76 <= len (header_with_flags 0xFFFFFFFF)) by (vm_compute; discriminate).
  assert (H76 : unpack_I (slice (header_with_flags 0xFFFFFFFF) 0 4) = Ok 76) by reflexivity.
  destruct (raw_flag_values_are_signed None (header_with_flags 0xFFFFFFFF) Hlen H76)
    as (s & Hs & Hl & _).
  exists s. split; [exact Hs|]. rewrite Hl. vm_compute. reflexivity.
Defined.

(** ** The extra blocks, one pass and the whole walk *)

Lemma _parse_environment_block_eq index size s :
  _parse_environment_block index size s =
    (Ok tt, set_extraBlocks (<[ENVIRONMENT_BLOCK := PDict (environment_fields (indata s) index size)]>
                               (extraBlocks s)) s).
Proof. reflexivity. Qed.

Lemma _parse_distributed_tracker_block_eq index size s :
  _parse_distributed_tracker_block index size s =
    (Ok tt,
     if (len (slice (indata s) (index + 8) (index + 12)) =? 4)
        && (len (slice (indata s) (index + 12) (index + 16)) =? 4)
     then set_extraBlocks (<[TRACKER_BLOCK := PDict (tracker_fields (indata s) index)]>
                             (extraBlocks s)) s
     else s).
Proof.
  unfold _parse_distributed_tracker_block, try_pass, try_except, bind, gets, lift,
    unpack_I, unpack_unsigned.
  destruct (len (slice (indata s) (index + 8) (index + 12)) =? 4); [|reflexivity].
  destruct (len (slice (indata s) (index + 12) (index + 16)) =? 4); reflexivity.
Qed.

Lemma hex_digits_inj n m : hex_digits n = hex_digits m -> n = m.
Proof.
  unfold hex_digits. intros Heq.
  assert (Hnn : forall k, N.to_hex_uint k <> Hexadecimal.Nil).
  { intros [|p]; [discriminate|apply HexadecimalPos.Unsigned.to_uint_nonnil]. }
  apply (f_equal HexadecimalString.NilZero.uint_of_string) in Heq.
  rewrite !HexadecimalString.NilZero.usu in Heq by apply Hnn.
  injection Heq as Heq. by apply HexadecimalN.Unsigned.to_uint_inj.
Qed.

Lemma signature_text v sigv :
  0 <= v -> 0 <= sigv -> str_drop 2 (hex v) = str_drop 2 (hex sigv) -> v = sigv.
Proof.
  intros Hv Hs. unfold hex.
  replace (v <? 0) with false by lia. replace (sigv <? 0) with false by lia.
  change (str_drop 2 ("0x" +:+ ?x)) with x.
  intros Heq. apply hex_digits_inj in Heq. lia.
Qed.

Lemma extra_sigs_dispatch v :
  0 <= v ->
  extra_sigs (str_drop 2 (hex v)) =
    if v =? 0xA0000001 then Some _parse_environment_block
    else if v =? 0xA0000003 then Some _parse_distributed_tracker_block
    else None.
Proof.
  intros Hv. unfold extra_sigs.
  destruct (v =? 0xA0000001) eqn:E1.
  { apply Z.eqb_eq in E1. subst v. reflexivity. }
  destruct (v =? 0xA0000003) eqn:E3.
  { apply Z.eqb_eq in E3. subst v. reflexivity. }
  apply Z.eqb_neq in E1, E3.
  destruct (String.eqb _ "a0000001") eqn:S1.
  { apply String.eqb_eq in S1. exfalso. apply E1.
    apply (signature_text v 0xA0000001); [lia|lia|]. rewrite S1. reflexivity. }
  destruct (String.eqb _ "a0000003") eqn:S3.
  { apply String.eqb_eq in S3. exfalso. apply E3.
    apply (signature_text v 0xA0000003); [lia|lia|]. rewrite S3. reflexivity. }
  reflexivity.
Qed.

Lemma extra_block_at_effect index s size sigv :
  0 <= index ->
  unpack_I (slice (indata s) index (index + 4)) = Ok size -> 4 <= size ->
  unpack_I (slice (indata s) (index + 4) (index + 8)) = Ok sigv ->
  extra_block_at index s = (Ok (Some (index + size)), block_effect index size sigv s).
Proof.
  intros H0 Hsize Hge Hsig. unfold extra_block_at.
  rewrite (bind_ok (gets indata) _ s (indata s) s eq_refl).
  unfold bind at 1. unfold lift at 1. rewrite Hsize.
  replace (size <? 4) with false by lia.
  unfold bind at 1. unfold lift at 1. rewrite Hsig.
  assert (Hv : 0 <= sigv).
  { apply unpack_unsigned_inv in Hsig as [_ ->]. apply le_uint_nonneg. }
  rewrite (extra_sigs_dispatch sigv Hv). unfold block_effect.
  destruct (sigv =? 0xA0000001).
  { unfold bind. by rewrite _parse_environment_block_eq. }
  destruct (sigv =? 0xA0000003); [|reflexivity].
  unfold bind. rewrite _parse_distributed_tracker_block_eq.
  simpl andb.
  pose proof (len_nonneg (indata s)) as Hl.
  apply unpack_unsigned_inv in Hsig as [Hlen8 _].
  rewrite len_slice_gen in Hlen8. unfold slice_bound in Hlen8.
  rewrite !len_slice_gen. unfold slice_bound.
  repeat match goal with
         | |- context [?a <? 0] => replace (a <? 0) with false by lia
         | H : context [?a <? 0] |- _ => replace (a <? 0) with false in H by lia
         end.
  destruct (index + 16 <=? len (indata s)) eqn:E16.
  - replace (Z.max 0 (Z.min (index + 12) (len (indata s)) - Z.min (index + 8) (len (indata s))) =? 4)
      with true by lia.
    replace (Z.max 0 (Z.min (index + 16) (len (indata s)) - Z.min (index + 12) (len (indata s))) =? 4)
      with true by lia.
    reflexivity.
  - destruct (Z.max 0 (Z.min (index + 12) (len (indata s)) - Z.min (index + 8) (len (indata s))) =? 4)
      eqn:Ea; [|reflexivity].
    replace (Z.max 0 (Z.min (index + 16) (len (indata s)) - Z.min (index + 12) (len (indata s))) =? 4)
      with false by lia.
    reflexivity.
Qed.

Lemma extra_block_at_snd index s :
  snd (extra_block_at index s) = s \/
  (exists size,
     snd (extra_block_at index s) =
       set_extraBlocks (<[ENVIRONMENT_BLOCK := PDict (environment_fields (indata s) index size)]>
                          (extraBlocks s)) s) \/
  snd (extra_block_at index s) =
    set_extraBlocks (<[TRACKER_BLOCK := PDict (tracker_fields (indata s) index)]>
                       (extraBlocks s)) s.
Proof.
  unfold extra_block_at, bind, gets, lift.
  destruct (unpack_I (slice (indata s) index (index + 4))) as [size|]; [|by left].
  destruct (size <? 4); [by left|].
  destruct (unpack_I (slice (indata s) (index + 4) (index + 8))) as [v|]; [|by left].
  unfold extra_sigs.
  destruct (String.eqb _ "a0000001").
  { rewrite _parse_environment_block_eq. right. left. by exists size. }
  destruct (String.eqb _ "a0000003"); [|by left].
  rewrite _parse_distributed_tracker_block_eq.
  destruct (_ && _); [right; by right|by left].
Qed.

Lemma extra_block_walk_invariant (P : LnkForensics -> Prop) :
  (forall index s, P s -> P (snd (extra_block_at index s))) ->
  forall s index, P s -> P (fst (extra_block_walk s index)).
Proof.
  intros Hstep s index. funelim (extra_block_walk s index); intros HP; simpl; [assumption| | |].
  all: pose proof (Hstep index s HP) as Hnext.
  all: match goal with E : extra_block_at _ _ = _ |- _ => rewrite E in Hnext end.
  all: simpl in Hnext; try assumption.
  match goal with IH : forall P, _ -> _ -> _ |- _ => apply IH; assumption end.
Qed.

Lemma blocks_invariant_step b index s :
  blocks_invariant b s -> blocks_invariant b (snd (extra_block_at index s)).
Proof.
  intros (Hin & Hother & Ht & He).
  destruct (extra_block_at_snd index s) as [->|[[size ->]| ->]].
  - by repeat split.
  - unfold blocks_invariant. cbn [indata extraBlocks set_extraBlocks]. rewrite Hin.
    split; [reflexivity|]. split; [|split].
    + intros k Hk1 Hk2. rewrite lookup_insert_ne by congruence. by apply Hother.
    + rewrite lookup_insert_ne by discriminate. exact Ht.
    + right. exists index, size. by rewrite lookup_insert_eq.
  - unfold blocks_invariant. cbn [indata extraBlocks set_extraBlocks]. rewrite Hin.
    split; [reflexivity|]. split; [|split].
    + intros k Hk1 Hk2. rewrite lookup_insert_ne by congruence. by apply Hother.
    + right. exists index. by rewrite lookup_insert_eq.
    + rewrite lookup_insert_ne by discriminate. exact He.
Qed.

Lemma header_state_extraBlocks path b :
  76 <= len b -> unpack_I (slice b 0 4) = Ok 76 -> extraBlocks (header_state path b) = ∅.
Proof.
  intros Hlen H76.
  destruct (header_steps path b Hlen H76) as (h & _ & _ & _ & _ & ->). reflexivity.
Qed.

Lemma parsed_object_blocks path b :
  76 <= len b -> unpack_I (slice b 0 4) = Ok 76 ->
  blocks_invariant b (parsed_object path b).
Proof.
  intros Hlen H76.
  set (f3 := region_strings (region_link_info (region_id_list (mkFrame (header_state path b) 76)))).
  assert (H3 : blocks_invariant b (fr_self f3)).
  { unfold blocks_invariant, f3.
    rewrite (region_strings_unchanged indata), (region_link_info_unchanged indata),
      (region_id_list_unchanged indata) by reflexivity.
    rewrite (region_strings_unchanged extraBlocks), (region_link_info_unchanged extraBlocks),
      (region_id_list_unchanged extraBlocks) by reflexivity.
    cbn [fr_self]. rewrite header_state_extraBlocks by assumption.
    destruct (header_state_fields path b Hlen H76) as (-> & _ & _).
    split; [reflexivity|]. split; [intros; apply lookup_empty|]. split; left; apply lookup_empty. }
  pose proof (extra_block_walk_invariant (blocks_invariant b) (blocks_invariant_step b)
                (fr_self f3) (fr_index f3) H3) as Hw.
  unfold parsed_object. fold f3.
  unfold region_extra, extra_blocks_body, modify. cbn [snd].
  destruct (extra_block_walk (fr_self f3) (fr_index f3)) as [s i]. cbn [fst] in Hw.
  cbn [fr_self]. destruct Hw as (Hin & Hother & Ht & He). by repeat split.
Qed.

(** ** The constructor on every input *)

Lemma _parse_new_object path b :
  (invalid_header b /\
   fst (_parse (new_object path b))
     = Raise (LnkForensicsError "Parsing failed: Invalid LNK header: None")) \/
  (76 <= len b /\ unpack_I (slice b 0 4) = Ok 76 /\
   _parse (new_object path b) = (Ok tt, parsed_object path b)).
Proof.
  assert (Hrejected : invalid_header b ->
            invalid_header b /\
            fst (_parse (new_object path b))
              = Raise (LnkForensicsError "Parsing failed: Invalid LNK header: None")).
  { intros Hinv. split; [exact Hinv|].
    destruct (_parse_invalid path b Hinv) as [h Hr]. by rewrite Hr. }
  destruct (Z_lt_dec (len b) 76) as [Hshort|Hlong]; [left; apply Hrejected; by left|].
  destruct (unpack_I (slice b 0 4)) as [v|e] eqn:Hv;
    [|left; apply Hrejected; right; congruence].
  destruct (Z.eq_dec v 76) as [->|Hv76];
    [|left; apply Hrejected; right; congruence].
  right. split; [lia|]. split; [reflexivity|]. apply _parse_valid; [lia|assumption].
Qed.

Lemma construct_cases path b :
  (invalid_header b /\
   construct path b = Raise (LnkForensicsError "Parsing failed: Invalid LNK header: None")) \/
  (76 <= len b /\ unpack_I (slice b 0 4) = Ok 76 /\ construct path b = Ok (parsed_object path b)).
Proof.
  unfold construct.
  destruct (_parse_new_object path b) as [[Hinv Hr]|(Hlen & H76 & Hr)].
  - left. split; [exact Hinv|]. destruct (_parse (new_object path b)) as [[[]|e] s];
      simpl in Hr; [discriminate|congruence].
  - right. split; [exact Hlen|]. split; [exact H76|]. by rewrite Hr.
Qed.

Lemma __init___from_path (os : OS) (c : ascii) (p : string) fh raw :
  __init__ (Some (String c p)) fh raw =
    match open_read (String c p) with
    | Ok b => construct (Some (String c p)) b
    | Raise e =>
        Raise (LnkForensicsError ("Failed to read file " +:+ String c p +:+ ": " +:+ str_exn e))
    end.
Proof. unfold __init__, construct. destruct (open_read (String c p)); reflexivity. Qed.

Lemma parsed_object_file_path path b :
  76 <= len b -> unpack_I (slice b 0 4) = Ok 76 -> file_path (parsed_object path b) = path.
Proof.
  intros Hlen H76. rewrite (parsed_object_core file_path) by reflexivity.
  destruct (header_steps path b Hlen H76) as (h & _ & _ & _ & _ & ->). reflexivity.
Qed.

Lemma parsed_object_is_valid path b :
  76 <= len b -> unpack_I (slice b 0 4) = Ok 76 -> is_valid (parsed_object path b) = true.
Proof.
  intros Hlen H76. unfold is_valid.
  rewrite parsed_object_parsed, parsed_object_parse_error by assumption. reflexivity.
Qed.

Lemma construct_constructed path b : constructed path (construct path b).
Proof.
  destruct (construct_cases path b) as [[_ ->]|(Hlen & H76 & ->)].
  - eexists. split; [reflexivity|]. right. by left.
  - unfold constructed, get_error.
    rewrite parsed_object_is_valid, parsed_object_parse_error, parsed_object_file_path,
      parsed_object_indata by assumption.
    by repeat split.
Qed.

Lemma Dynamic_init_typed (os : OS) path file_handle (raw_data : option bytes) :
  Dynamic.__init__ path file_handle (typed_raw_data raw_data)
    = __init__ path file_handle raw_data.
Proof.
  unfold Dynamic.__init__, __init__, _load_from_path, _load_from_handle.
  destruct path as [[|c p]|]; [| |].
  2: { destruct (open_read (String c p)); reflexivity. }
  all: destruct file_handle as [[bh|eh]|]; try reflexivity.
  all: destruct raw_data as [[|x br]|]; reflexivity.
Qed.

(** X9.  For a path that is absent or a text, a file handle whose [read()]
    returns bytes or raises, and raw data that is a bytes object or a value of
    another type, [__init__] either returns an object that is valid, has no
    error, holds the path it was given and a buffer of at least 76 bytes whose
    first four bytes decode to 76, or raises LnkForensicsError with one of
    five messages (missing input, failed read of the file, failed read of the
    handle, raw data that is not bytes, invalid header): no other exception
    leaves it.  A non-empty path is used whatever the other two arguments are;
    a file handle is used when the path is absent or empty, whatever the raw
    data is; with no handle and an absent or empty path, raw data that is
    falsy (None, empty bytes, zero, an empty text, list or dictionary) raises
    the missing-input error, and raw data that is truthy and not bytes raises
    'raw_data must be bytes'.  On raw data of the declared type, None or
    bytes, this is [__init__] as modelled above. *)
Theorem constructor_contract (os : OS) (path : option string)
    (file_handle : option (res bytes)) (raw_data : raw_argument) :
  constructed path (Dynamic.__init__ path file_handle raw_data) /\
  (forall c p, path = Some (String c p) ->
     Dynamic.__init__ path file_handle raw_data
       = Dynamic.__init__ path None (RawValue PNone)) /\
  (forall handle, file_handle = Some handle -> path = None \/ path = Some EmptyString ->
     Dynamic.__init__ path file_handle raw_data
       = Dynamic.__init__ path (Some handle) (RawValue PNone)) /\
  (file_handle = None -> path = None \/ path = Some EmptyString ->
   raw_truthy raw_data = false ->
   Dynamic.__init__ path file_handle raw_data =
     Raise (LnkForensicsError "Must provide file_path, file_handle, or raw_data")) /\
  (forall v, file_handle = None -> path = None \/ path = Some EmptyString ->
   raw_data = RawValue v -> truthy v = true ->
   Dynamic.__init__ path file_handle raw_data =
     Raise (LnkForensicsError "raw_data must be bytes")) /\
  (forall typed : option bytes, raw_data = typed_raw_data typed ->
     Dynamic.__init__ path file_handle raw_data = __init__ path file_handle typed).
Proof.
  split; [|split; [|split; [|split; [|split]]]].
  - unfold Dynamic.__init__.
    destruct path as [[|c p]|].
    2: { unfold _load_from_path. destruct (open_read (String c p)) as [b|e].
         - apply construct_constructed.
         - eexists. split; [reflexivity|]. right. right. left. by eexists _, _. }
    all: destruct file_handle as [[bh|eh]|]; cbn [_load_from_handle].
    all: try apply construct_constructed.
    all: try (eexists; split; [reflexivity|]; right; right; right; left; by eexists).
    all: destruct (raw_truthy raw_data);
      [|eexists; split; [reflexivity|]; by left].
    all: destruct raw_data as [br|v]; cbn [_load_from_data];
      [apply construct_constructed|].
    all: eexists; split; [reflexivity|]; by do 4 right.
  - intros c p ->. reflexivity.
  - intros handle -> [->| ->]; reflexivity.
  - intros -> [->| ->] Hfalse; unfold Dynamic.__init__; by rewrite Hfalse.
  - intros v -> [->| ->] -> Htrue; unfold Dynamic.__init__, raw_truthy; by rewrite Htrue.
  - intros typed ->. apply Dynamic_init_typed.
Qed.

(** The property at the text MZ given as raw data, and at the number 0. *)
Lemma constructor_contract_witness :
  @Dynamic.__init__ (one_file "a.lnk" []) None None (RawValue (PStr "MZ"))
    = Raise (LnkForensicsError "raw_data must be bytes") /\
  @Dynamic.__init__ (one_file "a.lnk" []) (Some "") None (RawValue (PInt 0))
    = Raise (LnkForensicsError "Must provide file_path, file_handle, or raw_data").
Proof.
  split.
  - apply (proj1 (proj2 (proj2 (proj2 (proj2
             (constructor_contract (one_file "a.lnk" []) None None (RawValue (PStr "MZ")))))))
             (PStr "MZ")); [reflexivity|by left|reflexivity|reflexivity].
  - apply (proj1 (proj2 (proj2 (proj2
             (constructor_contract (one_file "a.lnk" []) (Some EmptyString) None
                (RawValue (PInt 0))))))); [reflexivity|by right|reflexivity].
Defined.

(** ** The blocks a parsed object holds *)

Lemma blocks_known (m : gmap string pyval) :
  (forall k, k <> TRACKER_BLOCK -> k <> ENVIRONMENT_BLOCK -> m !! k = None) ->
  filter (fun k : string => k ≠ "DISTRIBUTED_LINK_TRACKER_BLOCK"
                            ∧ k ≠ "ENVIRONMENTAL_VARIABLES_LOCATION_BLOCK")
    (map fst (map_to_list m)) = [].
Proof.
  intros Hother.
  destruct (filter _ _) as [|k l] eqn:Hf; [reflexivity|exfalso].
  assert (Hk : k ∈ k :: l) by left. rewrite <- Hf in Hk.
  apply list_elem_of_filter in Hk as [[Hk1 Hk2] Hin].
  apply list_elem_of_In, in_map_iff in Hin as [[k' v] [Hfst Hin]]. simpl in Hfst. subst k'.
  apply list_elem_of_In, elem_of_map_to_list in Hin.
  rewrite (Hother k Hk1 Hk2) in Hin. discriminate Hin.
Qed.

(** X10.  For every buffer with a valid header, [extraBlocks]
    of the parsed object has no key other than the tracker block and the
    environment block, each holding, when present, the dictionary its handler
    builds from the buffer at some cursor.  So the list 'extra_blocks' of
    [get_forensic_data] is always empty, and 'environment_info' is the empty
    dictionary or the two fields of an environment block. *)
Theorem extra_blocks_hold_only_known_blocks (clock : Clock) (hashlib : Hashlib) (os : OS)
    (path : option string) (b : bytes) :
  76 <= len b -> unpack_I (slice b 0 4) = Ok 76 ->
  exists s,
    _parse (new_object path b) = (Ok tt, s) /\
    (forall k, is_Some (extraBlocks s !! k) -> k = TRACKER_BLOCK \/ k = ENVIRONMENT_BLOCK) /\
    (forall v, extraBlocks s !! TRACKER_BLOCK = Some v ->
               exists i, v = PDict (tracker_fields b i)) /\
    (forall v, extraBlocks s !! ENVIRONMENT_BLOCK = Some v ->
               exists i size, v = PDict (environment_fields b i size)) /\
    get_forensic_data s !! "extra_blocks" = Some (PList []) /\
    (get_forensic_data s !! "environment_info" = Some (PDict ∅) \/
     exists i size,
       get_forensic_data s !! "environment_info" = Some (PDict (environment_fields b i size))).
Proof.
  intros Hlen H76. exists (parsed_object path b).
  split; [by apply _parse_valid|].
  destruct (parsed_object_blocks path b Hlen H76) as (_ & Hother & Ht & He).
  split.
  { intros k [v Hk]. destruct (decide (k = TRACKER_BLOCK)) as [|Hk1]; [by left|].
    destruct (decide (k = ENVIRONMENT_BLOCK)) as [|Hk2]; [by right|].
    rewrite (Hother k Hk1 Hk2) in Hk. discriminate Hk. }
  split.
  { intros v Hv. destruct Ht as [Ht|[i Ht]]; rewrite Ht in Hv; [discriminate Hv|].
    exists i. congruence. }
  split.
  { intros v Hv. destruct He as [He|(i & size & He)]; rewrite He in Hv; [discriminate Hv|].
    exists i, size. congruence. }
  unfold get_forensic_data. rewrite parsed_object_parsed. simpl negb. cbv iota. split.
  - do 9 (rewrite lookup_insert_ne by discriminate). rewrite lookup_insert_eq.
    by rewrite (blocks_known _ Hother).
  - do 8 (rewrite lookup_insert_ne by discriminate). rewrite lookup_insert_eq.
    unfold get_or. fold ENVIRONMENT_BLOCK.
    destruct He as [->|(i & size & ->)]; [by left|right; by exists i, size].
Qed.

(** The property at a header with no flag set. *)
Lemma extra_blocks_hold_only_known_blocks_witness :
  exists s,
    _parse (new_object None (header_with_flags 0)) = (Ok tt, s) /\
    @get_forensic_data utc_clock no_digests no_files s !! "extra_blocks" = Some (PList []).
Proof.
  assert (Hlen : 76 <= len (header_with_flags 0)) by (vm_compute; discriminate).
  assert (H76 : unpack_I (slice (header_with_flags 0) 0 4) = Ok 76) by reflexivity.
  destruct (extra_blocks_hold_only_known_blocks utc_clock no_digests no_files None
              (header_with_flags 0) Hlen H76) as (s & Hs & _ & _ & _ & Hx & _).
  exists s. split; assumption.
Defined.

Lemma len_slice_le {A} (b : list A) i n : 0 <= n -> len (slice b i (i + n)) <= n.
Proof.
  intros Hn. rewrite len_slice_gen. pose proof (len_nonneg b). unfold slice_bound.
  destruct (i <? 0) eqn:E1; destruct (i + n <? 0) eqn:E2; lia.
Qed.

Lemma tracker_machine_id b i :
  exists text,
    get_or (tracker_fields b i) "machine_identifier" (PStr EmptyString) = PStr text /\
    printable text /\ (String.length text <= 16)%nat.
Proof.
  exists (_clean_line (slice b (i + 16) (i + 32))).
  split; [reflexivity|]. split; [apply _clean_line_printable|].
  pose proof (_clean_line_length (slice b (i + 16) (i + 32))) as Hl.
  pose proof (len_slice_le b (i + 16) 16 ltac:(lia)) as Hs.
  replace (i + 16 + 16) with (i + 32) in Hs by lia. unfold len in Hs. lia.
Qed.

Lemma parsed_object_machine_id path b :
  76 <= len b -> unpack_I (slice b 0 4) = Ok 76 ->
  exists text,
    get_or (get_machine_tracking (parsed_object path b)) "machine_identifier" (PStr EmptyString)
      = PStr text /\
    printable text /\ (String.length text <= 16)%nat.
Proof.
  intros Hlen H76.
  destruct (parsed_object_blocks path b Hlen H76) as (_ & _ & Ht & _).
  unfold get_machine_tracking. rewrite parsed_object_parsed. simpl negb. cbv iota.
  cbv zeta. unfold get_or at 1. rewrite lookup_insert_eq. fold TRACKER_BLOCK.
  destruct Ht as [Ht|[i Ht]].
  - unfold get_or at 2. rewrite Ht. exists EmptyString.
    split; [reflexivity|]. split; [constructor|simpl; lia].
  - unfold get_or at 2. rewrite Ht. cbn [as_dict]. apply tracker_machine_id.
Qed.

(** ** The strings a parsed object holds *)

Lemma field_step_lookup present key u_mult f k :
  data (fr_self (field_step present key u_mult f)) !! k =
    if present && bool_decide (k = key)
    then Some (snd (_read_string_data (indata (fr_self f)) (fr_index f) u_mult))
    else data (fr_self f) !! k.
Proof.
  unfold field_step. destruct present; [|reflexivity].
  destruct (_read_string_data _ _ _) as [index' text]. cbn [fr_self data set_data snd andb].
  destruct (bool_decide (k = key)) eqn:E.
  - apply bool_decide_eq_true in E. subst k. by rewrite lookup_insert_eq.
  - apply bool_decide_eq_false in E. by rewrite lookup_insert_ne by congruence.
Qed.

Lemma region_strings_data (f : frame) (fl : Z) :
  linkFlag (fr_self f) = decode_flags LINK_FLAG_BITS fl ->
  data (fr_self f) = ∅ ->
  let d := data (fr_self (region_strings f)) in
  (forall flag_name key, In (flag_name, key) STRING_FIELDS ->
     (is_Some (d !! key) <-> flag_enabled (fr_self f) flag_name = true)) /\
  (forall k, is_Some (d !! k) -> In k string_keys).
Proof.
  intros Hfl Hempty d. subst d.
  pose proof (string_data_body_steps f fl Hfl) as Hsteps. cbv zeta in Hsteps.
  unfold region_strings. rewrite Hsteps. cbn [snd].
  assert (Hlook : forall k,
    data (fr_self
      (field_step (flag_enabled (fr_self f) "HasIconLocation") "iconLocation"
         (if flag_enabled (fr_self f) "IsUnicode" then 2 else 1)
      (field_step (flag_enabled (fr_self f) "HasArguments") "commandLineArguments"
         (if flag_enabled (fr_self f) "IsUnicode" then 2 else 1)
      (field_step (flag_enabled (fr_self f) "HasWorkingDir") "workingDirectory"
         (if flag_enabled (fr_self f) "IsUnicode" then 2 else 1)
      (field_step (flag_enabled (fr_self f) "HasRelativePath") "relativePath"
         (if flag_enabled (fr_self f) "IsUnicode" then 2 else 1)
      (field_step (flag_enabled (fr_self f) "HasName") "description"
         (if flag_enabled (fr_self f) "IsUnicode" then 2 else 1) f)))))) !! k
    <> None <->
    (flag_enabled (fr_self f) "HasIconLocation" && bool_decide (k = "iconLocation")
     || flag_enabled (fr_self f) "HasArguments" && bool_decide (k = "commandLineArguments")
     || flag_enabled (fr_self f) "HasWorkingDir" && bool_decide (k = "workingDirectory")
     || flag_enabled (fr_self f) "HasRelativePath" && bool_decide (k = "relativePath")
     || flag_enabled (fr_self f) "HasName" && bool_decide (k = "description")) = true).
  { intros k. rewrite !field_step_lookup, Hempty, lookup_empty.
    destruct (flag_enabled (fr_self f) "HasIconLocation" && bool_decide (k = "iconLocation"));
      [simpl; split; [reflexivity|discriminate]|].
    destruct (flag_enabled (fr_self f) "HasArguments"
              && bool_decide (k = "commandLineArguments"));
      [simpl; split; [reflexivity|discriminate]|].
    destruct (flag_enabled (fr_self f) "HasWorkingDir" && bool_decide (k = "workingDirectory"));
      [simpl; split; [reflexivity|discriminate]|].
    destruct (flag_enabled (fr_self f) "HasRelativePath" && bool_decide (k = "relativePath"));
      [simpl; split; [reflexivity|discriminate]|].
    destruct (flag_enabled (fr_self f) "HasName" && bool_decide (k = "description"));
      simpl; split; try reflexivity; try discriminate; try congruence. }
  split.
  - intros flag_name key Hin. rewrite <- not_eq_None_Some, Hlook.
    unfold STRING_FIELDS in Hin. simpl in Hin.
    destruct Hin as [[= <- <-]|[[= <- <-]|[[= <- <-]|[[= <- <-]|[[= <- <-]|[]]]]]];
      simpl bool_decide; rewrite ?andb_false_r, ?andb_true_r, ?orb_false_r, ?orb_false_l;
      reflexivity.
  - intros k Hk. rewrite <- not_eq_None_Some, Hlook in Hk.
    unfold string_keys, STRING_FIELDS. simpl.
    repeat match type of Hk with
           | (_ || _) = true => apply orb_true_iff in Hk as [Hk|Hk]
           | (_ && _) = true => apply andb_true_iff in Hk as [_ Hk]
           end;
      apply bool_decide_eq_true in Hk; subst k; tauto.
Qed.

Lemma chars_of_string_app a b :
  chars_of_string (a +:+ b) = chars_of_string a ++ chars_of_string b.
Proof.
  induction a as [|c a IH]; [reflexivity|].
  change (chars_of_string (String c (a +:+ b)) = c :: (chars_of_string a ++ chars_of_string b)).
  simpl. by rewrite IH.
Qed.

Lemma lstrip_chars_app_space l :
  lstrip_chars (l ++ [" "%char]) =
    match lstrip_chars l with
    | [] => []
    | _ => lstrip_chars l ++ [" "%char]
    end.
Proof.
  induction l as [|c l IH]; [reflexivity|].
  simpl. destruct (is_space c); [exact IH|reflexivity].
Qed.

Lemma strip_trailing_space r : strip (r +:+ " ") = strip r.
Proof.
  unfold strip. rewrite chars_of_string_app. change (chars_of_string " ") with [" "%char].
  rewrite lstrip_chars_app_space.
  destruct (lstrip_chars (chars_of_string r)) as [|c l] eqn:E; [reflexivity|].
  rewrite rev_app_distr. reflexivity.
Qed.

Lemma parsed_object_data path b :
  76 <= len b -> unpack_I (slice b 0 4) = Ok 76 ->
  let s := parsed_object path b in
  (forall flag_name key, In (flag_name, key) STRING_FIELDS ->
     (is_Some (data s !! key) <-> flag_enabled s flag_name = true)) /\
  (forall k, is_Some (data s !! k) -> In k string_keys).
Proof.
  intros Hlen H76 s.
  set (f2 := region_link_info (link_info_entry path b)).
  destruct (header_state_fields path b Hlen H76) as (Hin & Hfl & Hdata).
  assert (Hfl2 : linkFlag (fr_self f2) = decode_flags LINK_FLAG_BITS (rlinkFlags_of b)).
  { unfold f2, link_info_entry.
    rewrite (region_link_info_unchanged linkFlag), (region_id_list_unchanged linkFlag)
      by reflexivity. exact Hfl. }
  assert (Hd2 : data (fr_self f2) = ∅).
  { unfold f2, link_info_entry.
    rewrite (region_link_info_unchanged data), (region_id_list_unchanged data)
      by reflexivity. exact Hdata. }
  assert (Hs : data s = data (fr_self (region_strings f2))).
  { unfold s, parsed_object. change (data (set_parsed true ?x)) with (data x).
    by rewrite (region_extra_unchanged data). }
  assert (Hflag : forall k, flag_enabled s k = flag_enabled (fr_self f2) k).
  { intros k. unfold flag_enabled, s.
    by rewrite parsed_object_linkFlag, Hfl2 by assumption. }
  destruct (region_strings_data f2 _ Hfl2 Hd2) as [H1 H2]. rewrite Hs.
  split; [|exact H2].
  intros flag_name key Hfield. rewrite Hflag. by apply H1.
Qed.

Lemma parsed_object_command path b :
  76 <= len b -> unpack_I (slice b 0 4) = Ok 76 ->
  get_target_command (parsed_object path b) =
    strip (stored_text (parsed_object path b) "relativePath" +:+ " "
           +:+ stored_text (parsed_object path b) "commandLineArguments").
Proof.
  intros Hlen H76.
  destruct (parsed_object_data path b Hlen H76) as [Hiff _].
  unfold get_target_command, stored_text. rewrite parsed_object_parsed. simpl negb. cbv iota.
  cbv zeta.
  pose proof (Hiff "HasRelativePath" "relativePath" ltac:(simpl; tauto)) as Hrel.
  pose proof (Hiff "HasArguments" "commandLineArguments" ltac:(simpl; tauto)) as Harg.
  destruct (flag_enabled (parsed_object path b) "HasRelativePath");
    destruct (data (parsed_object path b) !! "relativePath") as [rel|];
    try (exfalso; destruct Hrel as [Hr1 Hr2];
         first [ by (destruct (Hr2 eq_refl)) | by (discriminate (Hr1 ltac:(by eexists))) ]);
    destruct (flag_enabled (parsed_object path b) "HasArguments");
    destruct (data (parsed_object path b) !! "commandLineArguments") as [args|];
    try (exfalso; destruct Harg as [Ha1 Ha2];
         first [ by (destruct (Ha2 eq_refl)) | by (discriminate (Ha1 ltac:(by eexists))) ]);
    simpl default.
  - reflexivity.
  - change (EmptyString +:+ rel) with rel.
    change (rel +:+ " " +:+ EmptyString) with (rel +:+ " ").
    by rewrite strip_trailing_space.
  - reflexivity.
  - reflexivity.
Qed.

(** X11.  For every buffer with a valid header, each of the five
    string fields is stored in [data] exactly when its link flag is set, and
    [data] has no other key.  The target command is the relative path, one
    space and the arguments, each taken as empty when it is not stored, with
    the surrounding whitespace removed; [get_target_info] reports that
    command and the two fields. *)
Theorem strings_follow_the_flags (path : option string) (b : bytes) :
  76 <= len b -> unpack_I (slice b 0 4) = Ok 76 ->
  exists s,
    _parse (new_object path b) = (Ok tt, s) /\
    (forall flag_name key, In (flag_name, key) STRING_FIELDS ->
       (is_Some (data s !! key) <-> flag_enabled s flag_name = true)) /\
    (forall k, is_Some (data s !! k) -> In k string_keys) /\
    get_target_command s =
      strip (stored_text s "relativePath" +:+ " " +:+ stored_text s "commandLineArguments") /\
    get_target_info s !! "target_command" = Some (PStr (get_target_command s)) /\
    get_target_info s !! "relative_path" = Some (PStr (stored_text s "relativePath")) /\
    get_target_info s !! "command_line_arguments"
      = Some (PStr (stored_text s "commandLineArguments")).
Proof.
  intros Hlen H76. exists (parsed_object path b).
  split; [by apply _parse_valid|].
  destruct (parsed_object_data path b Hlen H76) as [Hiff Hkeys].
  split; [exact Hiff|]. split; [exact Hkeys|].
  split; [by apply parsed_object_command|].
  unfold get_target_info. rewrite parsed_object_parsed. simpl negb. cbv iota. cbv zeta.
  split; [by rewrite lookup_insert_eq|].
  split.
  - do 2 (rewrite lookup_insert_ne by discriminate). by rewrite lookup_insert_eq.
  - do 4 (rewrite lookup_insert_ne by discriminate). by rewrite lookup_insert_eq.
Qed.

(** The property at [overlong_description]. *)
Lemma strings_follow_the_flags_witness :
  exists s,
    _parse (new_object None overlong_description) = (Ok tt, s) /\
    (is_Some (data s !! "relativePath") <-> flag_enabled s "HasRelativePath" = true) /\
    get_target_command s =
      strip (stored_text s "relativePath" +:+ " " +:+ stored_text s "commandLineArguments").
Proof.
  assert (Hlen : 76 <= len overlong_description) by (vm_compute; discriminate).
  assert (H76 : unpack_I (slice overlong_description 0 4) = Ok 76) by reflexivity.
  destruct (strings_follow_the_flags None overlong_description Hlen H76)
    as (s & Hs & Hiff & _ & Hcmd & _).
  exists s. split; [exact Hs|]. split; [|exact Hcmd].
  apply (Hiff "HasRelativePath" "relativePath"). simpl. tauto.
Defined.

(** ** A header with nothing after it *)

Lemma region_id_list_short f :
  len (indata (fr_self f)) < fr_index f + 2 -> 0 <= fr_index f -> region_id_list f = f.
Proof.
  intros Hshort H0. unfold region_id_list.
  destruct (flag_enabled _ _); [|reflexivity].
  unfold target_id_list_body, bind, get_index, gets, on_self, lift. simpl.
  assert (Hraise : unpack_H (slice (indata (fr_self f)) (fr_index f) (fr_index f + 2))
                   = Raise (struct_error 2)).
  { unfold unpack_H, unpack_unsigned.
    pose proof (len_slice_le (indata (fr_self f)) (fr_index f) 2 ltac:(lia)) as Hle.
    rewrite len_slice_gen in *. pose proof (len_nonneg (indata (fr_self f))).
    unfold slice_bound in *.
    replace (fr_index f <? 0) with false in * by lia.
    replace (fr_index f + 2 <? 0) with false in * by lia.
    replace (_ =? 2) with false by lia. reflexivity. }
  rewrite Hraise. by destruct f.
Qed.

Lemma region_link_info_short f :
  len (indata (fr_self f)) < fr_index f + 4 -> 0 <= fr_index f -> region_link_info f = f.
Proof.
  intros Hshort H0. unfold region_link_info.
  destruct (_ && _); [|reflexivity].
  rewrite link_info_body_split.
  assert (Hraise : unpack_i (slice (indata (fr_self f)) (fr_index f) (fr_index f + 4))
                   = Raise (struct_error 4)).
  { unfold unpack_i, unpack_signed.
    rewrite len_slice_gen. pose proof (len_nonneg (indata (fr_self f))).
    unfold slice_bound.
    replace (fr_index f <? 0) with false by lia.
    replace (fr_index f + 4 <? 0) with false by lia.
    replace (_ =? 4) with false by lia. reflexivity. }
  unfold on_self, link_info_header, bind, gets, lift. rewrite Hraise. by destruct f.
Qed.

Lemma _read_string_data_short b index u_mult :
  len b < index + 2 -> _read_string_data b index u_mult = (index, EmptyString).
Proof.
  intros Hshort. unfold _read_string_data. by replace (len b <? index + 2) with true by lia.
Qed.

Lemma field_step_short present key u_mult f :
  len (indata (fr_self f)) < fr_index f + 2 ->
  field_step present key u_mult f =
    if present
    then mkFrame (set_data (<[key := EmptyString]> (data (fr_self f))) (fr_self f)) (fr_index f)
    else f.
Proof.
  intros Hshort. unfold field_step. destruct present; [|reflexivity].
  by rewrite _read_string_data_short.
Qed.

Lemma region_strings_short (f : frame) (fl : Z) :
  linkFlag (fr_self f) = decode_flags LINK_FLAG_BITS fl ->
  len (indata (fr_self f)) < fr_index f + 2 ->
  data (fr_self f) = ∅ ->
  fr_index (region_strings f) = fr_index f /\
  (forall k v, data (fr_self (region_strings f)) !! k = Some v -> v = EmptyString).
Proof.
  intros Hfl Hshort Hempty.
  pose proof (string_data_body_steps f fl Hfl) as Hsteps. cbv zeta in Hsteps.
  unfold region_strings. rewrite Hsteps. cbn [snd].
  set (u := if flag_enabled (fr_self f) "IsUnicode" then 2 else 1).
  set (Inv := fun g : frame =>
         indata (fr_self g) = indata (fr_self f) /\ fr_index g = fr_index f /\
         (forall k v, data (fr_self g) !! k = Some v -> v = EmptyString)).
  assert (Hstep : forall present key g, Inv g -> Inv (field_step present key u g)).
  { intros present key g (Hi & Hx & Hd).
    rewrite field_step_short by (rewrite Hi, Hx; exact Hshort).
    destruct present; [|by repeat split].
    unfold Inv. cbn [fr_self fr_index indata data set_data].
    split; [exact Hi|]. split; [exact Hx|].
    intros k v. rewrite lookup_insert. destruct (decide (key = k)); [congruence|apply Hd]. }
  assert (H0 : Inv f).
  { unfold Inv. split; [reflexivity|]. split; [reflexivity|].
    intros k v. rewrite Hempty, lookup_empty. discriminate. }
  match goal with
  | |- fr_index ?g = _ /\ _ => assert (H5 : Inv g) by (repeat apply Hstep; exact H0)
  end.
  destruct H5 as (_ & Hx & Hd). by split.
Qed.

(** X12.  A buffer of 76 or 77 bytes whose first four bytes decode
    to 76 parses as valid whatever its flag words: no LinkInfo field and no
    extra block is stored, every string field whose flag is set is stored as
    the empty string, and the target command is empty. *)
Theorem header_with_nothing_after (path : option string) (b : bytes) :
  76 <= len b -> len b < 78 -> unpack_I (slice b 0 4) = Ok 76 ->
  exists s,
    _parse (new_object path b) = (Ok tt, s) /\
    is_valid s = true /\
    loc_information s = ∅ /\
    extraBlocks s = ∅ /\
    (forall flag_name key, In (flag_name, key) STRING_FIELDS ->
       data s !! key = if flag_enabled s flag_name then Some EmptyString else None) /\
    get_target_command s = EmptyString.
Proof.
  intros Hlen Hshort H76. exists (parsed_object path b).
  split; [by apply _parse_valid|].
  split; [by apply parsed_object_is_valid|].
  destruct (header_state_fields path b Hlen H76) as (Hin & Hfl & Hdata).
  set (f0 := mkFrame (header_state path b) 76).
  assert (H1 : region_id_list f0 = f0)
    by (apply region_id_list_short; unfold f0; cbn [fr_self fr_index]; [rewrite Hin|]; lia).
  assert (H2 : region_link_info f0 = f0)
    by (apply region_link_info_short; unfold f0; cbn [fr_self fr_index]; [rewrite Hin|]; lia).
  assert (Hshort0 : len (indata (fr_self f0)) < fr_index f0 + 2)
    by (unfold f0; cbn [fr_self fr_index]; rewrite Hin; lia).
  destruct (region_strings_short f0 _ Hfl Hshort0 Hdata) as [Hx Hvals].
  assert (H4 : region_extra (region_strings f0) = region_strings f0).
  { unfold region_extra, extra_blocks_body, modify. cbn [snd].
    rewrite extra_block_walk_unfold_step.
    destruct (Z_le_dec _ _) as [Hle|_]; [|by destruct (region_strings f0)].
    rewrite (region_strings_unchanged indata) in Hle by reflexivity.
    rewrite Hx in Hle. unfold f0 in Hle. cbn [fr_self fr_index] in Hle. rewrite Hin in Hle. lia. }
  assert (Hobj : parsed_object path b = set_parsed true (fr_self (region_strings f0))).
  { unfold parsed_object. fold f0. by rewrite H1, H2, H4. }
  split.
  { rewrite Hobj. change (loc_information (set_parsed true ?x)) with (loc_information x).
    rewrite (region_strings_unchanged loc_information) by reflexivity.
    unfold f0. cbn [fr_self].
    destruct (header_steps path b Hlen H76) as (h & _ & _ & _ & _ & ->). reflexivity. }
  split.
  { rewrite Hobj. change (extraBlocks (set_parsed true ?x)) with (extraBlocks x).
    rewrite (region_strings_unchanged extraBlocks) by reflexivity.
    unfold f0. cbn [fr_self]. by apply header_state_extraBlocks. }
  destruct (parsed_object_data path b Hlen H76) as [Hiff _].
  assert (Hfields : forall flag_name key, In (flag_name, key) STRING_FIELDS ->
            data (parsed_object path b) !! key =
              if flag_enabled (parsed_object path b) flag_name then Some EmptyString else None).
  { intros flag_name key Hfield. specialize (Hiff flag_name key Hfield).
    destruct (flag_enabled (parsed_object path b) flag_name);
      destruct (data (parsed_object path b) !! key) as [v|] eqn:Hv.
    - f_equal. apply (Hvals key). rewrite Hobj in Hv. exact Hv.
    - destruct Hiff as [_ Hsome]. destruct (Hsome eq_refl) as [x Hx']. discriminate Hx'.
    - destruct Hiff as [Hsome _]. discriminate (Hsome ltac:(by eexists)).
    - reflexivity. }
  split; [exact Hfields|].
  unfold get_target_command. rewrite parsed_object_parsed. simpl negb. cbv iota. cbv zeta.
  rewrite (Hfields "HasRelativePath" "relativePath") by (simpl; tauto).
  rewrite (Hfields "HasArguments" "commandLineArguments") by (simpl; tauto).
  destruct (flag_enabled (parsed_object path b) "HasRelativePath");
    destruct (flag_enabled (parsed_object path b) "HasArguments"); reflexivity.
Qed.

(** The property at a header with the link flags 0xFF. *)
Lemma header_with_nothing_after_witness :
  exists s,
    _parse (new_object None (header_with_flags 0xFF)) = (Ok tt, s) /\
    is_valid s = true /\ get_target_command s = EmptyString.
Proof.
  assert (Hlen : 76 <= len (header_with_flags 0xFF)) by (vm_compute; discriminate).
  assert (Hshort : len (header_with_flags 0xFF) < 78) by (vm_compute; reflexivity).
  assert (H76 : unpack_I (slice (header_with_flags 0xFF) 0 4) = Ok 76) by reflexivity.
  destruct (header_with_nothing_after None (header_with_flags 0xFF) Hlen Hshort H76)
    as (s & Hs & Hv & _ & _ & _ & Hc).
  exists s. by repeat split.
Defined.

(** ** The convenience functions on a file system *)

Lemma valid_or_invalid b :
  ~ invalid_header b -> 76 <= len b /\ unpack_I (slice b 0 4) = Ok 76.
Proof.
  intros Hn. destruct (construct_cases None b) as [[Hinv _]|(Hlen & H76 & _)];
    [contradiction|by split].
Qed.

(** X13.  [analyze_lnk_file] never raises.  It returns the dictionary
    with the single key 'error' when the constructor raises: for the empty
    path the missing-input message, for a file that cannot be read the
    failed-read message with the path and the text of the error, for a file
    with an invalid header the invalid-header message.  For a readable file
    with a valid header it returns the report of [get_forensic_data], which
    has the ten sections and no key 'error', and whose section 'file_info'
    holds the three digests, the base name of the path and the length of the
    file.  The key 'error' is present exactly when the constructor raised. *)
Theorem analyze_lnk_file_reports (clock : Clock) (hashlib : Hashlib) (os : OS)
    (path : string) :
  (path = EmptyString ->
   analyze_lnk_file path
     = {[ "error" := PStr "Must provide file_path, file_handle, or raw_data" ]}) /\
  (forall e, path <> EmptyString -> open_read path = Raise e ->
     analyze_lnk_file path
       = {[ "error" := PStr ("Failed to read file " +:+ path +:+ ": " +:+ str_exn e) ]}) /\
  (forall b, path <> EmptyString -> open_read path = Ok b -> invalid_header b ->
     analyze_lnk_file path
       = {[ "error" := PStr "Parsing failed: Invalid LNK header: None" ]}) /\
  (forall b, path <> EmptyString -> open_read path = Ok b -> ~ invalid_header b ->
     analyze_lnk_file path = get_forensic_data (parsed_object (Some path) b) /\
     analyze_lnk_file path !! "error" = None /\
     analyze_lnk_file path !! "file_info" = Some (PDict (file_info_report hashlib os path b)) /\
     Forall (fun k => is_Some (analyze_lnk_file path !! k)) REPORT_SECTIONS) /\
  (is_Some (analyze_lnk_file path !! "error") <->
   exists e, __init__ (Some path) None None = Raise e).
Proof.
  assert (Hvalid : forall b, path <> EmptyString -> open_read path = Ok b ->
            ~ invalid_header b ->
            __init__ (Some path) None None = Ok (parsed_object (Some path) b) /\
            get_forensic_data (parsed_object (Some path) b) !! "error" = None /\
            get_forensic_data (parsed_object (Some path) b) !! "file_info"
              = Some (PDict (file_info_report hashlib os path b)) /\
            Forall (fun k => is_Some (get_forensic_data (parsed_object (Some path) b) !! k))
              REPORT_SECTIONS).
  { intros b Hne Hopen Hok. destruct (valid_or_invalid b Hok) as [Hlen H76].
    destruct path as [|c p]; [congruence|].
    rewrite __init___from_path, Hopen.
    destruct (construct_cases (Some (String c p)) b) as [[Hinv _]|(_ & _ & ->)];
      [contradiction|].
    split; [reflexivity|].
    unfold get_forensic_data. rewrite parsed_object_parsed. simpl negb. cbv iota. cbv zeta.
    split; [reflexivity|].
    split.
    { rewrite lookup_insert_eq.
      rewrite parsed_object_file_path, parsed_object_indata by assumption.
      unfold get_file_hashes. rewrite parsed_object_indata by assumption.
      destruct b as [|x b']; [unfold len in Hlen; simpl in Hlen; lia|].
      unfold file_info_report. rewrite <- !insert_union_l. rewrite (left_id ∅ (∪)).
      reflexivity. }
    unfold REPORT_SECTIONS.
    repeat (apply Forall_cons; split;
            [repeat (rewrite lookup_insert_ne by discriminate); rewrite lookup_insert_eq;
             by eexists|]).
    apply Forall_nil. exact I. }
  split; [intros ->; reflexivity|].
  split.
  { intros e Hne Hopen. unfold analyze_lnk_file. destruct path as [|c p]; [congruence|].
    rewrite __init___from_path, Hopen. reflexivity. }
  split.
  { intros b Hne Hopen Hinv. unfold analyze_lnk_file. destruct path as [|c p]; [congruence|].
    rewrite __init___from_path, Hopen.
    destruct (construct_cases (Some (String c p)) b) as [[_ ->]|(Hlen & H76 & _)];
      [reflexivity|].
    destruct Hinv as [Hs|Hb]; [lia|congruence]. }
  split.
  { intros b Hne Hopen Hok.
    destruct (Hvalid b Hne Hopen Hok) as (Hinit & Herr & Hinfo & Hall).
    unfold analyze_lnk_file. rewrite Hinit. by repeat split. }
  unfold analyze_lnk_file. split.
  - intros Herr. destruct (__init__ (Some path) None None) as [lnk|e] eqn:Hinit;
      [|by exists e].
    exfalso. destruct path as [|c p]; [discriminate Hinit|].
    rewrite __init___from_path in Hinit.
    destruct (open_read (String c p)) as [b|e] eqn:Hopen; [|discriminate Hinit].
    destruct (construct_cases (Some (String c p)) b) as [[_ Hc]|(Hlen & H76 & Hc)];
      rewrite Hc in Hinit; [discriminate Hinit|].
    injection Hinit as <-.
    assert (Hok : ~ invalid_header b) by (intros [Hs|Hb]; [lia|congruence]).
    destruct (Hvalid b ltac:(discriminate) eq_refl Hok) as (_ & Hnone & _ & _).
    rewrite Hnone in Herr. destruct Herr as [x Hx]. discriminate Hx.
  - intros [e ->]. rewrite lookup_singleton_eq. by eexists.
Qed.

(** The property in a file system whose only file, a.lnk, is a header with no
    flag set. *)
Lemma analyze_lnk_file_reports_witness :
  @analyze_lnk_file utc_clock no_digests (one_file "a.lnk" (header_with_flags 0)) "a.lnk"
    !! "error" = None /\
  @analyze_lnk_file utc_clock no_digests (one_file "a.lnk" (header_with_flags 0)) "b.lnk"
    = {[ "error" := PStr "Failed to read file b.lnk: No such file or directory" ]}.
Proof.
  pose proof (analyze_lnk_file_reports utc_clock no_digests
                (one_file "a.lnk" (header_with_flags 0)) "a.lnk") as (_ & _ & _ & Hok & _).
  pose proof (analyze_lnk_file_reports utc_clock no_digests
                (one_file "a.lnk" (header_with_flags 0)) "b.lnk") as (_ & Hfail & _).
  split.
  - refine (proj1 (proj2 (Hok (header_with_flags 0) _ eq_refl _))); [discriminate|].
    intros [Hs|Hb]; [vm_compute in Hs; discriminate Hs|apply Hb; reflexivity].
  - apply (Hfail (OSError "No such file or directory")); [discriminate|reflexivity].
Defined.

Lemma _read_string_data_encoded (p t : bytes) (unicode : bool) (s : string) :
  printable s -> Z.of_nat (String.length s) < 65536 ->
  _read_string_data (p ++ length_prefixed unicode s ++ t) (len p) (if unicode then 2 else 1)
    = (len (p ++ length_prefixed unicode s), s).
Proof.
  intros Hs Hlen. unfold length_prefixed, encode_text. rewrite <- app_assoc.
  destruct (_read_string_data_text p t s Hs Hlen) as [H1 H2].
  assert (Hl : forall payload : bytes, len (p ++ le16 (Z.of_nat (String.length s)) ++ payload)
                 = len p + 2 + len payload)
    by (intros; unfold len; rewrite !length_app; simpl; lia).
  rewrite Hl. destruct unicode.
  - rewrite H2, len_utf16le. f_equal. lia.
  - rewrite H1, len_list_byte_of_string. f_equal. lia.
Qed.

Lemma two_strings_data path (hdr trailer : bytes) (unicode : bool) (rel args : string) :
  len hdr = 76 -> unpack_I (slice hdr 0 4) = Ok 76 ->
  unpack_i (slice hdr 20 24) = Ok (path_and_arguments_flags unicode) ->
  printable rel -> Z.of_nat (String.length rel) < 65536 ->
  printable args -> Z.of_nat (String.length args) < 65536 ->
  let b := hdr ++ length_prefixed unicode rel ++ length_prefixed unicode args ++ trailer in
  let s := parsed_object path b in
  76 <= len b /\ unpack_I (slice b 0 4) = Ok 76 /\
  data s !! "relativePath" = Some rel /\
  data s !! "commandLineArguments" = Some args.
Proof.
  intros Hhdr H76 Hflags Hrel Hrlen Harg Halen b s.
  assert (Hlen : 76 <= len b).
  { unfold b, len in *. rewrite length_app. lia. }
  assert (Hfour : slice b 0 4 = slice hdr 0 4) by (apply slice_app_l; lia).
  assert (Hb76 : unpack_I (slice b 0 4) = Ok 76) by (by rewrite Hfour).
  split; [exact Hlen|]. split; [exact Hb76|].
  assert (Hword : rlinkFlags_of b = path_and_arguments_flags unicode).
  { unfold rlinkFlags_of. replace (slice b 0 76) with hdr
      by (unfold b; by rewrite <- Hhdr, slice_whole).
    unfold unpack_i, unpack_signed in Hflags.
    destruct (len (slice hdr 20 24) =? 4); [|discriminate Hflags]. by injection Hflags. }
  destruct (header_state_fields path b Hlen Hb76) as (Hin & Hfl & Hdata).
  rewrite Hword in Hfl.
  set (f0 := mkFrame (header_state path b) 76).
  assert (Hf0 : forall k, flag_enabled (fr_self f0) k
            = default false (od_get k (decode_flags LINK_FLAG_BITS
                                         (path_and_arguments_flags unicode))))
    by (intros k; by apply flag_enabled_decoded).
  assert (Hdata_s : data s = data (fr_self (region_strings f0))).
  { unfold s, parsed_object. fold f0.
    change (data (set_parsed true ?x)) with (data x).
    rewrite (region_extra_unchanged data) by reflexivity.
    assert (Hid : region_id_list f0 = f0)
      by (unfold region_id_list; rewrite (Hf0 "HasTargetIDList"); by destruct unicode).
    assert (Hli : region_link_info f0 = f0)
      by (unfold region_link_info; rewrite (Hf0 "HasLinkInfo"); by destruct unicode).
    by rewrite Hid, Hli. }
  rewrite Hdata_s. unfold region_strings.
  pose proof (string_data_body_steps f0 _ Hfl) as Hsteps. cbv zeta in Hsteps.
  rewrite Hsteps. cbn [snd]. rewrite !Hf0.
  assert (Hu : (if default false (od_get "IsUnicode"
                     (decode_flags LINK_FLAG_BITS (path_and_arguments_flags unicode)))
                then 2 else 1) = (if unicode then 2 else 1))
    by (destruct unicode; reflexivity).
  rewrite Hu.
  replace (default false (od_get "HasName"
             (decode_flags LINK_FLAG_BITS (path_and_arguments_flags unicode)))) with false
    by (destruct unicode; reflexivity).
  replace (default false (od_get "HasRelativePath"
             (decode_flags LINK_FLAG_BITS (path_and_arguments_flags unicode)))) with true
    by (destruct unicode; reflexivity).
  replace (default false (od_get "HasWorkingDir"
             (decode_flags LINK_FLAG_BITS (path_and_arguments_flags unicode)))) with false
    by (destruct unicode; reflexivity).
  replace (default false (od_get "HasArguments"
             (decode_flags LINK_FLAG_BITS (path_and_arguments_flags unicode)))) with true
    by (destruct unicode; reflexivity).
  replace (default false (od_get "HasIconLocation"
             (decode_flags LINK_FLAG_BITS (path_and_arguments_flags unicode)))) with false
    by (destruct unicode; reflexivity).
  repeat match goal with
         | |- context [field_step false ?k ?u ?g] => change (field_step false k u g) with g
         end.
  set (u := if unicode then 2 else 1).
  assert (R1 : _read_string_data b 76 u = (len (hdr ++ length_prefixed unicode rel), rel)).
  { unfold b, u. rewrite <- Hhdr. by apply _read_string_data_encoded. }
  assert (R2 : _read_string_data b (len (hdr ++ length_prefixed unicode rel)) u
               = (len ((hdr ++ length_prefixed unicode rel) ++ length_prefixed unicode args),
                  args)).
  { unfold b, u.
    replace (hdr ++ length_prefixed unicode rel ++ length_prefixed unicode args ++ trailer)
      with ((hdr ++ length_prefixed unicode rel) ++ length_prefixed unicode args ++ trailer)
      by (by rewrite <- !app_assoc).
    by apply _read_string_data_encoded. }
  assert (Hone : field_step true "relativePath" u f0
                = mkFrame (set_data (<["relativePath" := rel]> ∅) (header_state path b))
                    (len (hdr ++ length_prefixed unicode rel))).
  { unfold field_step, f0. cbn [fr_self fr_index]. by rewrite Hin, R1, Hdata. }
  rewrite Hone. unfold field_step. cbn [fr_self fr_index indata set_data data].
  rewrite Hin, R2. cbn [fr_self data set_data].
  split; [by rewrite lookup_insert_ne, lookup_insert_eq|by rewrite lookup_insert_eq].
Qed.

(** X14.  [get_lnk_command] returns the empty string whenever the
    constructor raises.  For a file made of a valid header with the flags
    HasRelativePath and HasArguments (with or without IsUnicode), followed by
    a relative path and arguments of characters with codes above 20 and
    below 128, each written with its count and in the encoding the flags
    announce, and by any further bytes, it returns the relative path, one
    space and the arguments, with the surrounding whitespace removed. *)
Theorem get_lnk_command_round_trip (os : OS) (path : string) :
  (forall e, __init__ (Some path) None None = Raise e -> get_lnk_command path = EmptyString) /\
  (forall (hdr trailer : bytes) (unicode : bool) (rel args : string),
     path <> EmptyString ->
     open_read path
       = Ok (hdr ++ length_prefixed unicode rel ++ length_prefixed unicode args ++ trailer) ->
     len hdr = 76 -> unpack_I (slice hdr 0 4) = Ok 76 ->
     unpack_i (slice hdr 20 24) = Ok (path_and_arguments_flags unicode) ->
     printable rel -> Z.of_nat (String.length rel) < 65536 ->
     printable args -> Z.of_nat (String.length args) < 65536 ->
     get_lnk_command path = strip (rel +:+ " " +:+ args)).
Proof.
  split.
  { intros e He. unfold get_lnk_command. by rewrite He. }
  intros hdr trailer unicode rel args Hne Hopen Hhdr H76 Hflags Hrel Hrlen Harg Halen.
  destruct (two_strings_data (Some path) hdr trailer unicode rel args
              Hhdr H76 Hflags Hrel Hrlen Harg Halen) as (Hlen & Hb76 & Hr & Ha).
  cbv zeta in Hr, Ha.
  set (b := hdr ++ length_prefixed unicode rel ++ length_prefixed unicode args ++ trailer) in *.
  unfold get_lnk_command. destruct path as [|c p]; [congruence|].
  rewrite __init___from_path, Hopen.
  destruct (construct_cases (Some (String c p)) b) as [[[Hs|Hb] _]|(_ & _ & ->)];
    [lia|congruence|].
  rewrite parsed_object_command by assumption.
  unfold stored_text. by rewrite Hr, Ha.
Qed.

(** The property at a file holding the path cmd.exe and the arguments /c calc,
    two bytes a character. *)
Lemma get_lnk_command_round_trip_witness :
  @get_lnk_command
     (one_file "a.lnk" (header_with_flags 0xA8 ++ length_prefixed true "cmd.exe"
                        ++ length_prefixed true "/c calc" ++ []))
     "a.lnk" = "cmd.exe /c calc".
Proof.
  pose proof (get_lnk_command_round_trip
                (one_file "a.lnk" (header_with_flags 0xA8 ++ length_prefixed true "cmd.exe"
                                   ++ length_prefixed true "/c calc" ++ []))
                "a.lnk") as [_ Hrt].
  rewrite (Hrt (header_with_flags 0xA8) [] true "cmd.exe" "/c calc");
    try (vm_compute; (reflexivity || discriminate));
    try (unfold printable; simpl; repeat constructor; lia).
Defined.

(** ** The target command, trimmed *)

Lemma string_of_chars_of_string s : string_of_chars (chars_of_string s) = s.
Proof. induction s as [|c s IH]; [reflexivity|]. simpl. by rewrite IH. Qed.

Lemma lstrip_chars_split l :
  exists p,
    l = p ++ lstrip_chars l /\
    Forall (fun c => is_space c = true) p /\
    (forall c t, lstrip_chars l = c :: t -> is_space c = false).
Proof.
  induction l as [|c l (p & Hl & Hp & Hc)].
  - exists []. split; [reflexivity|]. split; [constructor|discriminate].
  - simpl. destruct (is_space c) eqn:E.
    + exists (c :: p). split; [simpl; by f_equal|]. split; [by constructor|exact Hc].
    + exists []. split; [reflexivity|]. split; [constructor|].
      intros c' t Heq. injection Heq as <- _. exact E.
Qed.

Lemma lstrip_chars_spaces p l :
  Forall (fun c => is_space c = true) p -> lstrip_chars (p ++ l) = lstrip_chars l.
Proof. induction 1 as [|c p Hc _ IH]; [reflexivity|]. simpl. by rewrite Hc. Qed.

Lemma lstrip_chars_all_spaces p :
  Forall (fun c => is_space c = true) p -> lstrip_chars p = [].
Proof.
  intros Hp. rewrite <- (app_nil_r p). by rewrite lstrip_chars_spaces.
Qed.

Lemma Forall_space_rev p :
  Forall (fun c => is_space c = true) p -> Forall (fun c => is_space c = true) (rev p).
Proof.
  rewrite !List.Forall_forall. intros Hp c Hc. apply Hp. by apply in_rev.
Qed.

Lemma strip_trimmed s : trimmed s (strip s).
Proof.
  unfold trimmed, strip. rewrite chars_of_string_of_chars.
  destruct (lstrip_chars_split (chars_of_string s)) as (p & Hs & Hp & Hfirst).
  set (m := lstrip_chars (chars_of_string s)) in *.
  destruct (lstrip_chars_split (rev m)) as (q & Hm & Hq & Hlast).
  set (t := rev (lstrip_chars (rev m))) in *.
  assert (Hmt : m = t ++ rev q).
  { apply (f_equal (@rev ascii)) in Hm. rewrite rev_involutive, rev_app_distr in Hm.
    exact Hm. }
  exists p, (rev q).
  split; [by rewrite <- Hmt|]. split; [exact Hp|].
  split; [by apply Forall_space_rev|]. split.
  - intros c t' Ht. apply (Hfirst c (t' ++ rev q)). by rewrite Hmt, Ht.
  - intros c t' Ht. apply (Hlast c (rev t')).
    apply (f_equal (@rev ascii)) in Ht. unfold t in Ht.
    rewrite rev_involutive, rev_app_distr in Ht. exact Ht.
Qed.

Lemma trimmed_unique s t : trimmed s t -> t = strip s.
Proof.
  intros (l & r & Hs & Hl & Hr & Hfirst & Hlast).
  rewrite <- (string_of_chars_of_string t). unfold strip. f_equal.
  rewrite Hs, (lstrip_chars_spaces l _ Hl).
  destruct (chars_of_string t) as [|c t'] eqn:Ht.
  - simpl. by rewrite (lstrip_chars_all_spaces r Hr).
  - assert (Hkeep : lstrip_chars ((c :: t') ++ r) = (c :: t') ++ r)
      by (simpl; by rewrite (Hfirst c t' eq_refl)).
    rewrite Hkeep, rev_app_distr, (lstrip_chars_spaces _ _ (Forall_space_rev r Hr)).
    destruct (rev (c :: t')) as [|c' y] eqn:Hrev.
    + apply (f_equal (@rev ascii)) in Hrev. rewrite rev_involutive in Hrev. discriminate Hrev.
    + assert (Hend : c :: t' = rev y ++ [c']).
      { apply (f_equal (@rev ascii)) in Hrev. by rewrite rev_involutive in Hrev. }
      simpl lstrip_chars. rewrite (Hlast c' (rev y) Hend). by rewrite Hend.
Qed.

(** C8.  For every input with a valid header whose link-flags word has only
    HasRelativePath and HasArguments set (0x28), followed by the string
    section that encodes the relative path notepad.exe and the arguments
    /A test.txt (and by any further bytes), [get_target_command] returns
    "notepad.exe /A test.txt".  In general, for such a header followed by any
    relative path and arguments made of the characters [_clean_line] keeps,
    each written with its count, the target command is the relative path, one
    space and the arguments with the surrounding whitespace trimmed: the
    concatenation is the command between two runs of whitespace characters,
    and the command neither starts nor ends with one.  The same holds on
    every parsed object with both flags set and both fields stored; with
    HasArguments clear the command is the trimmed relative path.  Trimming in
    this sense leaves one result only, the one of [str.strip]. *)
Theorem target_command_of_path_and_arguments :
  (forall (path : option string) (hdr trailer : bytes),
     len hdr = 76 -> unpack_I (slice hdr 0 4) = Ok 76 ->
     unpack_i (slice hdr 20 24) = Ok 0x28 ->
     exists s,
       _parse (new_object path (hdr ++ notepad_strings ++ trailer)) = (Ok tt, s) /\
       get_target_command s = "notepad.exe /A test.txt") /\
  (forall (path : option string) (hdr trailer : bytes) (relative_path arguments : string),
     len hdr = 76 -> unpack_I (slice hdr 0 4) = Ok 76 ->
     unpack_i (slice hdr 20 24) = Ok 0x28 ->
     printable relative_path -> Z.of_nat (String.length relative_path) < 65536 ->
     printable arguments -> Z.of_nat (String.length arguments) < 65536 ->
     exists s,
       _parse (new_object path (hdr ++ length_prefixed false relative_path
                                ++ length_prefixed false arguments ++ trailer)) = (Ok tt, s) /\
       trimmed (relative_path +:+ " " +:+ arguments) (get_target_command s)) /\
  (forall (s : LnkForensics) (relative_path arguments : string),
     parsed s = true ->
     flag_enabled s "HasRelativePath" = true ->
     flag_enabled s "HasArguments" = true ->
     data s !! "relativePath" = Some relative_path ->
     data s !! "commandLineArguments" = Some arguments ->
     get_target_command s = strip (relative_path +:+ " " +:+ arguments) /\
     trimmed (relative_path +:+ " " +:+ arguments) (get_target_command s)) /\
  (forall (s : LnkForensics) (relative_path : string),
     parsed s = true ->
     flag_enabled s "HasRelativePath" = true ->
     flag_enabled s "HasArguments" = false ->
     data s !! "relativePath" = Some relative_path ->
     get_target_command s = strip relative_path /\
     trimmed relative_path (get_target_command s)) /\
  (forall text result : string, trimmed text result <-> result = strip text).
Proof.
  assert (Hgeneral : forall (s : LnkForensics) (relative_path arguments : string),
            parsed s = true ->
            flag_enabled s "HasRelativePath" = true ->
            flag_enabled s "HasArguments" = true ->
            data s !! "relativePath" = Some relative_path ->
            data s !! "commandLineArguments" = Some arguments ->
            get_target_command s = strip (relative_path +:+ " " +:+ arguments)).
  { intros s rel args Hparsed Hrel Harg Hr Ha. unfold get_target_command.
    by rewrite Hparsed, Hrel, Harg, Hr, Ha. }
  split; [|split; [|split; [|split]]].
  - intros path hdr trailer Hhdr H76 Hflags.
    destruct (notepad_data path hdr trailer Hhdr H76 Hflags) as (Hparse & Hrel & Harg & Hr & Ha).
    eexists. split; [exact Hparse|].
    rewrite (Hgeneral _ _ _ (parsed_object_parsed _ _) Hrel Harg Hr Ha). reflexivity.
  - intros path hdr trailer rel args Hhdr H76 Hflags Hrel Hrlen Harg Halen.
    destruct (two_strings_data path hdr trailer false rel args
                Hhdr H76 Hflags Hrel Hrlen Harg Halen) as (Hlen & Hb76 & Hr & Ha).
    cbv zeta in Hr, Ha.
    set (b := hdr ++ length_prefixed false rel ++ length_prefixed false args ++ trailer) in *.
    exists (parsed_object path b). split; [by apply _parse_valid|].
    rewrite parsed_object_command by assumption.
    unfold stored_text. rewrite Hr, Ha. cbn [default]. apply strip_trimmed.
  - intros s rel args Hparsed Hrel Harg Hr Ha.
    rewrite (Hgeneral s rel args Hparsed Hrel Harg Hr Ha).
    split; [reflexivity|apply strip_trimmed].
  - intros s rel Hparsed Hrel Harg Hr. unfold get_target_command.
    rewrite Hparsed, Hrel, Harg, Hr. cbn [negb]. cbv zeta.
    split; [reflexivity|apply strip_trimmed].
  - intros text result. split; [apply trimmed_unique|intros ->; apply strip_trimmed].
Qed.

(** The claim at the header of [header_with_flags] and no further bytes, for
    the two strings of the example, and for a relative path that starts with
    a space and arguments that end with two. *)
Lemma target_command_of_path_and_arguments_witness :
  (exists s,
     _parse (new_object None (header_with_flags 0x28 ++ notepad_strings ++ [])) = (Ok tt, s) /\
     get_target_command s = "notepad.exe /A test.txt") /\
  (exists s,
     _parse (new_object None (header_with_flags 0x28 ++ length_prefixed false " cmd.exe"
                              ++ length_prefixed false "/c dir  " ++ [])) = (Ok tt, s) /\
     get_target_command s = "cmd.exe /c dir").
Proof.
  split.
  - apply (proj1 target_command_of_path_and_arguments None (header_with_flags 0x28) []);
      vm_compute; reflexivity.
  - assert (Hhdr : len (header_with_flags 0x28) = 76) by (vm_compute; reflexivity).
    assert (H76 : unpack_I (slice (header_with_flags 0x28) 0 4) = Ok 76)
      by (vm_compute; reflexivity).
    assert (Hflags : unpack_i (slice (header_with_flags 0x28) 20 24) = Ok 0x28)
      by (vm_compute; reflexivity).
    assert (Hrel : printable " cmd.exe") by (unfold printable; simpl; repeat constructor; lia).
    assert (Harg : printable "/c dir  ") by (unfold printable; simpl; repeat constructor; lia).
    assert (Hrlen : Z.of_nat (String.length " cmd.exe") < 65536) by (vm_compute; reflexivity).
    assert (Halen : Z.of_nat (String.length "/c dir  ") < 65536) by (vm_compute; reflexivity).
    destruct (proj1 (proj2 target_command_of_path_and_arguments)
                None (header_with_flags 0x28) [] " cmd.exe" "/c dir  "
                Hhdr H76 Hflags Hrel Hrlen Harg Halen) as (s & Hs & Htrim).
    exists s. split; [exact Hs|].
    exact (proj1 (proj2 (proj2 (proj2 (proj2 target_command_of_path_and_arguments))) _ _)
             Htrim).
Defined.

(** ** The dispatch of one extra block *)

Lemma block_effect_indata index size sigv s : indata (block_effect index size sigv s) = indata s.
Proof.
  unfold block_effect. destruct (sigv =? 0xA0000001); [reflexivity|].
  destruct (_ && _); reflexivity.
Qed.

Lemma walk_single_block s index size sigv :
  0 <= index -> index <= len (indata s) - 10 ->
  unpack_I (slice (indata s) index (index + 4)) = Ok size -> 4 <= size ->
  unpack_I (slice (indata s) (index + 4) (index + 8)) = Ok sigv ->
  len (indata s) - 10 < index + size ->
  extra_block_walk s index = (block_effect index size sigv s, index + size).
Proof.
  intros H0 Hle Hsize Hge Hsig Hlast.
  rewrite extra_block_walk_unfold_step.
  destruct (Z_le_dec index (len (indata s) - 10)); [|lia].
  rewrite (extra_block_at_effect index s size sigv H0 Hsize Hge Hsig).
  rewrite extra_block_walk_unfold_step.
  destruct (Z_le_dec _ _) as [Hle'|]; [|reflexivity].
  rewrite block_effect_indata in Hle'. lia.
Qed.

(** X15.  One pass of the extra-block loop at a cursor that is not
    negative, for a block whose declared size is at least 4 and whose
    signature is read: the cursor advances by the declared size; a signature
    0xA0000001 stores the environment block (its text taken from the [size]
    bytes that start 8 bytes into the block); a signature 0xA0000003 stores
    the tracker block when the buffer holds 16 bytes from the cursor on, and
    is dropped without notice otherwise; any other signature changes nothing.
    When the block reaches within 10 bytes of the end of the buffer, the walk
    ends after it. *)
Theorem extra_block_dispatch (s : LnkForensics) (index size sigv : Z) :
  0 <= index ->
  unpack_I (slice (indata s) index (index + 4)) = Ok size -> 4 <= size ->
  unpack_I (slice (indata s) (index + 4) (index + 8)) = Ok sigv ->
  extra_block_at index s = (Ok (Some (index + size)), block_effect index size sigv s) /\
  (sigv = 0xA0000001 ->
   extraBlocks (block_effect index size sigv s) =
     <[ENVIRONMENT_BLOCK := PDict (environment_fields (indata s) index size)]> (extraBlocks s)) /\
  (sigv = 0xA0000003 -> index + 16 <= len (indata s) ->
   extraBlocks (block_effect index size sigv s) =
     <[TRACKER_BLOCK := PDict (tracker_fields (indata s) index)]> (extraBlocks s)) /\
  (sigv = 0xA0000003 -> len (indata s) < index + 16 -> block_effect index size sigv s = s) /\
  (sigv <> 0xA0000001 -> sigv <> 0xA0000003 -> block_effect index size sigv s = s) /\
  (index <= len (indata s) - 10 -> len (indata s) - 10 < index + size ->
   extra_block_walk s index = (block_effect index size sigv s, index + size)).
Proof.
  intros H0 Hsize Hge Hsig.
  split; [by apply extra_block_at_effect|].
  split; [intros ->; reflexivity|].
  split.
  { intros -> H16. unfold block_effect. simpl andb.
    by replace (index + 16 <=? len (indata s)) with true by lia. }
  split.
  { intros -> H16. unfold block_effect. simpl andb.
    by replace (index + 16 <=? len (indata s)) with false by lia. }
  split.
  { intros H1 H3. unfold block_effect.
    replace (sigv =? 0xA0000001) with false by lia.
    by replace (sigv =? 0xA0000003) with false by lia. }
  intros Hle Hlast. by apply walk_single_block.
Qed.

(** The property at [two_blocks]: the first block has an unknown signature. *)
Lemma extra_block_dispatch_witness :
  extra_block_at 0 (new_object None two_blocks)
    = (Ok (Some (0 + 16)), block_effect 0 16 0xDEADBEEF (new_object None two_blocks)) /\
  block_effect 0 16 0xDEADBEEF (new_object None two_blocks) = new_object None two_blocks.
Proof.
  assert (H0 : 0 <= 0) by lia.
  assert (Hsize : unpack_I (slice (indata (new_object None two_blocks)) 0 (0 + 4)) = Ok 16)
    by (vm_compute; reflexivity).
  assert (Hge : 4 <= 16) by lia.
  assert (Hsig : unpack_I (slice (indata (new_object None two_blocks)) (0 + 4) (0 + 8))
                 = Ok 0xDEADBEEF) by (vm_compute; reflexivity).
  destruct (extra_block_dispatch (new_object None two_blocks) 0 16 0xDEADBEEF H0 Hsize Hge Hsig)
    as (Hstep & _ & _ & _ & Hother & _).
  split; [exact Hstep|]. apply Hother; lia.
Defined.

(** ** The tracker block *)

Lemma walk_entry_state path b :
  76 <= len b -> unpack_I (slice b 0 4) = Ok 76 ->
  indata (fr_self (walk_entry path b)) = b /\ extraBlocks (fr_self (walk_entry path b)) = ∅.
Proof.
  intros Hlen H76. unfold walk_entry, link_info_entry.
  rewrite (region_strings_unchanged indata), (region_link_info_unchanged indata),
    (region_id_list_unchanged indata) by reflexivity.
  rewrite (region_strings_unchanged extraBlocks), (region_link_info_unchanged extraBlocks),
    (region_id_list_unchanged extraBlocks) by reflexivity.
  cbn [fr_self]. rewrite header_state_extraBlocks by assumption.
  by destruct (header_state_fields path b Hlen H76) as (-> & _ & _).
Qed.

Lemma tracker_block_tracking path b size :
  76 <= len b -> unpack_I (slice b 0 4) = Ok 76 ->
  let c := fr_index (walk_entry path b) in
  0 <= c -> c + 16 <= len b ->
  unpack_I (slice b c (c + 4)) = Ok size -> 4 <= size ->
  unpack_I (slice b (c + 4) (c + 8)) = Ok 0xA0000003 ->
  len b - 10 < c + size ->
  extraBlocks (parsed_object path b) = <[TRACKER_BLOCK := PDict (tracker_fields b c)]> ∅ /\
  get_machine_tracking (parsed_object path b) = machine_tracking_report b c.
Proof.
  intros Hlen H76 c H0 H16 Hsize Hge Hsig Hlast.
  destruct (walk_entry_state path b Hlen H76) as [Hin Hx].
  assert (Hobj : parsed_object path b
                 = set_parsed true (block_effect c size 0xA0000003 (fr_self (walk_entry path b)))).
  { unfold parsed_object. fold (link_info_entry path b). fold (walk_entry path b).
    unfold region_extra, extra_blocks_body, modify. cbn [snd]. fold c.
    rewrite (walk_single_block _ c size 0xA0000003) by (rewrite ?Hin; (assumption || lia)).
    reflexivity. }
  assert (Hblocks : extraBlocks (parsed_object path b)
                    = <[TRACKER_BLOCK := PDict (tracker_fields b c)]> ∅).
  { rewrite Hobj. change (extraBlocks (set_parsed true ?x)) with (extraBlocks x).
    unfold block_effect. simpl andb. rewrite Hin.
    replace (c + 16 <=? len b) with true by lia.
    cbn [extraBlocks set_extraBlocks]. by rewrite Hx. }
  split; [exact Hblocks|].
  unfold get_machine_tracking. rewrite parsed_object_parsed. simpl negb. cbv iota. cbv zeta.
  rewrite Hblocks. unfold get_or at 6. fold TRACKER_BLOCK. rewrite lookup_insert_eq.
  reflexivity.
Qed.

(** ** The parse of any object *)

Lemma unchanged_with_index {A B} (proj : LnkForensics -> B) index (m : M frame A) :
  unchanged (fun f => proj (fr_self f)) m -> unchanged proj (with_index index m).
Proof.
  intros Hm s. unfold with_index. specialize (Hm (mkFrame s index)).
  destruct (m (mkFrame s index)) as [r f]. exact Hm.
Qed.

Lemma string_data_body_unchanged {B} (proj : LnkForensics -> B) :
  (forall v s, proj (set_data v s) = proj s) ->
  unchanged (fun f => proj (fr_self f)) string_data_body.
Proof.
  intros Hproj.
  assert (Hfield : forall fl k u, unchanged (fun f => proj (fr_self f)) (string_field fl k u))
    by (intros; unfold string_field; unchanged_solve).
  unfold string_data_body; unchanged_solve; apply Hfield.
Qed.

Lemma extra_blocks_body_unchanged {B} (proj : LnkForensics -> B) :
  (forall v s, proj (set_extraBlocks v s) = proj s) ->
  unchanged (fun f => proj (fr_self f)) extra_blocks_body.
Proof. intros Hproj f. by apply (region_extra_unchanged proj). Qed.

Lemma parse_regions_unchanged {B} (proj : LnkForensics -> B) :
  (forall v s, proj (set_extraBlocks v s) = proj s) ->
  (forall v s, proj (set_data v s) = proj s) ->
  (forall v s, proj (set_loc_information v s) = proj s) ->
  (forall v s, proj (set_parsed v s) = proj s) ->
  unchanged (fun f => proj (fr_self f)) parse_regions.
Proof.
  intros He Hd Hl Hp. unfold parse_regions.
  pose proof (target_id_list_unchanged proj) as H1.
  pose proof (link_info_body_unchanged proj Hl) as H2.
  pose proof (string_data_body_unchanged proj Hd) as H3.
  pose proof (extra_blocks_body_unchanged proj He) as H4.
  unchanged_solve; assumption.
Qed.

Lemma bind_ok_inv {S A A'} (m : M S A) (k : A -> M S A') s b s' :
  bind m k s = (Ok b, s') -> exists a s1, m s = (Ok a, s1) /\ k a s1 = (Ok b, s').
Proof.
  unfold bind. destruct (m s) as [[a|e] s1]; [|discriminate]. intros Hk. by exists a, s1.
Qed.

Lemma parse_regions_sets_parsed f f' :
  parse_regions f = (Ok tt, f') -> parsed (fr_self f') = true.
Proof.
  unfold parse_regions. intros Hr.
  do 6 (apply bind_ok_inv in Hr as (? & ? & _ & Hr)).
  unfold on_self, modify in Hr. injection Hr as <-. reflexivity.
Qed.

Lemma parse_regions_keeps_parsed :
  kept_on_raise (fun f => parsed (fr_self f)) parse_regions.
Proof.
  pose proof (target_id_list_unchanged parsed) as H1.
  pose proof (link_info_body_unchanged parsed ltac:(reflexivity)) as H2.
  pose proof (string_data_body_unchanged parsed ltac:(reflexivity)) as H3.
  pose proof (extra_blocks_body_unchanged parsed ltac:(reflexivity)) as H4.
  unfold parse_regions.
  apply kept_on_raise_bind; [unchanged_solve|intros a1].
  apply kept_on_raise_bind; [unchanged_solve; assumption|intros _].
  apply kept_on_raise_bind; [unchanged_solve|intros a2].
  apply kept_on_raise_bind; [unchanged_solve|intros a3].
  apply kept_on_raise_bind; [unchanged_solve; assumption|intros _].
  apply kept_on_raise_bind; [unchanged_solve; assumption|intros _].
  apply kept_on_raise_bind; [unchanged_solve; assumption|intros _].
  apply kept_on_raise_returns. intros f. by exists tt.
Qed.

Lemma _parse_lnk_header_unchanged {B} (proj : LnkForensics -> B) :
  (forall v s, proj (set_lnk_header v s) = proj s) ->
  (forall v s, proj (set_parse_error v s) = proj s) ->
  unchanged proj _parse_lnk_header.
Proof. intros Hh He. unfold _parse_lnk_header. unchanged_solve. Qed.

Lemma _parse_lnk_header_true s s' :
  _parse_lnk_header s = (Ok true, s') -> parse_error s' = parse_error s.
Proof.
  unfold _parse_lnk_header, try_except.
  match goal with
  | |- (match ?body s with _ => _ end) = _ -> _ =>
      assert (Hb : unchanged parse_error body) by unchanged_solve;
      specialize (Hb s); destruct (body s) as [[r|e] s1]
  end.
  - intros [= -> ->]. exact Hb.
  - unfold bind, modify, ret. discriminate.
Qed.

Lemma flags_unchanged {B} (proj : LnkForensics -> B) :
  (forall v s, proj (set_linkFlag v s) = proj s) ->
  (forall v s, proj (set_fileFlag v s) = proj s) ->
  unchanged proj _parse_link_flags /\ unchanged proj _parse_file_flags.
Proof.
  intros Hl Hf. split; [unfold _parse_link_flags|unfold _parse_file_flags]; unchanged_solve.
Qed.

Lemma kept_on_raise_with_index {A B} (proj : LnkForensics -> B) index (m : M frame A) :
  kept_on_raise (fun f => proj (fr_self f)) m -> kept_on_raise proj (with_index index m).
Proof.
  intros Hm s e. unfold with_index. specialize (Hm (mkFrame s index) e).
  destruct (m (mkFrame s index)) as [r f]. exact Hm.
Qed.

Lemma unchanged_run {S A B} (proj : S -> B) (m : M S A) s r s' :
  unchanged proj m -> m s = (r, s') -> proj s' = proj s.
Proof. intros Hm Hr. specialize (Hm s). by rewrite Hr in Hm. Qed.

(** X16.  On every object, [_parse] leaves the buffer and the path
    as they were.  When it returns, [parsed] is set and [parse_error] is what
    it was.  When it raises, the exception is LnkForensicsError, its message
    is 'Parsing failed: ' followed by the message stored in [parse_error], and
    [parsed] is what it was. *)
Theorem parse_reports_its_outcome (s : LnkForensics) :
  indata (snd (_parse s)) = indata s /\
  file_path (snd (_parse s)) = file_path s /\
  match fst (_parse s) with
  | Ok _ => parsed (snd (_parse s)) = true /\ parse_error (snd (_parse s)) = parse_error s
  | Raise e =>
      exists msg,
        e = LnkForensicsError ("Parsing failed: " +:+ msg) /\
        parse_error (snd (_parse s)) = Some msg /\
        parsed (snd (_parse s)) = parsed s
  end.
Proof.
  assert (Hun : forall {B} (proj : LnkForensics -> B),
            (forall v s, proj (set_lnk_header v s) = proj s) ->
            (forall v s, proj (set_parse_error v s) = proj s) ->
            (forall v s, proj (set_linkFlag v s) = proj s) ->
            (forall v s, proj (set_fileFlag v s) = proj s) ->
            (forall v s, proj (set_extraBlocks v s) = proj s) ->
            (forall v s, proj (set_data v s) = proj s) ->
            (forall v s, proj (set_loc_information v s) = proj s) ->
            (forall v s, proj (set_parsed v s) = proj s) ->
            unchanged proj _parse).
  { intros B proj Hh He Hl Hf Hx Hd Hli Hp.
    pose proof (_parse_lnk_header_unchanged proj Hh He) as U1.
    destruct (flags_unchanged proj Hl Hf) as [U2 U3].
    pose proof (fun index => unchanged_with_index proj index parse_regions
                               (parse_regions_unchanged proj Hx Hd Hli Hp)) as U4.
    unfold _parse. unchanged_solve; auto. }
  split; [apply (Hun _ indata); reflexivity|].
  split; [apply (Hun _ file_path); reflexivity|].
  unfold _parse, try_except.
  match goal with
  | |- context [match ?body s with _ => _ end] => set (BODY := body)
  end.
  destruct (BODY s) as [[[]|e] s1] eqn:Hb; cbn [fst snd].
  - unfold BODY in Hb.
    apply bind_ok_inv in Hb as (ok & s2 & Hhdr & Hb).
    destruct ok; cbn [negb] in Hb; [|apply bind_ok_inv in Hb as (? & ? & _ & Hb); discriminate Hb].
    apply bind_ok_inv in Hb as ([] & s3 & Hlf & Hb).
    apply bind_ok_inv in Hb as ([] & s4 & Hff & Hb).
    apply bind_ok_inv in Hb as (index & s5 & Hsz & Hb).
    destruct (flags_unchanged parse_error ltac:(reflexivity) ltac:(reflexivity)) as [U2 U3].
    split.
    + unfold with_index in Hb.
      destruct (parse_regions (mkFrame s5 index)) as [r f'] eqn:Hr.
      injection Hb as -> <-. by apply (parse_regions_sets_parsed _ _ Hr).
    + pose proof (unchanged_with_index parse_error index parse_regions
                    (parse_regions_unchanged parse_error ltac:(reflexivity) ltac:(reflexivity)
                       ltac:(reflexivity) ltac:(reflexivity))) as U4.
      rewrite (unchanged_run _ _ _ _ _ U4 Hb).
      assert (U5 : unchanged parse_error (header_int "header_size"))
        by (unfold header_int; unchanged_solve).
      rewrite (unchanged_run _ _ _ _ _ U5 Hsz).
      rewrite (unchanged_run _ _ _ _ _ U3 Hff), (unchanged_run _ _ _ _ _ U2 Hlf).
      by apply _parse_lnk_header_true.
  - exists (str_exn e). unfold bind, modify, raise. cbn [fst snd].
    split; [reflexivity|]. split; [reflexivity|].
    change (parsed (set_parse_error ?v ?x)) with (parsed x).
    assert (Hkept : kept_on_raise parsed BODY).
    { unfold BODY.
      apply kept_on_raise_bind;
        [apply _parse_lnk_header_unchanged; reflexivity|intros ok].
      destruct (flags_unchanged parsed ltac:(reflexivity) ltac:(reflexivity)) as [U2 U3].
      destruct ok; cbn [negb].
      - apply kept_on_raise_bind; [exact U2|intros _].
        apply kept_on_raise_bind; [exact U3|intros _].
        apply kept_on_raise_bind; [unfold header_int; unchanged_solve|intros index].
        apply kept_on_raise_with_index, parse_regions_keeps_parsed.
      - apply unchanged_kept_on_raise. unchanged_solve. }
    specialize (Hkept s e). rewrite Hb in Hkept. by apply Hkept.
Qed.

(** ** The LinkInfo region read without an exception *)

Lemma unpack_i_inv x v : unpack_i x = Ok v -> v = signed32 x.
Proof.
  unfold unpack_i, unpack_signed, signed32. destruct (len x =? 4); [|discriminate].
  by intros [= <-].
Qed.

Lemma lift_inv {S A} (r : res A) (s s' : S) a : lift r s = (Ok a, s') -> r = Ok a /\ s' = s.
Proof. unfold lift. intros [= -> ->]. by split. Qed.

Lemma loc_int_inv k s z s' :
  loc_int k s = (Ok z, s') -> s' = s /\ loc_information s !! k = Some (PInt z).
Proof.
  unfold loc_int, bind, gets, ret, raise.
  destruct (loc_information s !! k) as [[| |?|?|?]|]; try discriminate.
  intros [= -> ->]. by split.
Qed.

Lemma on_self_inv {A} (m : M LnkForensics A) f a f' :
  on_self m f = (Ok a, f') ->
  exists s', m (fr_self f) = (Ok a, s') /\ f' = mkFrame s' (fr_index f).
Proof.
  unfold on_self. destruct (m (fr_self f)) as [r s']. intros [= -> <-]. by exists s'.
Qed.

Lemma link_info_header_ok index s s' :
  link_info_header index s = (Ok tt, s') ->
  s' = set_loc_information (link_info_fields_at (indata s) index) s.
Proof.
  unfold link_info_header. intros Hr.
  apply bind_ok_inv in Hr as (b & s0 & Hb & Hr). injection Hb as <- <-.
  repeat match type of Hr with
         | bind (lift _) _ _ = _ =>
             let v := fresh "v" in let E := fresh "E" in
             apply bind_ok_inv in Hr as (v & ? & [E ->]%lift_inv & Hr);
             apply unpack_i_inv in E; subst v
         end.
  unfold modify in Hr. injection Hr as <-. reflexivity.
Qed.

Lemma network_information_ok index s s' off :
  loc_information s !! "CommonNetworkRelativeLinkOffset" = Some (PInt off) ->
  network_information index s = (Ok tt, s') ->
  s' = set_loc_information
         (<[network_key := PDict (network_fields (indata s) (index + off))]> (loc_information s)) s.
Proof.
  unfold network_information. intros Hoff Hr.
  apply bind_ok_inv in Hr as (b & s0 & Hb & Hr). injection Hb as <- <-.
  apply bind_ok_inv in Hr as (off' & s0 & [-> Hoff']%loc_int_inv & Hr).
  assert (off' = off) by congruence. subst off'.
  repeat match type of Hr with
         | bind (lift _) _ _ = _ =>
             let v := fresh "v" in let E := fresh "E" in
             apply bind_ok_inv in Hr as (v & ? & [E ->]%lift_inv & Hr);
             apply unpack_i_inv in E; subst v
         end.
  unfold loc_set, modify in Hr. injection Hr as <-. reflexivity.
Qed.

Lemma volume_int_lookup k s d z :
  loc_information s !! volume_key = Some (PDict d) -> d !! k = Some (PInt z) ->
  volume_int k s = (Ok z, s).
Proof.
  intros Hd Hk. unfold volume_int, volume_dict, bind, gets, ret. fold volume_key.
  by rewrite Hd, Hk.
Qed.

Lemma volume_set_lookup k x s d :
  loc_information s !! volume_key = Some (PDict d) ->
  volume_set k x s =
    (Ok tt, set_loc_information (<[volume_key := PDict (<[k := x]> d)]> (loc_information s)) s).
Proof.
  intros Hd. unfold volume_set, volume_dict, bind, gets, ret, loc_set, modify. fold volume_key.
  by rewrite Hd.
Qed.

Lemma volume_information_ok index s s' voff lbp :
  loc_information s !! "VolumeIDOffset" = Some (PInt voff) ->
  loc_information s !! "LocalBasePathOffset" = Some (PInt lbp) ->
  volume_information index s = (Ok tt, s') ->
  s' = set_loc_information
         (<[volume_key := PDict (volume_fields (indata s) (index + voff))]>
            (with_local_base_path (indata s) index lbp (loc_information s))) s /\
  (lbp <> 0 -> exists text, _read_string (indata s) (index + lbp) = Ok text).
Proof.
  intros Hvoff Hlbp0 Hr.
  unfold volume_information in Hr.
  apply bind_ok_inv in Hr as (b & s0 & Hb & Hr). injection Hb as <- <-.
  apply bind_ok_inv in Hr as (lbp' & s0 & [-> Hlbp]%loc_int_inv & Hr).
  assert (lbp' = lbp) by congruence. subst lbp'.
  apply bind_ok_inv in Hr as ([] & s1 & Hpath & Hr).
  assert (Hs1 : s1 = set_loc_information
                       (with_local_base_path (indata s) index lbp (loc_information s)) s /\
                (lbp <> 0 -> exists text, _read_string (indata s) (index + lbp) = Ok text)).
  { unfold with_local_base_path. destruct (lbp =? 0) eqn:E; cbn [negb] in Hpath.
    - unfold ret in Hpath. injection Hpath as <-. split; [by destruct s|lia].
    - apply bind_ok_inv in Hpath as (off & s0 & [-> Hoff]%loc_int_inv & Hpath).
      assert (off = lbp) by congruence. subst off.
      apply bind_ok_inv in Hpath as (text & s0 & [Htext ->]%lift_inv & Hpath).
      unfold loc_set, modify in Hpath. injection Hpath as <-. rewrite Htext.
      split; [reflexivity|]. intros _. by exists text. }
  destruct Hs1 as [Hs1 Htext]. split; [|exact Htext].
  set (l1 := with_local_base_path (indata s) index lbp (loc_information s)) in *.
  assert (Hvoff1 : l1 !! "VolumeIDOffset" = Some (PInt voff)).
  { unfold l1, with_local_base_path. destruct (lbp =? 0); [exact Hvoff|].
    destruct (_read_string _ _); [|exact Hvoff]. by rewrite lookup_insert_ne by discriminate. }
  subst s1.
  apply bind_ok_inv in Hr as (off & s0 & [-> Hoff]%loc_int_inv & Hr).
  cbn [loc_information set_loc_information] in Hoff.
  assert (off = voff) by congruence. subst off.
  cbn [indata] in Hr.
  repeat match type of Hr with
         | bind (lift _) _ _ = _ =>
             let v := fresh "v" in let E := fresh "E" in
             apply bind_ok_inv in Hr as (v & ? & [E ->]%lift_inv & Hr);
             apply unpack_i_inv in E; subst v
         end.
  apply bind_ok_inv in Hr as ([] & s2 & Hset & Hr).
  unfold loc_set, modify in Hset. injection Hset as <-.
  cbn [loc_information set_loc_information] in Hr.
  set (j := index + voff) in *.
  set (size := signed32 (slice (indata s) (j + 0) (j + 4))) in *.
  set (drive_type := signed32 (slice (indata s) (j + 4) (j + 8))) in *.
  set (serial := signed32 (slice (indata s) (j + 8) (j + 12))) in *.
  set (label_offset := signed32 (slice (indata s) (j + 12) (j + 16))) in *.
  set (d0 := (<["VolumeIDSize" := PInt size]>
             (<["rDriveType" := PInt drive_type]>
             (<["DriveSerialNumber" := PStr (hex serial)]>
             (<["VolumeLabelOffset" := PInt label_offset]> ∅)))) : gmap string pyval) in *.
  assert (Hstate : forall d (l : gmap string pyval),
            set_loc_information l (set_loc_information d s) = set_loc_information l s)
    by (intros; by destruct s).
  rewrite Hstate in Hr.
  set (s2 := set_loc_information (<["VolumeIDAndLocalBasePath" := PDict d0]> l1) s) in *.
  assert (Hd0 : loc_information s2 !! volume_key = Some (PDict d0))
    by (unfold s2; cbn [loc_information set_loc_information]; apply lookup_insert_eq).
  assert (Hdt0 : d0 !! "rDriveType" = Some (PInt drive_type)) by reflexivity.
  rewrite (bind_ok _ _ _ _ _ (volume_int_lookup "rDriveType" s2 d0 drive_type Hd0 Hdt0)) in Hr.
  apply bind_ok_inv in Hr as ([] & s3 & Hdt & Hr).
  set (d1 := if (0 <=? drive_type) && (drive_type <? len DRIVE_TYPES)
             then <["DriveType" := PStr (nth (Z.to_nat drive_type) DRIVE_TYPES EmptyString)]> d0
             else d0).
  assert (Hs3 : s3 = set_loc_information (<[volume_key := PDict d1]> l1) s).
  { unfold d1. destruct ((0 <=? drive_type) && (drive_type <? len DRIVE_TYPES)).
    - rewrite (volume_set_lookup _ _ s2 d0 Hd0) in Hdt. injection Hdt as <-.
      unfold s2. cbn [loc_information set_loc_information]. rewrite Hstate.
      by rewrite insert_insert_eq.
    - unfold ret in Hdt. by injection Hdt as <-. }
  subst s3.
  set (s3 := set_loc_information (<[volume_key := PDict d1]> l1) s) in *.
  assert (Hd1 : loc_information s3 !! volume_key = Some (PDict d1))
    by (unfold s3; cbn [loc_information set_loc_information]; apply lookup_insert_eq).
  assert (Hvoff3 : loc_information s3 !! "VolumeIDOffset" = Some (PInt voff))
    by (unfold s3; cbn [loc_information set_loc_information];
        by rewrite lookup_insert_ne by discriminate).
  assert (Hlo1 : d1 !! "VolumeLabelOffset" = Some (PInt label_offset))
    by (unfold d1; destruct (_ && _); reflexivity).
  assert (Hsz1 : d1 !! "VolumeIDSize" = Some (PInt size))
    by (unfold d1; destruct (_ && _); reflexivity).
  rewrite (bind_ok _ _ _ _ _ (volume_int_lookup "VolumeLabelOffset" s3 d1 _ Hd1 Hlo1)) in Hr.
  unfold volume_fields. fold j size drive_type serial label_offset. cbv zeta. fold d0 d1.
  destruct (negb (label_offset =? 20)); cbn [andb].
  - rewrite (bind_ok _ _ _ _ _ (volume_int_lookup "VolumeLabelOffset" s3 d1 _ Hd1 Hlo1)) in Hr.
    rewrite (bind_ok _ _ _ _ _ (volume_int_lookup "VolumeIDSize" s3 d1 _ Hd1 Hsz1)) in Hr.
    apply bind_ok_inv in Hr as (off & s0 & [-> Hoff3]%loc_int_inv & Hr).
    assert (off = voff) by congruence. subst off. fold j in Hr.
    destruct (j + label_offset + (size - label_offset) <=? len (indata s)).
    + rewrite (volume_set_lookup _ _ s3 d1 Hd1) in Hr. injection Hr as <-.
      unfold s3. cbn [loc_information set_loc_information]. rewrite Hstate.
      by rewrite insert_insert_eq.
    + unfold ret in Hr. by injection Hr as <-.
  - unfold ret in Hr. by injection Hr as <-.
Qed.

Lemma with_local_base_path_lookup b index lbp l k :
  k <> "LocalBasePath" -> with_local_base_path b index lbp l !! k = l !! k.
Proof.
  intros Hk. unfold with_local_base_path. destruct (lbp =? 0); [reflexivity|].
  destruct (_read_string _ _); [|reflexivity]. by rewrite lookup_insert_ne by congruence.
Qed.

Lemma link_info_fields_at_lookup b i :
  link_info_fields_at b i !! "LinkInfoSize" = Some (PInt (signed32 (slice b i (i + 4)))) /\
  link_info_fields_at b i !! "LinkInfoFlags"
    = Some (PInt (signed32 (slice b (i + 8) (i + 12)))) /\
  link_info_fields_at b i !! "VolumeIDOffset"
    = Some (PInt (signed32 (slice b (i + 12) (i + 16)))) /\
  link_info_fields_at b i !! "LocalBasePathOffset"
    = Some (PInt (signed32 (slice b (i + 16) (i + 20)))) /\
  link_info_fields_at b i !! "CommonNetworkRelativeLinkOffset"
    = Some (PInt (signed32 (slice b (i + 20) (i + 24)))).
Proof. repeat split. Qed.

Lemma link_info_decoded_size b i :
  link_info_decoded b i !! "LinkInfoSize" = Some (PInt (signed32 (slice b i (i + 4)))).
Proof.
  destruct (link_info_fields_at_lookup b i) as (Hsz & _).
  unfold link_info_decoded. cbv zeta.
  destruct (negb (Z.land _ 1 =? 0)).
  - rewrite lookup_insert_ne by discriminate.
    by rewrite with_local_base_path_lookup by discriminate.
  - destruct (negb (Z.land _ 2 =? 0)); [|exact Hsz].
    by rewrite lookup_insert_ne by discriminate.
Qed.

Lemma link_info_body_ok f f' :
  link_info_body f = (Ok tt, f') ->
  let b := indata (fr_self f) in
  let i := fr_index f in
  f' = mkFrame (set_loc_information (link_info_decoded b i) (fr_self f))
         (i + signed32 (slice b i (i + 4))).
Proof.
  intros Hr b i. rewrite link_info_body_split in Hr.
  apply bind_ok_inv in Hr as ([] & f1 & Hhdr & Hr).
  apply on_self_inv in Hhdr as (s1 & Hhdr & ->).
  apply link_info_header_ok in Hhdr. fold b i in Hhdr.
  destruct (link_info_fields_at_lookup b i) as (Hsz & Hfl & Hvo & Hlb & Hno).
  assert (Hstate : forall d (l : gmap string pyval),
            set_loc_information l (set_loc_information d (fr_self f))
              = set_loc_information l (fr_self f))
    by (intros; by destruct (fr_self f)).
  unfold link_info_rest in Hr. fold i in Hr.
  apply bind_ok_inv in Hr as (flags & fa & Hflags & Hr).
  apply on_self_inv in Hflags as (sa & [-> Hflags]%loc_int_inv & ->).
  cbn [fr_self fr_index] in *.
  assert (flags = signed32 (slice b (i + 8) (i + 12)))
    by (subst s1; cbn [loc_information set_loc_information] in Hflags; congruence).
  subst flags.
  apply bind_ok_inv in Hr as ([] & fb & Hbranch & Hr).
  assert (Hfb : fb = mkFrame (set_loc_information (link_info_decoded b i) (fr_self f)) i).
  { unfold link_info_decoded. cbv zeta.
    destruct (negb (Z.land (signed32 (slice b (i + 8) (i + 12))) 1 =? 0)).
    - apply on_self_inv in Hbranch as (sb & Hvol & ->). cbn [fr_self fr_index] in *.
      subst s1.
      destruct (volume_information_ok i
                  (set_loc_information (link_info_fields_at b i) (fr_self f)) sb _ _
                  Hvo Hlb Hvol) as [-> _].
      cbn [indata loc_information set_loc_information]. fold b. by rewrite Hstate.
    - apply bind_ok_inv in Hbranch as (flags & fa & Hflags2 & Hbranch).
      apply on_self_inv in Hflags2 as (sa & [-> Hflags2]%loc_int_inv & ->).
      cbn [fr_self fr_index] in *.
      assert (flags = signed32 (slice b (i + 8) (i + 12)))
        by (subst s1; cbn [loc_information set_loc_information] in Hflags2; congruence).
      subst flags.
      destruct (negb (Z.land (signed32 (slice b (i + 8) (i + 12))) 2 =? 0)).
      + apply on_self_inv in Hbranch as (sb & Hnet & ->). cbn [fr_self fr_index] in *.
        subst s1.
        rewrite (network_information_ok i
                   (set_loc_information (link_info_fields_at b i) (fr_self f)) sb _ Hno Hnet).
        cbn [indata loc_information set_loc_information]. fold b. by rewrite Hstate.
      + unfold ret in Hbranch. injection Hbranch as <-. by subst s1. }
  subst fb.
  apply bind_ok_inv in Hr as (size & fc & Hsize & Hr).
  apply on_self_inv in Hsize as (sc & [-> Hsize]%loc_int_inv & ->).
  cbn [fr_self fr_index loc_information set_loc_information] in *.
  rewrite link_info_decoded_size in Hsize. injection Hsize as <-.
  unfold set_index, modify in Hr. injection Hr as <-. reflexivity.
Qed.

Lemma link_info_entry_indata path b :
  76 <= len b -> unpack_I (slice b 0 4) = Ok 76 -> indata (fr_self (link_info_entry path b)) = b.
Proof.
  intros Hlen H76. unfold link_info_entry.
  rewrite (region_id_list_unchanged indata). cbn [fr_self].
  by destruct (header_state_fields path b Hlen H76) as (-> & _ & _).
Qed.

Lemma link_info_success path b :
  76 <= len b -> unpack_I (slice b 0 4) = Ok 76 ->
  let f := link_info_entry path b in
  flag_enabled (fr_self f) "HasLinkInfo" = true ->
  flag_enabled (fr_self f) "ForceNoLinkInfo" = false ->
  fst (link_info_body f) = Ok tt ->
  loc_information (parsed_object path b) = link_info_decoded b (fr_index f) /\
  fr_index (region_link_info f) = fr_index f + signed32 (slice b (fr_index f) (fr_index f + 4)).
Proof.
  intros Hlen H76 f Hhas Hforce Hok.
  destruct (link_info_body f) as [r f'] eqn:Hbody. cbn [fst] in Hok. subst r.
  pose proof (link_info_body_ok f f' Hbody) as Hf'. cbv zeta in Hf'.
  pose proof (link_info_entry_indata path b Hlen H76) as Hin. fold f in Hin.
  rewrite Hin in Hf'.
  rewrite parsed_object_loc_information. fold f.
  unfold region_link_info. rewrite Hhas, Hforce. cbn [andb negb]. rewrite Hbody. cbn [snd].
  subst f'. by split.
Qed.

(** X17.  When the LinkInfo region is entered and read without
    an exception, [loc_information] of the parsed object is determined by the
    buffer and the cursor [i] of the region: the seven header fields are the
    signed 32-bit numbers at [i], [i + 4], ..., [i + 24]; with bit 0 of the
    flags set, the VolumeID read at [i + VolumeIDOffset] and, when
    LocalBasePathOffset is not zero, the local base path; with bit 0 clear and
    bit 1 set, the five network fields read at
    [i + CommonNetworkRelativeLinkOffset].  The cursor moves by the declared
    LinkInfoSize as read, whatever the region really spans. *)
Theorem link_info_success_is_decoded_in_full (path : option string) (b : bytes) :
  76 <= len b -> unpack_I (slice b 0 4) = Ok 76 ->
  let f := link_info_entry path b in
  flag_enabled (fr_self f) "HasLinkInfo" = true ->
  flag_enabled (fr_self f) "ForceNoLinkInfo" = false ->
  fst (link_info_body f) = Ok tt ->
  exists s,
    _parse (new_object path b) = (Ok tt, s) /\
    loc_information s = link_info_decoded b (fr_index f) /\
    fr_index (region_link_info f)
      = fr_index f + signed32 (slice b (fr_index f) (fr_index f + 4)).
Proof.
  intros Hlen H76 f Hhas Hforce Hok. exists (parsed_object path b).
  split; [by apply _parse_valid|].
  exact (link_info_success path b Hlen H76 Hhas Hforce Hok).
Qed.

(** The property at [link_info_volume]: the cursor moves from 76 to 129. *)
Lemma link_info_success_is_decoded_in_full_witness :
  exists s,
    _parse (new_object None link_info_volume) = (Ok tt, s) /\
    fr_index (region_link_info (link_info_entry None link_info_volume)) = 129.
Proof.
  assert (Hlen : 76 <= len link_info_volume) by (vm_compute; discriminate).
  assert (H76 : unpack_I (slice link_info_volume 0 4) = Ok 76) by (vm_compute; reflexivity).
  assert (Hhas : flag_enabled (fr_self (link_info_entry None link_info_volume))
                   "HasLinkInfo" = true) by (vm_compute; reflexivity).
  assert (Hforce : flag_enabled (fr_self (link_info_entry None link_info_volume))
                     "ForceNoLinkInfo" = false) by (vm_compute; reflexivity).
  assert (Hok : fst (link_info_body (link_info_entry None link_info_volume)) = Ok tt)
    by (vm_compute; reflexivity).
  destruct (link_info_success_is_decoded_in_full None link_info_volume Hlen H76 Hhas Hforce Hok)
    as (s & Hs & _ & Hidx).
  exists s. split; [exact Hs|]. rewrite Hidx. vm_compute. reflexivity.
Defined.

(** ** The volume and network reports *)

Lemma volume_fields_lookup b j :
  let size := signed32 (slice b (j + 0) (j + 4)) in
  let drive_type := signed32 (slice b (j + 4) (j + 8)) in
  let serial := signed32 (slice b (j + 8) (j + 12)) in
  let label_offset := signed32 (slice b (j + 12) (j + 16)) in
  volume_fields b j !! "VolumeIDSize" = Some (PInt size) /\
  volume_fields b j !! "rDriveType" = Some (PInt drive_type) /\
  volume_fields b j !! "DriveSerialNumber" = Some (PStr (hex serial)) /\
  volume_fields b j !! "VolumeLabelOffset" = Some (PInt label_offset) /\
  volume_fields b j !! "DriveType" =
    (if (0 <=? drive_type) && (drive_type <? len DRIVE_TYPES)
     then Some (PStr (nth (Z.to_nat drive_type) DRIVE_TYPES EmptyString)) else None) /\
  volume_fields b j !! "VolumeLabel" =
    (if negb (label_offset =? 20) && (j + label_offset + (size - label_offset) <=? len b)
     then Some (PStr (_clean_line (replace_nul
                  (slice b (j + label_offset) (j + label_offset + (size - label_offset))))))
     else None).
Proof.
  cbv zeta. unfold volume_fields. cbv zeta.
  destruct ((0 <=? _) && (_ <? len DRIVE_TYPES));
    destruct (negb (_ =? 20) && (_ <=? len b)); repeat split.
Qed.

Lemma hex_truthy z : truthy (PStr (hex z)) = true.
Proof. unfold hex. destruct (z <? 0); reflexivity. Qed.

Lemma drive_type_truthy dt :
  0 <= dt -> dt < len DRIVE_TYPES ->
  truthy (PStr (nth (Z.to_nat dt) DRIVE_TYPES EmptyString)) = true.
Proof.
  intros H0 H7. change (len DRIVE_TYPES) with 7 in H7.
  assert (Hn : (Z.to_nat dt < 7)%nat) by lia.
  destruct (Z.to_nat dt) as [|[|[|[|[|[|[|n]]]]]]]; try reflexivity. lia.
Qed.

Lemma get_volume_info_values s k v : get_volume_info s !! k = Some v -> truthy v = true.
Proof.
  unfold get_volume_info. destruct (negb (parsed s)); [by rewrite lookup_empty|].
  cbv zeta. intros Hk. by apply map_lookup_filter_Some in Hk as [_ HP].
Qed.

Lemma get_volume_info_lookup s :
  parsed s = true ->
  let vol := as_dict (get_or (loc_information s) volume_key (PDict ∅)) in
  (forall v, get_or vol "DriveSerialNumber" (PStr EmptyString) = v -> truthy v = true ->
             get_volume_info s !! "drive_serial" = Some v) /\
  (forall v, get_or vol "DriveType" (PStr EmptyString) = v ->
             get_volume_info s !! "drive_type" = if truthy v then Some v else None) /\
  (forall v, get_or vol "VolumeLabel" (PStr EmptyString) = v ->
             get_volume_info s !! "volume_label" = if truthy v then Some v else None) /\
  (forall v, get_or (loc_information s) "LocalBasePath" (PStr EmptyString) = v ->
             get_volume_info s !! "local_base_path" = if truthy v then Some v else None).
Proof.
  intros Hparsed vol. unfold get_volume_info. rewrite Hparsed. cbn [negb]. cbv zeta.
  fold volume_key. fold vol.
  assert (Hget : forall (m : gmap string pyval) k v,
            m !! k = Some v ->
            filter (fun kv : string * pyval => truthy (snd kv) = true) m !! k
              = if truthy v then Some v else None).
  { intros m k v Hm. destruct (truthy v) eqn:Ht.
    - apply map_lookup_filter_Some. by split.
    - apply map_lookup_filter_None. right. intros x Hx. assert (x = v) by congruence.
      subst x. simpl. congruence. }
  split; [|split; [|split]].
  - intros v Hv Ht.
    rewrite (Hget _ "drive_serial" v), Ht; [reflexivity|].
    rewrite lookup_insert_ne by discriminate. rewrite lookup_insert_eq. by rewrite Hv.
  - intros v Hv. apply Hget. rewrite lookup_insert_eq. by rewrite Hv.
  - intros v Hv. apply Hget. do 2 (rewrite lookup_insert_ne by discriminate).
    rewrite lookup_insert_eq. by rewrite Hv.
  - intros v Hv. apply Hget. do 3 (rewrite lookup_insert_ne by discriminate).
    rewrite lookup_insert_eq. by rewrite Hv.
Qed.

Lemma get_volume_info_empty s :
  parsed s = true ->
  loc_information s !! volume_key = None -> loc_information s !! "LocalBasePath" = None ->
  get_volume_info s = ∅.
Proof.
  intros Hparsed Hvol Hlbp. apply map_eq. intros k. rewrite lookup_empty.
  destruct (get_volume_info s !! k) as [v|] eqn:Hk; [|reflexivity]. exfalso.
  pose proof (get_volume_info_values s k v Hk) as Ht.
  unfold get_volume_info in Hk. rewrite Hparsed in Hk. cbn [negb] in Hk. cbv zeta in Hk.
  apply map_lookup_filter_Some in Hk as [Hk _].
  fold volume_key in Hk. unfold get_or in Hk. rewrite Hvol, Hlbp in Hk. cbn [as_dict] in Hk.
  rewrite !lookup_empty in Hk.
  rewrite !lookup_insert in Hk.
  repeat match type of Hk with
         | (if ?c then _ else _) = _ => destruct c; [injection Hk as <-; discriminate Ht|]
         end.
  rewrite lookup_empty in Hk. discriminate Hk.
Qed.

(** X18.  When the LinkInfo region is entered and read without an
    exception: with bit 0 of its flags set, [get_volume_info] reports under
    'drive_serial' the text [hex] gives for the serial number read as a signed
    32-bit number (with a minus sign when its bit 31 is set), and under
    'drive_type' the name of the drive type when the number read is from 0
    to 6, and nothing otherwise, and [get_network_info] is empty; with bit 0
    clear and bit 1 set, [get_network_info] is the five network fields and
    [get_volume_info] is empty; with neither bit set both are empty.
    [get_volume_info] never reports an empty value. *)
Theorem volume_and_network_reports (path : option string) (b : bytes) :
  76 <= len b -> unpack_I (slice b 0 4) = Ok 76 ->
  let f := link_info_entry path b in
  flag_enabled (fr_self f) "HasLinkInfo" = true ->
  flag_enabled (fr_self f) "ForceNoLinkInfo" = false ->
  fst (link_info_body f) = Ok tt ->
  let i := fr_index f in
  let flags := signed32 (slice b (i + 8) (i + 12)) in
  let j := i + signed32 (slice b (i + 12) (i + 16)) in
  let n := i + signed32 (slice b (i + 20) (i + 24)) in
  let drive_type := signed32 (slice b (j + 4) (j + 8)) in
  exists s,
    _parse (new_object path b) = (Ok tt, s) /\
    (Z.land flags 1 <> 0 ->
     get_volume_info s !! "drive_serial"
       = Some (PStr (hex (signed32 (slice b (j + 8) (j + 12))))) /\
     get_volume_info s !! "drive_type"
       = (if (0 <=? drive_type) && (drive_type <? 7)
          then Some (PStr (nth (Z.to_nat drive_type) DRIVE_TYPES EmptyString)) else None) /\
     get_network_info s = ∅) /\
    (Z.land flags 1 = 0 -> Z.land flags 2 <> 0 ->
     get_network_info s = network_fields b n /\ get_volume_info s = ∅) /\
    (Z.land flags 1 = 0 -> Z.land flags 2 = 0 ->
     get_network_info s = ∅ /\ get_volume_info s = ∅) /\
    (forall k v, get_volume_info s !! k = Some v -> truthy v = true).
Proof.
  intros Hlen H76 f Hhas Hforce Hok i flags j n drive_type. exists (parsed_object path b).
  split; [by apply _parse_valid|].
  destruct (link_info_success path b Hlen H76 Hhas Hforce Hok) as [Hloc _].
  fold f i in Hloc. unfold link_info_decoded in Hloc. cbv zeta in Hloc.
  fold flags j n in Hloc.
  pose proof (parsed_object_parsed path b) as Hparsed.
  assert (Hnet : forall l : gmap string pyval,
            loc_information (parsed_object path b) = l ->
            get_network_info (parsed_object path b)
              = as_dict (get_or l network_key (PDict ∅))).
  { intros l Hl. unfold get_network_info. rewrite Hparsed. cbn [negb]. by rewrite Hl. }
  assert (Hfields : forall k, k = volume_key \/ k = network_key \/ k = "LocalBasePath" ->
            link_info_fields_at b i !! k = None).
  { intros k [->|[->| ->]]; reflexivity. }
  split; [|split; [|split]].
  - intros Hbit0. replace (Z.land flags 1 =? 0) with false in Hloc by lia. cbn [negb] in Hloc.
    destruct (get_volume_info_lookup _ Hparsed) as (Hserial & Hdt & _ & _).
    cbv zeta in Hserial, Hdt. rewrite Hloc in Hserial, Hdt.
    unfold get_or at 2 in Hserial. unfold get_or at 2 in Hdt.
    rewrite lookup_insert_eq in Hserial, Hdt. cbn [as_dict] in Hserial, Hdt.
    destruct (volume_fields_lookup b j) as (_ & _ & Hs & _ & Ht & _). cbv zeta in Hs, Ht.
    split; [|split].
    + apply Hserial; [unfold get_or; by rewrite Hs|apply hex_truthy].
    + fold drive_type in Ht. change (len DRIVE_TYPES) with 7 in Ht.
      rewrite (Hdt _ eq_refl). unfold get_or. rewrite Ht.
      destruct ((0 <=? drive_type) && (drive_type <? 7)) eqn:Hrange; [|reflexivity].
      rewrite drive_type_truthy; [reflexivity|lia|change (len DRIVE_TYPES) with 7; lia].
    + rewrite (Hnet _ Hloc). unfold get_or. rewrite lookup_insert_ne by discriminate.
      rewrite with_local_base_path_lookup by discriminate.
      by rewrite Hfields by tauto.
  - intros Hbit0 Hbit1. replace (Z.land flags 1 =? 0) with true in Hloc by lia.
    replace (Z.land flags 2 =? 0) with false in Hloc by lia. cbn [negb] in Hloc.
    split.
    + rewrite (Hnet _ Hloc). unfold get_or. by rewrite lookup_insert_eq.
    + apply get_volume_info_empty; [exact Hparsed| |]; rewrite Hloc;
        rewrite lookup_insert_ne by discriminate; apply Hfields; tauto.
  - intros Hbit0 Hbit1. replace (Z.land flags 1 =? 0) with true in Hloc by lia.
    replace (Z.land flags 2 =? 0) with true in Hloc by lia. cbn [negb] in Hloc.
    split.
    + rewrite (Hnet _ Hloc). unfold get_or. by rewrite Hfields by tauto.
    + apply get_volume_info_empty; [exact Hparsed| |]; rewrite Hloc; apply Hfields; tauto.
  - apply get_volume_info_values.
Qed.

(** The property at [link_info_volume]: the serial number 0xDEADBEEF is
    reported as -0x21524111. *)
Lemma volume_and_network_reports_witness :
  exists s,
    _parse (new_object None link_info_volume) = (Ok tt, s) /\
    get_volume_info s !! "drive_serial" = Some (PStr "-0x21524111") /\
    get_volume_info s !! "drive_type" = Some (PStr "DRIVE_FIXED").
Proof.
  assert (Hlen : 76 <= len link_info_volume) by (vm_compute; discriminate).
  assert (H76 : unpack_I (slice link_info_volume 0 4) = Ok 76) by (vm_compute; reflexivity).
  assert (Hhas : flag_enabled (fr_self (link_info_entry None link_info_volume))
                   "HasLinkInfo" = true) by (vm_compute; reflexivity).
  assert (Hforce : flag_enabled (fr_self (link_info_entry None link_info_volume))
                     "ForceNoLinkInfo" = false) by (vm_compute; reflexivity).
  assert (Hok : fst (link_info_body (link_info_entry None link_info_volume)) = Ok tt)
    by (vm_compute; reflexivity).
  destruct (volume_and_network_reports None link_info_volume Hlen H76 Hhas Hforce Hok)
    as (s & Hs & Hvol & _).
  exists s. split; [exact Hs|].
  destruct Hvol as (Hserial & Htype & _); [vm_compute; discriminate|].
  split; [rewrite Hserial|rewrite Htype]; vm_compute; reflexivity.
Defined.

(** ** The two sub-shapes of the LinkInfo region *)

(** C9 (as amended).  When the LinkInfo region is entered and read without an
    exception, the sub-shape the flags word selects is populated and the other
    is absent: with bit 0 set, VolumeInfo holds the fields of the VolumeID and
    NetworkShareInfo is absent, also when bit 1 is set too; with bit 0 clear
    and bit 1 set, NetworkShareInfo holds the five network fields and
    VolumeInfo is absent; with neither bit set, neither is populated.  In
    every parse result, whether the region was read to its end or not, at most
    one of the two is populated: VolumeInfo only if bit 0 is set,
    NetworkShareInfo only if bit 0 is clear and bit 1 is set. *)
Theorem sub_shapes_at_most_one (path : option string) (b : bytes) :
  76 <= len b -> unpack_I (slice b 0 4) = Ok 76 ->
  exists s,
    _parse (new_object path b) = (Ok tt, s) /\
    ~ (is_Some (loc_information s !! "VolumeIDAndLocalBasePath") /\
       is_Some (loc_information s !! "CommonNetworkRelativeLinkAndPathSuffix")) /\
    (is_Some (loc_information s !! "VolumeIDAndLocalBasePath") ->
     exists flags, loc_information s !! "LinkInfoFlags" = Some (PInt flags) /\
                   Z.land flags 1 <> 0) /\
    (is_Some (loc_information s !! "CommonNetworkRelativeLinkAndPathSuffix") ->
     exists flags, loc_information s !! "LinkInfoFlags" = Some (PInt flags) /\
                   Z.land flags 1 = 0 /\ Z.land flags 2 <> 0) /\
    (let f := link_info_entry path b in
     let i := fr_index f in
     let flags := signed32 (slice b (i + 8) (i + 12)) in
     let j := i + signed32 (slice b (i + 12) (i + 16)) in
     let n := i + signed32 (slice b (i + 20) (i + 24)) in
     flag_enabled (fr_self f) "HasLinkInfo" = true ->
     flag_enabled (fr_self f) "ForceNoLinkInfo" = false ->
     fst (link_info_body f) = Ok tt ->
     loc_information s !! "LinkInfoFlags" = Some (PInt flags) /\
     (Z.land flags 1 <> 0 ->
      loc_information s !! "VolumeIDAndLocalBasePath" = Some (PDict (volume_fields b j)) /\
      loc_information s !! "CommonNetworkRelativeLinkAndPathSuffix" = None /\
      get_volume_info s !! "drive_serial"
        = Some (PStr (hex (signed32 (slice b (j + 8) (j + 12))))) /\
      get_network_info s = ∅) /\
     (Z.land flags 1 = 0 -> Z.land flags 2 <> 0 ->
      loc_information s !! "CommonNetworkRelativeLinkAndPathSuffix"
        = Some (PDict (network_fields b n)) /\
      loc_information s !! "VolumeIDAndLocalBasePath" = None /\
      get_network_info s = network_fields b n /\
      get_volume_info s = ∅) /\
     (Z.land flags 1 = 0 -> Z.land flags 2 = 0 ->
      loc_information s !! "VolumeIDAndLocalBasePath" = None /\
      loc_information s !! "CommonNetworkRelativeLinkAndPathSuffix" = None /\
      get_volume_info s = ∅ /\
      get_network_info s = ∅)).
Proof.
  intros Hlen H76. exists (parsed_object path b).
  split; [by apply _parse_valid|].
  assert (Hmost :
    ~ (is_Some (loc_information (parsed_object path b) !! volume_key) /\
       is_Some (loc_information (parsed_object path b) !! network_key)) /\
    (is_Some (loc_information (parsed_object path b) !! volume_key) ->
     exists flags, loc_information (parsed_object path b) !! "LinkInfoFlags" = Some (PInt flags) /\
                   Z.land flags 1 <> 0) /\
    (is_Some (loc_information (parsed_object path b) !! network_key) ->
     exists flags, loc_information (parsed_object path b) !! "LinkInfoFlags" = Some (PInt flags) /\
                   Z.land flags 1 = 0 /\ Z.land flags 2 <> 0)).
  { rewrite parsed_object_loc_information.
    pose proof (region_link_info_shape _ (link_info_entry_empty path b Hlen H76)) as Hshape.
    cbv zeta in Hshape.
    destruct Hshape as [Hnone|(flags & Hflags & Hv & Hn)].
    - rewrite Hnone, !lookup_empty.
      split; [intros [[x Hx] _]; discriminate Hx|].
      split; intros [x Hx]; discriminate Hx.
    - split; [intros [Hvol Hnet]; destruct (Hn Hnet) as [Hzero _]; exact (Hv Hvol Hzero)|].
      split; [intros Hvol; exists flags; split; [exact Hflags|exact (Hv Hvol)]|].
      intros Hnet. exists flags. split; [exact Hflags|exact (Hn Hnet)]. }
  destruct Hmost as (Hboth & Hvol & Hnet).
  split; [exact Hboth|]. split; [exact Hvol|]. split; [exact Hnet|].
  intros f i flags j n Hhas Hforce Hok.
  destruct (link_info_success path b Hlen H76 Hhas Hforce Hok) as [Hloc _].
  fold f i in Hloc. unfold link_info_decoded in Hloc. cbv zeta in Hloc.
  fold flags j n in Hloc.
  pose proof (parsed_object_parsed path b) as Hparsed.
  fold volume_key network_key.
  assert (Hget : forall l : gmap string pyval,
            loc_information (parsed_object path b) = l ->
            get_network_info (parsed_object path b)
              = as_dict (get_or l network_key (PDict ∅))).
  { intros l Hl. unfold get_network_info. rewrite Hparsed. cbn [negb]. by rewrite Hl. }
  assert (Hfields : forall k, k = volume_key \/ k = network_key \/ k = "LocalBasePath" ->
            link_info_fields_at b i !! k = None).
  { intros k [->|[->| ->]]; reflexivity. }
  destruct (link_info_fields_at_lookup b i) as (_ & Hfl & _).
  fold flags in Hfl.
  split.
  { rewrite Hloc.
    destruct (negb (Z.land flags 1 =? 0)).
    - rewrite lookup_insert_ne by discriminate.
      by rewrite with_local_base_path_lookup by discriminate.
    - destruct (negb (Z.land flags 2 =? 0)); [|exact Hfl].
      by rewrite lookup_insert_ne by discriminate. }
  split; [|split].
  - intros Hbit0. replace (Z.land flags 1 =? 0) with false in Hloc by lia. cbn [negb] in Hloc.
    assert (Hnone : loc_information (parsed_object path b) !! network_key = None).
    { rewrite Hloc. rewrite lookup_insert_ne by discriminate.
      rewrite with_local_base_path_lookup by discriminate. apply Hfields. tauto. }
    split; [by rewrite Hloc, lookup_insert_eq|]. split; [exact Hnone|]. split.
    + destruct (get_volume_info_lookup _ Hparsed) as (Hserial & _).
      cbv zeta in Hserial. rewrite Hloc in Hserial.
      unfold get_or at 2 in Hserial. rewrite lookup_insert_eq in Hserial.
      cbn [as_dict] in Hserial.
      destruct (volume_fields_lookup b j) as (_ & _ & Hs & _). cbv zeta in Hs.
      apply Hserial; [unfold get_or; by rewrite Hs|apply hex_truthy].
    + rewrite (Hget _ eq_refl). unfold get_or. by rewrite Hnone.
  - intros Hbit0 Hbit1. replace (Z.land flags 1 =? 0) with true in Hloc by lia.
    replace (Z.land flags 2 =? 0) with false in Hloc by lia. cbn [negb] in Hloc.
    assert (Hnone : loc_information (parsed_object path b) !! volume_key = None).
    { rewrite Hloc. rewrite lookup_insert_ne by discriminate. apply Hfields. tauto. }
    split; [by rewrite Hloc, lookup_insert_eq|]. split; [exact Hnone|]. split.
    + rewrite (Hget _ Hloc). unfold get_or. by rewrite lookup_insert_eq.
    + apply get_volume_info_empty; [exact Hparsed|exact Hnone|].
      rewrite Hloc. rewrite lookup_insert_ne by discriminate. apply Hfields. tauto.
  - intros Hbit0 Hbit1. replace (Z.land flags 1 =? 0) with true in Hloc by lia.
    replace (Z.land flags 2 =? 0) with true in Hloc by lia. cbn [negb] in Hloc.
    assert (Hv0 : loc_information (parsed_object path b) !! volume_key = None)
      by (rewrite Hloc; apply Hfields; tauto).
    assert (Hn0 : loc_information (parsed_object path b) !! network_key = None)
      by (rewrite Hloc; apply Hfields; tauto).
    split; [exact Hv0|]. split; [exact Hn0|]. split.
    + apply get_volume_info_empty; [exact Hparsed|exact Hv0|].
      rewrite Hloc. apply Hfields. tauto.
    + rewrite (Hget _ eq_refl). unfold get_or. by rewrite Hn0.
Qed.

(** The claim at [link_info_volume], where VolumeInfo is populated, and at
    [link_info_network], where NetworkShareInfo is. *)
Lemma sub_shapes_at_most_one_witness :
  (exists s,
     _parse (new_object None link_info_volume) = (Ok tt, s) /\
     is_Some (loc_information s !! "VolumeIDAndLocalBasePath") /\
     loc_information s !! "CommonNetworkRelativeLinkAndPathSuffix" = None /\
     get_volume_info s !! "drive_serial" = Some (PStr "-0x21524111")) /\
  (exists s,
     _parse (new_object None link_info_network) = (Ok tt, s) /\
     is_Some (loc_information s !! "CommonNetworkRelativeLinkAndPathSuffix") /\
     loc_information s !! "VolumeIDAndLocalBasePath" = None /\
     get_network_info s !! "NetworkProviderType" = Some (PInt 0x00020000)).
Proof.
  split.
  - assert (Hlen : 76 <= len link_info_volume) by (vm_compute; discriminate).
    assert (H76 : unpack_I (slice link_info_volume 0 4) = Ok 76) by (vm_compute; reflexivity).
    assert (Hhas : flag_enabled (fr_self (link_info_entry None link_info_volume))
                     "HasLinkInfo" = true) by (vm_compute; reflexivity).
    assert (Hforce : flag_enabled (fr_self (link_info_entry None link_info_volume))
                       "ForceNoLinkInfo" = false) by (vm_compute; reflexivity).
    assert (Hok : fst (link_info_body (link_info_entry None link_info_volume)) = Ok tt)
      by (vm_compute; reflexivity).
    destruct (sub_shapes_at_most_one None link_info_volume Hlen H76)
      as (s & Hs & _ & _ & _ & Hsel).
    destruct (Hsel Hhas Hforce Hok) as (_ & Hvol & _).
    destruct Hvol as (Hv & Hn & Hserial & _); [vm_compute; discriminate|].
    exists s. split; [exact Hs|]. split; [by rewrite Hv|]. split; [exact Hn|].
    rewrite Hserial. vm_compute. reflexivity.
  - assert (Hlen : 76 <= len link_info_network) by (vm_compute; discriminate).
    assert (H76 : unpack_I (slice link_info_network 0 4) = Ok 76) by (vm_compute; reflexivity).
    assert (Hhas : flag_enabled (fr_self (link_info_entry None link_info_network))
                     "HasLinkInfo" = true) by (vm_compute; reflexivity).
    assert (Hforce : flag_enabled (fr_self (link_info_entry None link_info_network))
                       "ForceNoLinkInfo" = false) by (vm_compute; reflexivity).
    assert (Hok : fst (link_info_body (link_info_entry None link_info_network)) = Ok tt)
      by (vm_compute; reflexivity).
    destruct (sub_shapes_at_most_one None link_info_network Hlen H76)
      as (s & Hs & _ & _ & _ & Hsel).
    destruct (Hsel Hhas Hforce Hok) as (_ & _ & Hnet & _).
    destruct Hnet as (Hn & Hv & Hinfo & _); [vm_compute; reflexivity|vm_compute; discriminate|].
    exists s. split; [exact Hs|]. split; [by rewrite Hn|]. split; [exact Hv|].
    rewrite Hinfo. vm_compute. reflexivity.
Defined.

(** C9 as stated fails: at [link_info_no_shape] the LinkInfo region is decoded
    without an exception, its flags word has neither bit set, and neither
    sub-shape is in the result. *)
Lemma sub_shapes_can_both_be_absent :
  let s := snd (_parse (new_object None link_info_no_shape)) in
  fst (link_info_body (link_info_entry None link_info_no_shape)) = Ok tt /\
  is_valid s = true /\
  loc_information s !! "LinkInfoSize" = Some (PInt 28) /\
  loc_information s !! "LinkInfoFlags" = Some (PInt 0) /\
  loc_information s !! "VolumeIDAndLocalBasePath" = None /\
  loc_information s !! "CommonNetworkRelativeLinkAndPathSuffix" = None /\
  get_volume_info s = ∅ /\
  get_network_info s = ∅.
Proof. cbv zeta. repeat split; vm_compute; reflexivity. Qed.

(** ** The tracker block, through the accessors *)

(** X19.  When the extra-block walk of a buffer with a valid header
    starts at a cursor [c] that is not negative, on a block with the signature
    0xA0000003 and a declared size of at least 4 that reaches within 10 bytes
    of the end of the buffer, and the buffer holds 16 bytes from [c] on, then
    [get_machine_tracking] returns the machine identifier as the text kept by
    [_clean_line] of the 16 bytes at [c + 16], and the four identifiers as the
    hexadecimal text of the 16-byte fields at [c + 32], [c + 48], [c + 64] and
    [c + 80], cut at the end of the buffer. *)
Theorem tracker_block_is_decoded (path : option string) (b : bytes) (size : Z) :
  76 <= len b -> unpack_I (slice b 0 4) = Ok 76 ->
  let c := fr_index (walk_entry path b) in
  0 <= c -> c + 16 <= len b ->
  unpack_I (slice b c (c + 4)) = Ok size -> 4 <= size ->
  unpack_I (slice b (c + 4) (c + 8)) = Ok 0xA0000003 ->
  len b - 10 < c + size ->
  exists s,
    _parse (new_object path b) = (Ok tt, s) /\
    extraBlocks s = <[TRACKER_BLOCK := PDict (tracker_fields b c)]> ∅ /\
    get_machine_tracking s = machine_tracking_report b c.
Proof.
  intros Hlen H76 c H0 H16 Hsize Hge Hsig Hlast. exists (parsed_object path b).
  split; [by apply _parse_valid|].
  exact (tracker_block_tracking path b size Hlen H76 H0 H16 Hsize Hge Hsig Hlast).
Qed.

(** The property at [tracker_file]. *)
Lemma tracker_block_is_decoded_witness :
  exists s,
    _parse (new_object None tracker_file) = (Ok tt, s) /\
    get_machine_tracking s !! "machine_identifier" = Some (PStr "desktop-01").
Proof.
  assert (Hlen : 76 <= len tracker_file) by (vm_compute; discriminate).
  assert (H76 : unpack_I (slice tracker_file 0 4) = Ok 76) by reflexivity.
  assert (Hc : fr_index (walk_entry None tracker_file) = 76) by (vm_compute; reflexivity).
  assert (H0 : 0 <= fr_index (walk_entry None tracker_file)) by (rewrite Hc; lia).
  assert (H16 : fr_index (walk_entry None tracker_file) + 16 <= len tracker_file)
    by (rewrite Hc; vm_compute; discriminate).
  assert (Hsize : unpack_I (slice tracker_file (fr_index (walk_entry None tracker_file))
                              (fr_index (walk_entry None tracker_file) + 4)) = Ok 96)
    by (rewrite Hc; vm_compute; reflexivity).
  assert (Hge : 4 <= 96) by lia.
  assert (Hsig : unpack_I (slice tracker_file (fr_index (walk_entry None tracker_file) + 4)
                             (fr_index (walk_entry None tracker_file) + 8)) = Ok 0xA0000003)
    by (rewrite Hc; vm_compute; reflexivity).
  assert (Hlast : len tracker_file - 10 < fr_index (walk_entry None tracker_file) + 96)
    by (rewrite Hc; vm_compute; reflexivity).
  destruct (tracker_block_is_decoded None tracker_file 96 Hlen H76 H0 H16 Hsize Hge Hsig Hlast)
    as (s & Hs & _ & Htrack).
  exists s. split; [exact Hs|]. rewrite Htrack, Hc. vm_compute. reflexivity.
Defined.

(** X20.  [get_lnk_machine_id] always returns a text of at most 16
    characters, each with a code above 20 and below 128.  It returns the
    empty string whenever the constructor raises.  For a readable file with a
    valid header whose extra-block walk starts on a tracker block that reaches
    within 10 bytes of the end of the file, it returns the text kept by
    [_clean_line] of the 16 bytes that start 16 bytes into the block. *)
Theorem machine_id_is_short_printable_text (os : OS) (path : string) :
  (exists text,
     get_lnk_machine_id path = PStr text /\ printable text /\ (String.length text <= 16)%nat) /\
  (forall e, __init__ (Some path) None None = Raise e ->
             get_lnk_machine_id path = PStr EmptyString) /\
  (forall b size,
     path <> EmptyString -> open_read path = Ok b ->
     76 <= len b -> unpack_I (slice b 0 4) = Ok 76 ->
     let c := fr_index (walk_entry (Some path) b) in
     0 <= c -> c + 16 <= len b ->
     unpack_I (slice b c (c + 4)) = Ok size -> 4 <= size ->
     unpack_I (slice b (c + 4) (c + 8)) = Ok 0xA0000003 ->
     len b - 10 < c + size ->
     get_lnk_machine_id path = PStr (_clean_line (slice b (c + 16) (c + 32)))).
Proof.
  split; [|split].
  - unfold get_lnk_machine_id.
    destruct path as [|c p].
    { exists EmptyString. split; [reflexivity|]. split; [constructor|simpl; lia]. }
    rewrite __init___from_path in *.
    destruct (open_read (String c p)) as [b|e].
    + destruct (construct_cases (Some (String c p)) b) as [[_ ->]|(Hlen & H76 & ->)].
      * exists EmptyString. split; [reflexivity|]. split; [constructor|simpl; lia].
      * cbv zeta. by apply parsed_object_machine_id.
    + exists EmptyString. split; [reflexivity|]. split; [constructor|simpl; lia].
  - intros e He. unfold get_lnk_machine_id. by rewrite He.
  - intros b size Hne Hopen Hlen H76 c H0 H16 Hsize Hge Hsig Hlast. unfold get_lnk_machine_id.
    destruct path as [|a p]; [congruence|].
    rewrite __init___from_path, Hopen.
    destruct (construct_cases (Some (String a p)) b) as [[[Hs|Hb] _]|(_ & _ & ->)];
      [lia|congruence|].
    cbv zeta.
    destruct (tracker_block_tracking (Some (String a p)) b size Hlen H76 H0 H16 Hsize Hge
                Hsig Hlast) as [_ ->].
    reflexivity.
Qed.

(** The property in a file system whose only file, a.lnk, is [tracker_file]. *)
Lemma machine_id_is_short_printable_text_witness :
  @get_lnk_machine_id (one_file "a.lnk" tracker_file) "a.lnk" = PStr "desktop-01" /\
  @get_lnk_machine_id (one_file "a.lnk" tracker_file) "b.lnk" = PStr EmptyString.
Proof.
  pose proof (machine_id_is_short_printable_text (one_file "a.lnk" tracker_file) "a.lnk")
    as (_ & _ & Hgood).
  pose proof (machine_id_is_short_printable_text (one_file "a.lnk" tracker_file) "b.lnk")
    as (_ & Hbad & _).
  split.
  - rewrite (Hgood tracker_file 96); try (vm_compute; (reflexivity || discriminate)).
  - apply (Hbad (LnkForensicsError
                   "Failed to read file b.lnk: No such file or directory")). reflexivity.
Defined.
